(** * JVMCI lifecycle, counters and diagnostics

    A shallow embedding of [src/hotspot/share/jvmci/jvmci.cpp]: the shared
    library loader, the per-thread counter registry, the event/trace log,
    the crash logger and the box-cache initialisation, each as a function on
    an explicit state, followed by the properties established about them.

    Conventions.
    - A static field of class [JVMCI] is a field of a state record and keeps
      its name; a [-XX] flag that the file only reads is a Section variable.
    - A collaborator that lives outside the file ([os::dll_load], the C heap,
      [VMError::prepare_log_file], class initialisation, ...) is a Section
      variable: an oracle whose answers are not constrained.
    - A call that ends the process ([fatal], a failed [guarantee], a failed
      [assert] in a debug build) and an access outside an array are outcomes
      of their own, see [outcome]. *)

From Stdlib Require Import ZArith Lia Ascii String.
From stdpp Require Import base tactics option list strings pretty.

Local Open Scope Z_scope.

(** ** Outcomes of a call *)

(** The text handed to [fatal]: the format string and its [%s] arguments. *)
Record diagnostic := Diag { diag_format : string; diag_args : list string }.

Inductive outcome (A : Type) : Type :=
| Ok (a : A)              (* the call returns *)
| Fatal (d : diagnostic)  (* the process is terminated with a diagnostic *)
| Undefined.              (* a read or write outside an allocated block *)
Arguments Ok {A} a.
Arguments Fatal {A} d.
Arguments Undefined {A}.

Definition obind {A B : Type} (m : outcome A) (k : A -> outcome B) : outcome B :=
  match m with
  | Ok a => k a
  | Fatal d => Fatal d
  | Undefined => Undefined
  end.

Notation "'do' x <- m ; k" := (obind m (fun x => k))
  (at level 10, x name, m at level 100, k at level 200).
Notation "'do' ' p <- m ; k" := (obind m (fun x => match x with p => k end))
  (at level 10, p pattern, m at level 100, k at level 200).

(** [guarantee(p, msg)] is checked in every build. *)
Definition guarantee (p : bool) (msg : string) : outcome unit :=
  if p then Ok tt else Fatal (Diag msg []).

(** [assert(p, msg)] is HotSpot's debug-only check: it is compiled only when
    [ASSERT] is defined (the same split as [NOT_DEBUG_RETURN] on
    [jvmci_vmStructs_init]); in a product build the statement is empty. *)
Definition assert (ASSERT : bool) (p : bool) (msg : string) : outcome unit :=
  if ASSERT then guarantee p msg else Ok tt.

(** [for (int i = lo; i < lo + n; i++) body], threading the state. *)
Fixpoint for_loop {St : Type} (n : nat) (i : Z) (body : Z -> St -> outcome St) (s : St)
  : outcome St :=
  match n with
  | O => Ok s
  | S n' => do s' <- body i s; for_loop n' (i + 1) body s'
  end.

(** [for (int i = 0; i < hi; i++) body]. *)
Definition for_upto {St : Type} (hi : Z) (body : Z -> St -> outcome St) (s : St) : outcome St :=
  for_loop (Z.to_nat hi) 0 body s.

(** ** Threads *)

(** What the file reads of a [Thread]: its name. [thread_id] stands for the
    address of the object. *)
Record Thread := MkThread { thread_id : Z; name : string }.

(** ** Event and trace log *)

(** Modelled from the spec: [StringEventLog] ([utilities/events.hpp]) is not
    part of the file. It is a fixed-capacity circular log of formatted
    entries tagged with the logging thread; when full the oldest entry is
    overwritten. Time stamps are left out. *)
Record EventRecord := MkEventRecord { record_thread : Thread; record_message : string }.

Record StringEventLog := MkStringEventLog {
  log_name : string;
  log_handle : string;
  log_capacity : nat;
  log_records : list EventRecord (* oldest first *)
}.

Definition logv (thread : Thread) (msg : string) (log : StringEventLog) : StringEventLog :=
  let rs := log_records log ++ [MkEventRecord thread msg] in
  MkStringEventLog (log_name log) (log_handle log) (log_capacity log)
    (drop (length rs - log_capacity log)%nat rs).

(** [printf]'s [%*c]: the character padded with blanks to the width, on the
    left for a width [>= 0] and on the right for a negative one. *)
Fixpoint blanks_nat (n : nat) : string :=
  match n with
  | O => EmptyString
  | S n' => String " "%char (blanks_nat n')
  end.

Definition blanks (n : Z) : string := blanks_nat (Z.to_nat n).

Definition format_star_c (width : Z) (c : ascii) : string :=
  if 0 <=? width then blanks (width - 1) +:+ String c EmptyString
  else String c (blanks (- width - 1)).

Record LogState := MkLogState {
  _events : option StringEventLog;          (* None is NULL *)
  _verbose_events : option StringEventLog;
  tty : list string                         (* what was printed, in order *)
}.

(** The log a level goes to: [level == 1 ? _events : _verbose_events]. *)
Definition event_log (level : Z) (st : LogState) : option StringEventLog :=
  if level =? 1 then _events st else _verbose_events st.

Definition set_event_log (level : Z) (log : StringEventLog) (st : LogState) : LogState :=
  if level =? 1 then MkLogState (Some log) (_verbose_events st) (tty st)
  else MkLogState (_events st) (Some log) (tty st).

Section EventLog.
Variable LogEvents : bool.
Variable JVMCIEventLogLevel : Z.
Variable JVMCITraceLevel : Z.

(** [JVMCI::vlog]. [msg] is [format] rendered with [ap]; [current] is
    [Thread::current_or_null_safe()]. *)
Definition vlog (level : Z) (msg : string) (current : option Thread) (st : LogState)
  : outcome LogState :=
  if LogEvents && (level <=? JVMCIEventLogLevel) then
    let events := event_log level st in
    do _ <- guarantee (bool_decide (events <> None)) "JVMCI event log not yet initialized";
    match current, events with
    | Some thread, Some log => Ok (set_event_log level (logv thread msg log) st)
    | _, _ => Ok st
    end
  else Ok st.

(** [JVMCI::vtrace]: [tty->print] of the tag, then [tty->vprint_cr]. *)
Definition trace_tag (level : Z) (who : string) : string :=
  "JVMCITrace-" +:+ pretty level +:+ "[" +:+ who +:+ "]:" +:+ format_star_c level " "%char.

Definition vtrace (level : Z) (msg : string) (current : option Thread) (st : LogState)
  : LogState :=
  if level <=? JVMCITraceLevel then
    let who := match current with
               | Some thread => name thread
               | None => "?"
               end in
    MkLogState (_events st) (_verbose_events st) (tty st ++ [trace_tag level who; msg])
  else st.

(** [LOG_TRACE(level)]: the body of [JVMCI::event] and of [event1] to
    [event4]. *)
Definition event (level : Z) (msg : string) (current : option Thread) (st : LogState)
  : outcome LogState :=
  do st1 <- vlog level msg current st;
  Ok (vtrace level msg current st1).

Definition event1 := event 1.
Definition event2 := event 2.
Definition event3 := event 3.
Definition event4 := event 4.

End EventLog.

(** ** Shared library loader *)

Record LibraryState := MkLibraryState {
  _shared_library_handle : Z;            (* a [void*]; 0 is NULL *)
  _shared_library_path : option string;  (* a [char*]; None is NULL *)
  dll_load_calls : list string;          (* ghost: every path handed to os::dll_load *)
  library_log : LogState
}.

Definition set_library_log (lg : LogState) (st : LibraryState) : LibraryState :=
  MkLibraryState (_shared_library_handle st) (_shared_library_path st) (dll_load_calls st) lg.

Section Library.
Variable ASSERT : bool.
Variable LogEvents : bool.
Variable JVMCIEventLogLevel : Z.
Variable JVMCITraceLevel : Z.
Variable JVMCILibPath : option string.
Variable JVMCI_SHARED_LIBRARY_NAME : string.
(** [Arguments::get_dll_dir()]. *)
Variable get_dll_dir : string.
(** [os::dll_locate_lib(buf, buflen, pname, fname)]: the path written to
    [buf], or None when it returns false. *)
Variable dll_locate_lib : string -> string -> option string.
(** [os::dll_load(path, ebuf, ebuflen)]: the handle (0 on failure) and the
    text left in [ebuf]. *)
Variable dll_load : string -> Z * string.
(** [strdup], which may return NULL. *)
Variable strdup : string -> option string.

(** Modelled from the spec: the macro [JVMCI_event_1] is defined in
    [jvmci.hpp]; it emits a level-1 diagnostic event, that is [event1]. *)
Definition JVMCI_event_1 := event1 LogEvents JVMCIEventLogLevel JVMCITraceLevel.

(** Lines 80 to 88: the path of the library, or the diagnostic of the
    [fatal] call reached. *)
Definition locate_shared_library : diagnostic + string :=
  match JVMCILibPath with
  | Some lib_path =>
      match dll_locate_lib lib_path JVMCI_SHARED_LIBRARY_NAME with
      | Some path => inr path
      | None =>
          inl (Diag "Unable to create path to JVMCI shared library based on value of JVMCILibPath (%s)"
                 [lib_path])
      end
  | None =>
      match dll_locate_lib get_dll_dir JVMCI_SHARED_LIBRARY_NAME with
      | Some path => inr path
      | None => inl (Diag "Unable to create path to JVMCI shared library" [])
      end
  end.

(** Lines 77 to 100: the part that runs under [JVMCI_lock]. It reads
    [_shared_library_handle] again. *)
Definition load_shared_library (current : option Thread) (st : LibraryState)
  : LibraryState * outcome (Z * option string) :=
  if _shared_library_handle st =? 0 then
    match locate_shared_library with
    | inl d => (st, Fatal d)
    | inr path =>
        let '(handle, ebuf) := dll_load path in
        let st1 := MkLibraryState (_shared_library_handle st) (_shared_library_path st)
                     (dll_load_calls st ++ [path]) (library_log st) in
        if handle =? 0 then
          (st1, Fatal (Diag "Unable to load JVMCI shared library from %s: %s" [path; ebuf]))
        else
          let st2 := MkLibraryState handle (strdup path) (dll_load_calls st1) (library_log st1) in
          match JVMCI_event_1 ("loaded JVMCI shared library from " +:+ path) current
                  (library_log st2) with
          | Ok lg =>
              let st3 := set_library_log lg st2 in
              (st3, Ok (_shared_library_handle st3, _shared_library_path st3))
          | Fatal d => (st2, Fatal d)
          | Undefined => (st2, Undefined)
          end
    end
  else (st, Ok (_shared_library_handle st, _shared_library_path st)).

(** [JVMCI::get_shared_library(path, load)], from line 71 on. [sl_handle]
    is what line 70 read from [_shared_library_handle]: another thread may
    have installed a handle between that read and the one of line 77.
    [owns_lock] tells whether [JVMCI_lock->owner() == Thread::current()].
    The result is the returned handle and [path]; the state is returned
    also when the process is terminated. *)
Definition get_shared_library_from (sl_handle : Z) (load owns_lock : bool)
    (current : option Thread) (st : LibraryState)
  : LibraryState * outcome (Z * option string) :=
  if negb (sl_handle =? 0) || negb load then
    (st, Ok (sl_handle, _shared_library_path st))
  else
    match assert ASSERT owns_lock "must be" with
    | Ok _ => load_shared_library current st
    | Fatal d => (st, Fatal d)
    | Undefined => (st, Undefined)
    end.

(** The call with no other thread in between. *)
Definition get_shared_library (load owns_lock : bool) (current : option Thread)
    (st : LibraryState) : LibraryState * outcome (Z * option string) :=
  get_shared_library_from (_shared_library_handle st) load owns_lock current st.

(** A caller of [get_shared_library]: the arguments of one call. *)
Record library_call := MkLibraryCall {
  call_load : bool;
  call_owns_lock : bool;
  call_thread : option Thread
}.

(** A sequence of calls, one after the other; a call that terminates the
    process is the last one. The results are listed in call order. *)
Fixpoint get_shared_library_calls (cs : list library_call) (st : LibraryState)
  : LibraryState * list (outcome (Z * option string)) :=
  match cs with
  | [] => (st, [])
  | c :: cs' =>
      match get_shared_library (call_load c) (call_owns_lock c) (call_thread c) st with
      | (st1, Ok r) =>
          let '(st2, rs) := get_shared_library_calls cs' st1 in (st2, Ok r :: rs)
      | (st1, r) => (st1, [r])
      end
  end.

(** What holds of the loader's state between calls: no handle, no path and
    no load so far, or a handle and exactly one load. *)
Definition library_inv (st : LibraryState) : Prop :=
  (_shared_library_handle st = 0 ->
     _shared_library_path st = None /\ dll_load_calls st = []) /\
  (_shared_library_handle st <> 0 -> length (dll_load_calls st) = 1%nat).

End Library.

(** ** Counter registry *)

(** A [jlong] is a 64-bit two's complement integer; [+=] wraps around. *)
Abbreviation jlong := Z (only parsing).

Definition wrap_jlong (z : Z) : jlong := (z + 2 ^ 63) mod 2 ^ 64 - 2 ^ 63.

Definition jlong_add (a b : jlong) : jlong := wrap_jlong (a + b).

(** A [jlong*]: NULL, a live C heap block with its cells, or a pointer whose
    block was handed to [FREE_C_HEAP_ARRAY]. Every block of the registry has
    one owner, so the cells are kept with the pointer. *)
Inductive jlong_ptr : Type :=
| NULL
| Block (cells : list jlong)
| Freed.

(** [p[i]] as a value. *)
Definition load (p : jlong_ptr) (i : Z) : outcome jlong :=
  match p with
  | Block cells =>
      if 0 <=? i then
        match cells !! Z.to_nat i with
        | Some v => Ok v
        | None => Undefined
        end
      else Undefined
  | _ => Undefined
  end.

(** [p[i] = v]. *)
Definition store (p : jlong_ptr) (i : Z) (v : jlong) : outcome jlong_ptr :=
  match p with
  | Block cells =>
      if (0 <=? i) && (i <? Z.of_nat (length cells))
      then Ok (Block (<[Z.to_nat i := v]> cells))
      else Undefined
  | _ => Undefined
  end.

(** [memset(p + off, 0, sizeof(jlong) * n)]. *)
Definition memset_zero (p : jlong_ptr) (off n : Z) : outcome jlong_ptr :=
  match p with
  | Block cells =>
      if (0 <=? off) && (0 <=? n) && (off + n <=? Z.of_nat (length cells))
      then Ok (Block (take (Z.to_nat off) cells ++ replicate (Z.to_nat n) 0
                        ++ drop (Z.to_nat (off + n)) cells))
      else Undefined
  | _ => Undefined
  end.

(** [FREE_C_HEAP_ARRAY(jlong, p)]; freeing NULL does nothing. *)
Definition FREE_C_HEAP_ARRAY (p : jlong_ptr) : outcome jlong_ptr :=
  match p with
  | NULL => Ok NULL
  | Block _ => Ok Freed
  | Freed => Undefined
  end.

(** A range-based [for (x : l) body], threading the state. *)
Fixpoint for_each {A St : Type} (l : list A) (body : A -> St -> outcome St) (s : St)
  : outcome St :=
  match l with
  | [] => Ok s
  | x :: l' => do s' <- body x s; for_each l' body s'
  end.

(** What the registry reads of a [JavaThread]. [_jvmci_counters] is the
    field of its [JVMCIThreadState], NULL when the thread is constructed. *)
Record JavaThread := MkJavaThread {
  java_thread : Thread;
  is_Compiler_thread : bool;
  _jvmci_counters : jlong_ptr
}.

Definition set_jvmci_counters (p : jlong_ptr) (thread : JavaThread) : JavaThread :=
  MkJavaThread (java_thread thread) (is_Compiler_thread thread) p.

Record CounterState := MkCounterState {
  JVMCICounterSize : Z;                     (* the flag; written by the resize *)
  _jvmci_old_thread_counters : jlong_ptr;   (* counters of the threads that exited *)
  threads : list JavaThread                 (* the threads a ThreadsListHandle visits *)
}.

Section Counters.
Variable ASSERT : bool.
Variable JVMCICountersExcludeCompiler : bool.
(** The C heap: the answer to the [k]-th request, None when it cannot be
    satisfied, else the bytes found in the new block. *)
Variable heap : nat -> option (nat -> jlong).

(** [NEW_C_HEAP_ARRAY_RETURN_NULL(jlong, size, mtJVMCI)] as the [k]-th
    request. The block is not initialised. A negative [int] size becomes a
    [size_t] beyond any address space, which is never satisfied. *)
Definition NEW_C_HEAP_ARRAY_RETURN_NULL (k : nat) (size : Z) : jlong_ptr :=
  if size <? 0 then NULL
  else match heap k with
       | Some garbage => Block (map garbage (seq 0 (Z.to_nat size)))
       | None => NULL
       end.

Definition jvmci_counters_include (thread : JavaThread) : bool :=
  negb JVMCICountersExcludeCompiler || negb (is_Compiler_thread thread).

(** [array[i] = p[i]] for [i] below [length]. *)
Definition copy_counters (length : Z) (p : jlong_ptr) (array : jlong_ptr) : outcome jlong_ptr :=
  for_upto length (fun i a => do v <- load p i; store a i v) array.

(** [array[i] += p[i]] for [i] below [length]. *)
Definition add_counters (length : Z) (p : jlong_ptr) (array : jlong_ptr) : outcome jlong_ptr :=
  for_upto length
    (fun i a => do x <- load a i; do v <- load p i; store a i (jlong_add x v)) array.

(** [JVMCI::collect_counters(array, length)]; the result is [array] after
    the call. *)
Definition collect_counters (array : jlong_ptr) (length : Z) (st : CounterState)
  : outcome jlong_ptr :=
  do _ <- assert ASSERT (length =? JVMCICounterSize st) "wrong value";
  do array1 <- copy_counters length (_jvmci_old_thread_counters st) array;
  for_each (threads st)
    (fun tp a =>
       if jvmci_counters_include tp
       then add_counters length (_jvmci_counters tp) a
       else Ok a)
    array1.

(** [resize_counters_array(old_counters, current_size, new_size)] with its
    allocation as the [k]-th request. The result is the returned pointer;
    when it is not NULL the block of [old_counters] has been freed. *)
Definition resize_counters_array (k : nat) (old_counters : jlong_ptr)
    (current_size new_size : Z) : outcome jlong_ptr :=
  match NEW_C_HEAP_ARRAY_RETURN_NULL k new_size with
  | NULL => Ok NULL
  | new_counters =>
      match old_counters with
      | NULL => memset_zero new_counters 0 new_size
      | _ =>
          do copied <- copy_counters (Z.min current_size new_size) old_counters new_counters;
          do filled <- (if current_size <? new_size
                        then memset_zero copied current_size (new_size - current_size)
                        else Ok copied);
          do _ <- FREE_C_HEAP_ARRAY old_counters;
          Ok filled
      end
  end.

(** [JVMCI::resize_counters(thread, current_size, new_size)]: the thread
    after the call and the returned flag. *)
Definition resize_counters (k : nat) (thread : JavaThread) (current_size new_size : Z)
  : outcome (JavaThread * bool) :=
  do new_counters <- resize_counters_array k (_jvmci_counters thread) current_size new_size;
  match new_counters with
  | NULL => Ok (thread, false)
  | _ => Ok (set_jvmci_counters new_counters thread, true)
  end.

(** The loop of [VM_JVMCIResizeCounters::doit] over the threads, with its
    [break]: the threads after the loop and [_failed]. *)
Fixpoint resize_threads (k : nat) (tps : list JavaThread) (current_size new_size : Z)
  : outcome (list JavaThread * bool) :=
  match tps with
  | [] => Ok ([], false)
  | tp :: rest =>
      do '(tp', resized) <- resize_counters k tp current_size new_size;
      if resized then
        do '(rest', failed) <- resize_threads (S k) rest current_size new_size;
        Ok (tp' :: rest', failed)
      else Ok (tp' :: rest, true)
  end.

(** [VM_JVMCIResizeCounters::doit] for [_new_size = new_size], its first
    allocation being the [k]-th request: the state and [_failed]. *)
Definition doit (k : nat) (new_size : Z) (st : CounterState) : outcome (CounterState * bool) :=
  do new_counters <- resize_counters_array k (_jvmci_old_thread_counters st)
                       (JVMCICounterSize st) new_size;
  match new_counters with
  | NULL => Ok (st, true)
  | _ =>
      do '(tps, failed) <- resize_threads (S k) (threads st) (JVMCICounterSize st) new_size;
      Ok (MkCounterState (if failed then JVMCICounterSize st else new_size) new_counters tps,
          failed)
  end.

(** [JVMCI::resize_all_jvmci_counters(new_size)]. *)
Definition resize_all_jvmci_counters (k : nat) (new_size : Z) (st : CounterState)
  : outcome (CounterState * bool) :=
  do '(st', failed) <- doit k new_size st;
  Ok (st', negb failed).

(** [JVMCI::free_counters(JavaThread* thread)]: the thread after the call. *)
Definition free_counters_thread (thread : JavaThread) (st : CounterState) : outcome JavaThread :=
  if 0 <? JVMCICounterSize st then
    do p <- FREE_C_HEAP_ARRAY (_jvmci_counters thread);
    Ok (set_jvmci_counters p thread)
  else Ok thread.

(** [JVMCI::accumulate_counters(thread)]. *)
Definition accumulate_counters (thread : JavaThread) (st : CounterState) : outcome CounterState :=
  if 0 <? JVMCICounterSize st then
    if jvmci_counters_include thread then
      do old <- add_counters (JVMCICounterSize st) (_jvmci_counters thread)
                  (_jvmci_old_thread_counters st);
      Ok (MkCounterState (JVMCICounterSize st) old (threads st))
    else Ok st
  else Ok st.

(** [JVMCI::init_counters()], its allocation being the [k]-th request.
    [NEW_C_HEAP_ARRAY] terminates the process when the heap is exhausted. *)
Definition init_counters (k : nat) (st : CounterState) : outcome CounterState :=
  if 0 <? JVMCICounterSize st then
    match NEW_C_HEAP_ARRAY_RETURN_NULL k (JVMCICounterSize st) with
    | NULL => Fatal (Diag "out of memory" [])
    | p =>
        do zeroed <- memset_zero p 0 (JVMCICounterSize st);
        Ok (MkCounterState (JVMCICounterSize st) zeroed (threads st))
    end
  else Ok (MkCounterState (JVMCICounterSize st) NULL (threads st)).

(** [JVMCI::free_counters()]. *)
Definition free_counters (st : CounterState) : outcome CounterState :=
  if 0 <? JVMCICounterSize st then
    do p <- FREE_C_HEAP_ARRAY (_jvmci_old_thread_counters st);
    Ok (MkCounterState (JVMCICounterSize st) p (threads st))
  else Ok st.

End Counters.

(** ** Crash logger *)

Record FatalLogState := MkFatalLogState {
  _fatal_log_init_thread : Z;             (* -1 until a thread claims it *)
  _fatal_log_fd : Z;                      (* -1 until published *)
  _fatal_log_filename : option string;    (* None is NULL *)
  console : list string;                  (* what was printed on tty, in order *)
  written : list (Z * string)             (* descriptor and bytes of each write *)
}.

(** [Atomic::cmpxchg(dest, compare_value, exchange_value)] on a field
    holding [dest]: the new content and the returned old content. *)
Definition cmpxchg (dest compare_value exchange_value : Z) : Z * Z :=
  (if dest =? compare_value then exchange_value else dest, dest).

Section FatalLog.
Variable ErrorFileToStdout : bool.
Variable ErrorFileToStderr : bool.
(** A [ccstr] flag; None is NULL. *)
Variable JVMCINativeLibraryErrorFile : option string.
Variable LIBJVMCI_ERR_FILE : string.
(** [VMError::prepare_log_file(pattern, default_pattern, overwrite, buf,
    buflen)]: the descriptor, or -1, and the name left in [buf]. *)
Variable prepare_log_file : option string -> string -> bool -> Z * string.
(** [errno] after [prepare_log_file] failed, and [os::strerror]. *)
Variable errno : Z.
Variable strerror : Z -> string.

(** [fdStream log(_fatal_log_fd); log.write(buf, count); log.flush()]. *)
Definition write_fatal_log (buf : string) (st : FatalLogState) : FatalLogState :=
  MkFatalLogState (_fatal_log_init_thread st) (_fatal_log_fd st) (_fatal_log_filename st)
    (console st) (written st ++ [(_fatal_log_fd st, buf)]).

(** The branch of the thread that won the race: lines 225 to 244. [st]
    already holds the thread's id in [_fatal_log_init_thread]. *)
Definition open_fatal_log (st : FatalLogState) : FatalLogState :=
  if ErrorFileToStdout then
    MkFatalLogState (_fatal_log_init_thread st) 1 (_fatal_log_filename st)
      (console st) (written st)
  else if ErrorFileToStderr then
    MkFatalLogState (_fatal_log_init_thread st) 2 (_fatal_log_filename st)
      (console st) (written st)
  else
    let '(log_fd, name_buffer) :=
      prepare_log_file JVMCINativeLibraryErrorFile LIBJVMCI_ERR_FILE true in
    if negb (log_fd =? -1) then
      MkFatalLogState (_fatal_log_init_thread st) log_fd (Some name_buffer)
        (console st) (written st)
    else
      MkFatalLogState (_fatal_log_init_thread st) 1 (_fatal_log_filename st)
        (console st ++
           ["Can't open JVMCI shared library error report file. Error: ";
            strerror errno;
            "JVMCI shared library error report will be written to console."])
        (written st).

(** [JVMCI::fatal_log(buf, count)] called by the thread
    [current_thread_id], with no other thread running meanwhile. None: the
    call is in the loop of line 250, waiting for another thread to publish
    the descriptor. *)
Definition fatal_log (current_thread_id : Z) (buf : string) (st : FatalLogState)
  : option FatalLogState :=
  let invalid_id := -1 in
  let '(init_thread, won) :=
    if _fatal_log_init_thread st =? invalid_id then
      let '(new, old) := cmpxchg (_fatal_log_init_thread st) invalid_id current_thread_id in
      (new, old =? invalid_id)
    else (_fatal_log_init_thread st, false) in
  if won then
    Some (write_fatal_log buf
            (open_fatal_log
               (MkFatalLogState init_thread (_fatal_log_fd st) (_fatal_log_filename st)
                  (console st) (written st))))
  else if _fatal_log_fd st =? -1 then None
  else Some (write_fatal_log buf st).

End FatalLog.

(** ** Box caches *)

(** The symbols of [box_classes]. *)
Inductive Symbol : Type :=
| java_lang_Boolean
| java_lang_Byte_ByteCache
| java_lang_Short_ShortCache
| java_lang_Character_CharacterCache
| java_lang_Integer_IntegerCache
| java_lang_Long_LongCache.

Definition box_classes : list Symbol :=
  [java_lang_Boolean; java_lang_Byte_ByteCache; java_lang_Short_ShortCache;
   java_lang_Character_CharacterCache; java_lang_Integer_IntegerCache;
   java_lang_Long_LongCache].

(** Ghost: the calls made to the class loading collaborator. *)
Inductive box_call : Type :=
| Resolve (s : Symbol)
| Initialize (s : Symbol).

Section BoxCaches.
(** The collaborator: its state, its classes and its exceptions. *)
Variable VM : Type.
Variable Klass : Type.
Variable oop : Type.
(** [SystemDictionary::resolve_or_fail(sym, throw_error, THREAD)]: the
    class, or the exception left pending. *)
Variable resolve_or_fail : Symbol -> bool -> VM -> VM * (Klass + oop).
Variable is_not_initialized : Klass -> VM -> bool.
(** [ik->initialize(THREAD)]: the exception left pending, if any. *)
Variable initialize : Klass -> VM -> VM * option oop.

Record BoxState := MkBoxState {
  _box_caches_initialized : bool;
  vm : VM;
  box_calls : list box_call
}.

(** One round of the loop of line 153; Some: [CHECK] found a pending
    exception and returns from the function. *)
Definition initialize_box_class (sym : Symbol) (s : VM * list box_call)
  : VM * list box_call * option oop :=
  let '(vm0, calls) := s in
  let '(vm1, r) := resolve_or_fail sym true vm0 in
  match r with
  | inr exception => (vm1, calls ++ [Resolve sym], Some exception)
  | inl k =>
      if is_not_initialized k vm1 then
        let '(vm2, pending) := initialize k vm1 in
        (vm2, calls ++ [Resolve sym; Initialize sym], pending)
      else (vm1, calls ++ [Resolve sym], None)
  end.

Fixpoint initialize_box_classes (syms : list Symbol) (s : VM * list box_call)
  : VM * list box_call * option oop :=
  match syms with
  | [] => (s, None)
  | sym :: rest =>
      match initialize_box_class sym s with
      | (s1, None) => initialize_box_classes rest s1
      | (s1, Some exception) => (s1, Some exception)
      end
  end.

(** [JVMCI::ensure_box_caches_initialized(TRAPS)], entered with no pending
    exception: the state and the exception pending at the return. *)
Definition ensure_box_caches_initialized (st : BoxState) : BoxState * option oop :=
  if _box_caches_initialized st then (st, None)
  else
    match initialize_box_classes box_classes (vm st, box_calls st) with
    | ((vm1, calls), Some exception) =>
        (MkBoxState (_box_caches_initialized st) vm1 calls, Some exception)
    | ((vm1, calls), None) => (MkBoxState true vm1 calls, None)
    end.

(** A class of the list got through its round of the loop: it was resolved
    and, where it reported itself not initialised, its initialisation ran
    without an exception. *)
Definition box_class_done (sym : Symbol) (vm0 vm' : VM) : Prop :=
  exists k vm1,
    resolve_or_fail sym true vm0 = (vm1, inl k) /\
    ((is_not_initialized k vm1 = false /\ vm' = vm1) \/
     (is_not_initialized k vm1 = true /\ initialize k vm1 = (vm', None))).

Fixpoint box_classes_done (syms : list Symbol) (vm0 vm' : VM) : Prop :=
  match syms with
  | [] => vm' = vm0
  | sym :: rest => exists vm1, box_class_done sym vm0 vm1 /\ box_classes_done rest vm1 vm'
  end.

End BoxCaches.

(** ** Lifecycle *)

(** Ghost: the calls forwarded to a runtime, named by the runtime's address. *)
Inductive runtime_call : Type :=
| RuntimeShutdown (r : nat)   (* [r->shutdown()] *)
| MetadataDo (r : nat)        (* [r->_metadata_handles->metadata_do(f)] *)
| DoUnloading (r : nat).      (* [r->_metadata_handles->do_unloading()] *)

(** A [JVMCIRuntime*] is None for NULL, else the address of the object: its
    index in [runtime_objects], which lists the id every [JVMCIRuntime]
    constructed so far was given. Two pointers to one object are equal. *)
Record LifecycleState := MkLifecycleState {
  _compiler_runtime : option nat;
  _java_runtime : option nat;
  _in_shutdown : bool;
  runtime_objects : list Z;
  runtime_calls : list runtime_call;
  lifecycle_log : LogState
}.

Definition forward_runtime_call (c : runtime_call) (st : LifecycleState) : LifecycleState :=
  MkLifecycleState (_compiler_runtime st) (_java_runtime st) (_in_shutdown st)
    (runtime_objects st) (runtime_calls st ++ [c]) (lifecycle_log st).

(** [new JVMCIRuntime(id)]: the address of the new object and the state. *)
Definition new_JVMCIRuntime (id : Z) (st : LifecycleState) : nat * LifecycleState :=
  (length (runtime_objects st),
   MkLifecycleState (_compiler_runtime st) (_java_runtime st) (_in_shutdown st)
     (runtime_objects st ++ [id]) (runtime_calls st) (lifecycle_log st)).

(** The conversion of a flag to [int], and [int] multiplication, whose
    overflow is undefined. *)
Definition to_int (z : Z) : Z := (z + 2 ^ 31) mod 2 ^ 32 - 2 ^ 31.

Definition int_mul (a b : Z) : outcome Z :=
  if (- 2 ^ 31 <=? a * b) && (a * b <? 2 ^ 31) then Ok (a * b) else Undefined.

Section Lifecycle.
Variable LogEvents : bool.
Variable JVMCIEventLogLevel : Z.
Variable JVMCITraceLevel : Z.
Variable LogEventsBufferEntries : Z.
(** An enumerator of [jvmci.hpp]. *)
Variable max_EventLog_level : Z.
Variable UseJVMCINativeLibrary : bool.

(** The loop of line 119, entered with [i] and [count]:
    [for (; i < JVMCIEventLogLevel && i < max_EventLog_level; i++)
       count = count * 10].
    [fuel] bounds the number of rounds; running out of it is Undefined. *)
Fixpoint expand_event_buffer (fuel : nat) (i count : Z) : outcome Z :=
  if (i <? JVMCIEventLogLevel) && (i <? max_EventLog_level) then
    match fuel with
    | O => Undefined
    | S fuel' => do count' <- int_mul count 10; expand_event_buffer fuel' (i + 1) count'
    end
  else Ok count.

(** Lines 114 to 126 of [JVMCI::initialize_globals]. A [StringEventLog]
    constructed without a count holds [LogEventsBufferEntries] entries. The
    loop starts at 1 and stops below [max_EventLog_level], so that many
    rounds of fuel are enough. *)
Definition initialize_event_logs (lg : LogState) : outcome LogState :=
  if LogEvents then
    if 0 <? JVMCIEventLogLevel then
      let events := MkStringEventLog "JVMCI Events" "jvmci"
                      (Z.to_nat LogEventsBufferEntries) [] in
      if 1 <? JVMCIEventLogLevel then
        do count <- expand_event_buffer (Z.to_nat max_EventLog_level) 1
                      (to_int LogEventsBufferEntries);
        Ok (MkLogState (Some events)
              (Some (MkStringEventLog "Verbose JVMCI Events" "verbose-jvmci"
                       (Z.to_nat count) []))
              (tty lg))
      else Ok (MkLogState (Some events) (_verbose_events lg) (tty lg))
    else Ok lg
  else Ok lg.

(** [JVMCI::initialize_globals()]. [jvmci_vmStructs_init] touches nothing
    of this state. *)
Definition initialize_globals (st : LifecycleState) : outcome LifecycleState :=
  do lg <- initialize_event_logs (lifecycle_log st);
  let st1 := MkLifecycleState (_compiler_runtime st) (_java_runtime st) (_in_shutdown st)
               (runtime_objects st) (runtime_calls st) lg in
  if UseJVMCINativeLibrary then
    let '(compiler, st2) := new_JVMCIRuntime 0 st1 in
    let '(java, st3) := new_JVMCIRuntime (-1) st2 in
    Ok (MkLifecycleState (Some compiler) (Some java) (_in_shutdown st3)
          (runtime_objects st3) (runtime_calls st3) (lifecycle_log st3))
  else
    let '(runtime, st2) := new_JVMCIRuntime 0 st1 in
    Ok (MkLifecycleState (Some runtime) (Some runtime) (_in_shutdown st2)
          (runtime_objects st2) (runtime_calls st2) (lifecycle_log st2)).

(** [JVMCI::metadata_do(f)]. *)
Definition metadata_do (st : LifecycleState) : LifecycleState :=
  let st1 := match _java_runtime st with
             | Some java => forward_runtime_call (MetadataDo java) st
             | None => st
             end in
  match _compiler_runtime st1 with
  | Some compiler =>
      if bool_decide (_compiler_runtime st1 <> _java_runtime st1)
      then forward_runtime_call (MetadataDo compiler) st1
      else st1
  | None => st1
  end.

(** [JVMCI::do_unloading(unloading_occurred)]. *)
Definition do_unloading (unloading_occurred : bool) (st : LifecycleState) : LifecycleState :=
  if unloading_occurred then
    let st1 := match _java_runtime st with
               | Some java => forward_runtime_call (DoUnloading java) st
               | None => st
               end in
    match _compiler_runtime st1 with
    | Some compiler =>
        if bool_decide (_compiler_runtime st1 <> _java_runtime st1)
        then forward_runtime_call (DoUnloading compiler) st1
        else st1
    | None => st1
    end
  else st.

(** [JVMCI::shutdown()], called by the thread [current].
    [java_runtime->shutdown()] through a NULL pointer is Undefined. *)
Definition shutdown (current : option Thread) (st : LifecycleState) : outcome LifecycleState :=
  let st0 := MkLifecycleState (_compiler_runtime st) (_java_runtime st) true
               (runtime_objects st) (runtime_calls st) (lifecycle_log st) in
  do lg <- JVMCI_event_1 LogEvents JVMCIEventLogLevel JVMCITraceLevel "shutting down JVMCI"
             current (lifecycle_log st0);
  let st1 := MkLifecycleState (_compiler_runtime st0) (_java_runtime st0) (_in_shutdown st0)
               (runtime_objects st0) (runtime_calls st0) lg in
  let java_runtime := _java_runtime st1 in
  do st2 <- (if bool_decide (java_runtime <> _compiler_runtime st1) then
               match java_runtime with
               | Some java => Ok (forward_runtime_call (RuntimeShutdown java) st1)
               | None => Undefined
               end
             else Ok st1);
  match _compiler_runtime st2 with
  | Some compiler => Ok (forward_runtime_call (RuntimeShutdown compiler) st2)
  | None => Ok st2
  end.

(** [JVMCI::in_shutdown()]. *)
Definition in_shutdown (st : LifecycleState) : bool := _in_shutdown st.

End Lifecycle.

(** ** Callers of the crash logger *)

Section FatalLogCalls.
Variable ErrorFileToStdout : bool.
Variable ErrorFileToStderr : bool.
Variable JVMCINativeLibraryErrorFile : option string.
Variable LIBJVMCI_ERR_FILE : string.
Variable prepare_log_file : option string -> string -> bool -> Z * string.
Variable errno : Z.
Variable strerror : Z -> string.

(** Calls of [fatal_log], one after the other, each by the thread and with
    the buffer given; None when one of them does not return. *)
Fixpoint fatal_log_calls (cs : list (Z * string)) (st : FatalLogState)
  : option FatalLogState :=
  match cs with
  | [] => Some st
  | (current_thread_id, buf) :: cs' =>
      match fatal_log ErrorFileToStdout ErrorFileToStderr JVMCINativeLibraryErrorFile
              LIBJVMCI_ERR_FILE prepare_log_file errno strerror current_thread_id buf st with
      | Some st1 => fatal_log_calls cs' st1
      | None => None
      end
  end.

End FatalLogCalls.

(** The classes resolved in a trace of calls, in order. *)
Fixpoint resolved_classes (calls : list box_call) : list Symbol :=
  match calls with
  | [] => []
  | Resolve sym :: calls' => sym :: resolved_classes calls'
  | Initialize _ :: calls' => resolved_classes calls'
  end.

(** The classes whose initialiser was run in a trace of calls, in order. *)
Fixpoint initialized_classes (calls : list box_call) : list Symbol :=
  match calls with
  | [] => []
  | Initialize sym :: calls' => sym :: initialized_classes calls'
  | Resolve _ :: calls' => initialized_classes calls'
  end.

(** * The registry's invariant and the closed forms of its operations *)

Definition cells_of (p : jlong_ptr) : list jlong :=
  match p with
  | Block cells => cells
  | _ => []
  end.

(** A block for a counter count [n]: [n] cells, or no block at all when the
    count is zero (a thread is constructed with NULL, and so is the pool by
    [init_counters]). *)
Definition counters_of_size (n : Z) (p : jlong_ptr) : Prop :=
  match p with
  | Block cells => Z.of_nat (length cells) = n
  | NULL => n = 0
  | Freed => False
  end.

(** Every block of the registry has [JVMCICounterSize] cells. *)
Definition registry_wf (st : CounterState) : Prop :=
  0 <= JVMCICounterSize st /\
  counters_of_size (JVMCICounterSize st) (_jvmci_old_thread_counters st) /\
  Forall (fun tp => counters_of_size (JVMCICounterSize st) (_jvmci_counters tp)) (threads st).

(** The block a resize from [current_size] to [new_size] leaves. *)
Definition resized (current_size new_size : Z) (p : jlong_ptr) : jlong_ptr :=
  Block (take (Z.to_nat new_size) (cells_of p)
           ++ replicate (Z.to_nat (new_size - current_size)) 0).

Definition resized_thread (current_size new_size : Z) (tp : JavaThread) : JavaThread :=
  set_jvmci_counters (resized current_size new_size (_jvmci_counters tp)) tp.

(** [p'] holds what [p] holds in its first [n] cells. *)
Definition keeps_cells (n : Z) (p p' : jlong_ptr) : Prop :=
  take (Z.to_nat n) (cells_of p') = take (Z.to_nat n) (cells_of p).

(** The registry [st'] has the threads of [st], and every block of [st']
    holds what the block of [st] holds below [JVMCICounterSize st]: a
    [collect] or an [accumulate] at that size cannot tell them apart. *)
Definition keeps_counters (st st' : CounterState) : Prop :=
  keeps_cells (JVMCICounterSize st) (_jvmci_old_thread_counters st)
    (_jvmci_old_thread_counters st') /\
  Forall2 (fun tp tp' =>
             java_thread tp' = java_thread tp /\
             is_Compiler_thread tp' = is_Compiler_thread tp /\
             keeps_cells (JVMCICounterSize st) (_jvmci_counters tp) (_jvmci_counters tp'))
    (threads st) (threads st').

(** The value of a cell, 0 outside the block. *)
Definition counter_at (p : jlong_ptr) (i : nat) : Z := default 0 (cells_of p !! i).

Definition is_jlong (z : Z) : Prop := - 2 ^ 63 <= z < 2 ^ 63.

(** The sum, over the threads admitted by the exclusion policy, of the
    counter at index [i]. *)
Fixpoint live_total (JVMCICountersExcludeCompiler : bool) (tps : list JavaThread) (i : nat) : Z :=
  match tps with
  | [] => 0
  | tp :: rest =>
      (if jvmci_counters_include JVMCICountersExcludeCompiler tp
       then counter_at (_jvmci_counters tp) i else 0)
      + live_total JVMCICountersExcludeCompiler rest i
  end.

(** Modelled from the spec: the exit path of a thread is in the runtime, not
    in the file. A thread that terminates has its values folded into the
    RetiredCounterPool ([accumulate_counters]) and then its block released
    ([free_counters(thread)]). *)
Definition thread_exit_counters (JVMCICountersExcludeCompiler : bool)
    (thread : JavaThread) (st : CounterState) : outcome (CounterState * JavaThread) :=
  do st' <- accumulate_counters JVMCICountersExcludeCompiler thread st;
  do thread' <- free_counters_thread thread st';
  Ok (st', thread').

(** * The specification's wording of the statements that the code refutes *)

(** [resizeAll] is all-or-nothing: when an allocation fails the operation
    reports failure and no block changes; otherwise every block and the pool
    end at the new size. *)
Definition resize_all_or_nothing : Prop :=
  forall (heap : nat -> option (nat -> jlong)) (k : nat) (new_size : Z) (st : CounterState),
    registry_wf st -> 0 <= new_size ->
    ((exists j, (j <= length (threads st))%nat /\ heap (k + j)%nat = None) ->
       resize_all_jvmci_counters heap k new_size st = Ok (st, false)) /\
    ((forall j, (j <= length (threads st))%nat -> is_Some (heap (k + j)%nat)) ->
       exists st', resize_all_jvmci_counters heap k new_size st = Ok (st', true) /\
                   JVMCICounterSize st' = new_size /\ registry_wf st').

(** For every terminating thread the values are folded into the pool before
    the block is released; [free(thread)] and [freeGlobal()] do nothing when
    the counter count is zero. *)
Definition thread_exit_always_folds : Prop :=
  forall (excl : bool) (thread : JavaThread) (st : CounterState),
    registry_wf st ->
    counters_of_size (JVMCICounterSize st) (_jvmci_counters thread) ->
    (0 < JVMCICounterSize st ->
       exists st',
         thread_exit_counters excl thread st = Ok (st', set_jvmci_counters Freed thread) /\
         forall i : nat, Z.of_nat i < JVMCICounterSize st ->
           cells_of (_jvmci_old_thread_counters st') !! i
           = Some (jlong_add (counter_at (_jvmci_old_thread_counters st) i)
                     (counter_at (_jvmci_counters thread) i))) /\
    (JVMCICounterSize st = 0 ->
       free_counters_thread thread st = Ok thread /\ free_counters st = Ok st).

(** Every call of [collect] with a length other than the counter count
    terminates the process. *)
Definition collect_wrong_length_always_fatal : Prop :=
  forall (ASSERT excl : bool) (array : jlong_ptr) (length : Z) (st : CounterState),
    length <> JVMCICounterSize st ->
    exists d, collect_counters ASSERT excl array length st = Fatal d.

(** On the slow path, a failure to resolve the path or to load the library
    terminates the process with a diagnostic that names the attempted path
    and the error text of the operating system. *)
Definition library_failure_names_path_and_error : Prop :=
  forall (ASSERT LogEvents : bool) (JVMCIEventLogLevel JVMCITraceLevel : Z)
         (JVMCILibPath : option string) (JVMCI_SHARED_LIBRARY_NAME get_dll_dir : string)
         (dll_locate_lib : string -> string -> option string)
         (dll_load : string -> Z * string) (strdup : string -> option string)
         (current : option Thread) (st : LibraryState),
    _shared_library_handle st = 0 ->
    (match locate_shared_library JVMCILibPath JVMCI_SHARED_LIBRARY_NAME get_dll_dir
             dll_locate_lib with
     | inl _ => True
     | inr path => fst (dll_load path) = 0
     end) ->
    exists d path_text error_text,
      snd (get_shared_library ASSERT LogEvents JVMCIEventLogLevel JVMCITraceLevel
             JVMCILibPath JVMCI_SHARED_LIBRARY_NAME get_dll_dir dll_locate_lib dll_load
             strdup true true current st) = Fatal d /\
      path_text ∈ diag_args d /\ error_text ∈ diag_args d.

(** Every logging call that passes its level check leaves an entry in the
    structured log, tagged with the calling thread, or with a placeholder
    when the thread cannot be resolved. *)
Definition vlog_always_records : Prop :=
  forall (JVMCIEventLogLevel level : Z) (msg : string) (current : option Thread)
         (st : LogState) (log : StringEventLog),
    level <= JVMCIEventLogLevel ->
    event_log level st = Some log ->
    exists who,
      vlog true JVMCIEventLogLevel level msg current st
      = Ok (set_event_log level (logv who msg log) st) /\
      (forall thread, current = Some thread -> who = thread).

(** * Further invariants *)

(** The first [n] cells of [p] can be read: the loops over [i < n] stay
    inside the block. Nothing is read when [n] is not positive. *)
Definition readable (n : Z) (p : jlong_ptr) : Prop :=
  match p with
  | Block cells => n <= Z.of_nat (length cells)
  | _ => n <= 0
  end.

(** The crash logger has published its descriptor. *)
Definition fatal_log_published (st : FatalLogState) : Prop :=
  _fatal_log_init_thread st <> -1 /\ _fatal_log_fd st <> -1.

(** The logs a level-[level] event needs are there. *)
Definition event_log_ready (LogEvents : bool) (JVMCIEventLogLevel : Z) (st : LogState) : Prop :=
  LogEvents = true ->
  (1 <= JVMCIEventLogLevel -> _events st <> None) /\
  (2 <= JVMCIEventLogLevel -> _verbose_events st <> None).

(** * Concrete inputs of the examples *)

Definition main_thread : Thread := MkThread 1 "main".

Definition compiler_thread : Thread := MkThread 2 "JVMCI-native CompilerThread0".

(** A heap that satisfies every request with a block full of 41s. *)
Definition heap_plenty : nat -> option (nat -> jlong) := fun _ => Some (fun _ => 41).

(** A heap that satisfies its first request only. *)
Definition heap_one_block : nat -> option (nat -> jlong) :=
  fun k => match k with
           | O => Some (fun _ => 41)
           | S _ => None
           end.

(** Four counters, a pool of 7s and one live thread holding 1, 2, 3, 4. *)
Definition registry_one_thread : CounterState :=
  MkCounterState 4 (Block [7; 7; 7; 7])
    [MkJavaThread main_thread false (Block [1; 2; 3; 4])].

(** Four counters, an empty pool and three live threads that each
    incremented index 0 twice. *)
Definition registry_three_threads : CounterState :=
  MkCounterState 4 (Block [0; 0; 0; 0])
    [MkJavaThread (MkThread 1 "t1") false (Block [2; 0; 0; 0]);
     MkJavaThread (MkThread 2 "t2") false (Block [2; 0; 0; 0]);
     MkJavaThread (MkThread 3 "t3") false (Block [2; 0; 0; 0])].

(** A compiler thread that is about to exit with 5 in its first counter. *)
Definition exiting_compiler_thread : JavaThread :=
  MkJavaThread compiler_thread true (Block [5; 0; 0; 0]).

Definition exiting_java_thread : JavaThread :=
  MkJavaThread main_thread false (Block [5; 0; 0; 0]).

(** A loader that has loaded nothing, with no event log. *)
Definition library_unloaded : LibraryState :=
  MkLibraryState 0 None [] (MkLogState None None []).

Definition locate_in_dir (dir name : string) : option string := Some (dir +:+ "/" +:+ name).

Definition locate_nowhere (dir name : string) : option string := None.

Definition dll_load_succeeds (path : string) : Z * string := (4096, "").

Definition dll_load_fails (path : string) : Z * string :=
  (0, "cannot open shared object file: No such file or directory").

(** The level-1 log set up with room for twenty entries, nothing printed. *)
Definition log_ready : LogState :=
  MkLogState (Some (MkStringEventLog "JVMCI Events" "jvmci" 20 [])) None [].

(** A crash logger nobody has used yet. *)
Definition fatal_log_unused : FatalLogState := MkFatalLogState (-1) (-1) None [] [].

Definition prepare_log_file_fails (pattern : option string) (default_pattern : string)
    (overwrite : bool) : Z * string := (-1, "").

(** A class loading collaborator whose state is the list of the classes
    initialised so far, and in which the initialiser of
    [java_lang_Integer_IntegerCache] throws. *)
Definition resolve_always (sym : Symbol) (throw_error : bool) (vm0 : list Symbol)
  : list Symbol * (Symbol + string) := (vm0, inl sym).

Definition never_initialized (k : Symbol) (vm0 : list Symbol) : bool := true.

Definition initialize_but_Integer (k : Symbol) (vm0 : list Symbol)
  : list Symbol * option string :=
  match k with
  | java_lang_Integer_IntegerCache => (vm0, Some "java.lang.ExceptionInInitializerError")
  | _ => (k :: vm0, None)
  end.

Definition box_state_fresh : BoxState (list Symbol) := MkBoxState (list Symbol) false [] [].

(** A lifecycle nobody has initialised yet. *)
Definition lifecycle_fresh : LifecycleState :=
  MkLifecycleState None None false [] [] (MkLogState None None []).

(** Four counters, a pool of 7s, and two live threads: a Java thread holding
    1, 2, 3, 4 and a compiler thread holding 5, 0, 0, 0. *)
Definition registry_two_threads : CounterState :=
  MkCounterState 4 (Block [7; 7; 7; 7])
    [MkJavaThread main_thread false (Block [1; 2; 3; 4]);
     MkJavaThread compiler_thread true (Block [5; 0; 0; 0])].

(** A heap that satisfies its first four requests only. *)
Definition heap_four_blocks : nat -> option (nat -> jlong) :=
  fun k => if (k <? 4)%nat then Some (fun _ => 41) else None.

Definition strdup_fails (s : string) : option string := None.

(** * Properties *)

(** ** Loops *)

Lemma for_loop_invariant {St : Type} (P : nat -> St -> Prop)
    (body : Z -> St -> outcome St) (n i0 : nat) (s : St) :
  P i0 s ->
  (forall j t, (i0 <= j < i0 + n)%nat -> P j t ->
     exists t', body (Z.of_nat j) t = Ok t' /\ P (S j) t') ->
  exists s', for_loop n (Z.of_nat i0) body s = Ok s' /\ P (i0 + n)%nat s'.
Proof.
  revert i0 s. induction n as [|n IH]; intros i0 s HP Hstep.
  - exists s. rewrite Nat.add_0_r. done.
  - destruct (Hstep i0 s) as (t & Hb & Ht); [lia | done |].
    destruct (IH (S i0) t) as (s' & Hl & Hs'); [done | |].
    + intros j u Hj. apply Hstep. lia.
    + exists s'. split.
      * simpl. rewrite Hb. simpl.
        replace (Z.of_nat i0 + 1) with (Z.of_nat (S i0)) by lia. done.
      * replace (i0 + S n)%nat with (S i0 + n)%nat by lia. done.
Qed.

Lemma for_upto_invariant {St : Type} (P : nat -> St -> Prop)
    (body : Z -> St -> outcome St) (hi : Z) (s : St) :
  P 0%nat s ->
  (forall j t, (j < Z.to_nat hi)%nat -> P j t ->
     exists t', body (Z.of_nat j) t = Ok t' /\ P (S j) t') ->
  exists s', for_upto hi body s = Ok s' /\ P (Z.to_nat hi) s'.
Proof.
  intros HP Hstep. unfold for_upto.
  apply (for_loop_invariant P body (Z.to_nat hi) 0 s HP).
  intros j t Hj. apply Hstep. lia.
Qed.

(** ** Cells *)

Lemma load_Block (cells : list jlong) (i : nat) (v : jlong) :
  cells !! i = Some v -> load (Block cells) (Z.of_nat i) = Ok v.
Proof.
  intros H. unfold load.
  destruct (Z.leb_spec 0 (Z.of_nat i)); [|lia].
  by rewrite Nat2Z.id, H.
Qed.

Lemma store_Block (cells : list jlong) (i : nat) (v : jlong) :
  (i < length cells)%nat ->
  store (Block cells) (Z.of_nat i) v = Ok (Block (<[i := v]> cells)).
Proof.
  intros H. unfold store.
  destruct (Z.leb_spec 0 (Z.of_nat i)); [|lia].
  destruct (Z.ltb_spec (Z.of_nat i) (Z.of_nat (length cells))); [|lia].
  by rewrite Nat2Z.id.
Qed.

(** The copy loop: the first [n] cells come from the source, the others are
    left as they were. *)
Lemma copy_counters_Block (n : Z) (src dst : list jlong) :
  (Z.to_nat n <= length src)%nat -> (Z.to_nat n <= length dst)%nat ->
  copy_counters n (Block src) (Block dst)
  = Ok (Block (take (Z.to_nat n) src ++ drop (Z.to_nat n) dst)).
Proof.
  intros Hsrc Hdst. unfold copy_counters.
  destruct (for_upto_invariant
              (fun j a => a = Block (take j src ++ drop j dst))
              (fun i a => do v <- load (Block src) i; store a i v)
              n (Block dst)) as (s' & Hrun & ->).
  - by rewrite take_0, drop_0.
  - intros j t Hj ->.
    destruct (lookup_lt_is_Some_2 src j) as [v Hv]; [lia|].
    destruct (lookup_lt_is_Some_2 dst j) as [w Hw]; [lia|].
    exists (Block (take (S j) src ++ drop (S j) dst)). split; [|done].
    rewrite (load_Block _ _ _ Hv). cbn [obind].
    rewrite store_Block.
    + f_equal. f_equal.
      rewrite insert_app_r_alt by (rewrite length_take; lia).
      rewrite length_take, Nat.min_l, Nat.sub_diag by lia.
      rewrite (drop_S _ _ _ Hw). simpl.
      rewrite (take_S_r _ _ _ Hv), <- app_assoc. done.
    + rewrite length_app, length_take, length_drop. lia.
  - done.
Qed.

(** ** Resizing one block *)

Lemma cells_of_length (n : Z) (p : jlong_ptr) :
  counters_of_size n p -> length (cells_of p) = Z.to_nat n.
Proof. destruct p; simpl; lia. Qed.

Lemma NEW_C_HEAP_ARRAY_RETURN_NULL_Some heap (k : nat) (garbage : nat -> jlong) (size : Z) :
  heap k = Some garbage -> 0 <= size ->
  NEW_C_HEAP_ARRAY_RETURN_NULL heap k size = Block (map garbage (seq 0 (Z.to_nat size))).
Proof.
  intros Hk Hsize. unfold NEW_C_HEAP_ARRAY_RETURN_NULL.
  destruct (Z.ltb_spec size 0); [lia|]. by rewrite Hk.
Qed.

Lemma NEW_C_HEAP_ARRAY_RETURN_NULL_None heap (k : nat) (size : Z) :
  heap k = None -> NEW_C_HEAP_ARRAY_RETURN_NULL heap k size = NULL.
Proof.
  intros Hk. unfold NEW_C_HEAP_ARRAY_RETURN_NULL. rewrite Hk. by destruct (size <? 0).
Qed.

Lemma memset_zero_Block (cells : list jlong) (off n : Z) :
  0 <= off -> 0 <= n -> off + n <= Z.of_nat (length cells) ->
  memset_zero (Block cells) off n
  = Ok (Block (take (Z.to_nat off) cells ++ replicate (Z.to_nat n) 0
                 ++ drop (Z.to_nat (off + n)) cells)).
Proof.
  intros Hoff Hn Hlen. unfold memset_zero.
  destruct (Z.leb_spec 0 off); [|lia].
  destruct (Z.leb_spec 0 n); [|lia].
  destruct (Z.leb_spec (off + n) (Z.of_nat (length cells))); [|lia].
  done.
Qed.

(** When the allocation fails the function returns NULL and leaves the old
    block alone. *)
Lemma resize_counters_array_NULL heap (k : nat) (p : jlong_ptr) (current_size new_size : Z) :
  heap k = None ->
  resize_counters_array heap k p current_size new_size = Ok NULL.
Proof.
  intros Hk. unfold resize_counters_array.
  by rewrite (NEW_C_HEAP_ARRAY_RETURN_NULL_None _ _ _ Hk).
Qed.

(** When it succeeds the result is [resized], whatever the new block held. *)
Lemma resize_counters_array_resized heap (k : nat) (garbage : nat -> jlong)
    (p : jlong_ptr) (current_size new_size : Z) :
  heap k = Some garbage -> 0 <= new_size ->
  counters_of_size current_size p ->
  resize_counters_array heap k p current_size new_size = Ok (resized current_size new_size p).
Proof.
  intros Hk Hnew Hp. unfold resize_counters_array.
  rewrite (NEW_C_HEAP_ARRAY_RETURN_NULL_Some _ _ _ _ Hk Hnew).
  set (fresh := map garbage (seq 0 (Z.to_nat new_size))).
  assert (Hfresh : length fresh = Z.to_nat new_size)
    by (unfold fresh; by rewrite length_map, length_seq).
  destruct p as [|old|]; simpl in Hp; [| |done].
  - subst current_size.
    rewrite memset_zero_Block by lia.
    unfold resized. simpl.
    rewrite Z.sub_0_r, take_nil.
    rewrite drop_ge by lia. by rewrite app_nil_r.
  - rewrite copy_counters_Block by lia. cbn [obind].
    unfold resized. simpl cells_of.
    destruct (Z.ltb_spec current_size new_size) as [Hlt|Hge].
    + rewrite Z.min_l by lia.
      rewrite memset_zero_Block;
        [| lia | lia | rewrite length_app, length_take, length_drop; lia].
      cbn [obind FREE_C_HEAP_ARRAY]. f_equal. f_equal.
      rewrite take_app_length' by (rewrite length_take; lia).
      rewrite (take_ge old (Z.to_nat current_size)) by lia.
      rewrite (take_ge old (Z.to_nat new_size)) by lia.
      rewrite (drop_ge (old ++ _)) by (rewrite length_app, length_drop; lia).
      by rewrite app_nil_r.
    + rewrite Z.min_r by lia. cbn [obind FREE_C_HEAP_ARRAY]. f_equal. f_equal.
      rewrite drop_ge by lia.
      replace (Z.to_nat (new_size - current_size)) with 0%nat by lia. done.
Qed.

Lemma resized_counters_of_size (current_size new_size : Z) (p : jlong_ptr) :
  0 <= new_size -> counters_of_size current_size p ->
  counters_of_size new_size (resized current_size new_size p).
Proof.
  intros Hnew Hp. unfold resized. simpl.
  rewrite length_app, length_take, length_replicate.
  destruct p as [|old|]; simpl in *; lia.
Qed.

Lemma resized_lookup_low (current_size new_size : Z) (p : jlong_ptr) (i : nat) :
  counters_of_size current_size p ->
  Z.of_nat i < Z.min current_size new_size ->
  cells_of (resized current_size new_size p) !! i = cells_of p !! i.
Proof.
  intros Hp Hi. unfold resized. simpl.
  destruct p as [|old|]; simpl in *; [lia| |done].
  rewrite lookup_app_l by (rewrite length_take; lia).
  apply lookup_take_lt. lia.
Qed.

Lemma resized_lookup_high (current_size new_size : Z) (p : jlong_ptr) (i : nat) :
  counters_of_size current_size p -> 0 <= current_size ->
  current_size <= Z.of_nat i < new_size ->
  cells_of (resized current_size new_size p) !! i = Some 0.
Proof.
  intros Hp Hcur Hi.
  assert (Hlen : length (cells_of p) = Z.to_nat current_size)
    by (destruct p; simpl in Hp |- *; lia).
  unfold resized. cbn [cells_of].
  rewrite lookup_app_r by (rewrite length_take; lia).
  apply lookup_replicate_2. rewrite length_take. lia.
Qed.

(** ** Resizing every block *)

Lemma resize_counters_resized heap (k : nat) (garbage : nat -> jlong) (tp : JavaThread)
    (current_size new_size : Z) :
  heap k = Some garbage -> 0 <= new_size ->
  counters_of_size current_size (_jvmci_counters tp) ->
  resize_counters heap k tp current_size new_size
  = Ok (resized_thread current_size new_size tp, true).
Proof.
  intros Hk Hnew Htp. unfold resize_counters.
  by rewrite (resize_counters_array_resized _ _ _ _ _ _ Hk Hnew Htp).
Qed.

Lemma resize_counters_failed heap (k : nat) (tp : JavaThread) (current_size new_size : Z) :
  heap k = None ->
  resize_counters heap k tp current_size new_size = Ok (tp, false).
Proof.
  intros Hk. unfold resize_counters.
  by rewrite (resize_counters_array_NULL _ _ _ _ _ Hk).
Qed.

(** The loop over the threads when the [j]-th of its allocations is the
    first to fail: the threads before it are resized, the others are not
    touched. *)
Lemma resize_threads_failed heap (tps : list JavaThread) (current_size new_size : Z) :
  0 <= new_size ->
  Forall (fun tp => counters_of_size current_size (_jvmci_counters tp)) tps ->
  forall (k j : nat),
    (j < length tps)%nat ->
    (forall i, (i < j)%nat -> is_Some (heap (k + i)%nat)) ->
    heap (k + j)%nat = None ->
    resize_threads heap k tps current_size new_size
    = Ok (map (resized_thread current_size new_size) (take j tps) ++ drop j tps, true).
Proof.
  intros Hnew Hwf. induction Hwf as [|tp rest Htp Hrest IH]; intros k j Hj Hbefore Hfail.
  - simpl in Hj. lia.
  - destruct j as [|j].
    + rewrite Nat.add_0_r in Hfail. simpl.
      by rewrite (resize_counters_failed _ _ _ _ _ Hfail).
    + destruct (Hbefore 0%nat) as [g Hg]; [lia|]. rewrite Nat.add_0_r in Hg.
      simpl. rewrite (resize_counters_resized _ _ _ _ _ _ Hg Hnew Htp). cbn [obind].
      rewrite (IH (S k) j).
      * done.
      * simpl in Hj. lia.
      * intros i Hi. replace (S k + i)%nat with (k + S i)%nat by lia. apply Hbefore. lia.
      * by replace (S k + j)%nat with (k + S j)%nat by lia.
Qed.

(** The loop when every allocation succeeds. *)
Lemma resize_threads_resized heap (tps : list JavaThread) (current_size new_size : Z) :
  0 <= new_size ->
  Forall (fun tp => counters_of_size current_size (_jvmci_counters tp)) tps ->
  forall k : nat,
    (forall i, (i < length tps)%nat -> is_Some (heap (k + i)%nat)) ->
    resize_threads heap k tps current_size new_size
    = Ok (map (resized_thread current_size new_size) tps, false).
Proof.
  intros Hnew Hwf. induction Hwf as [|tp rest Htp Hrest IH]; intros k Hall; [done|].
  destruct (Hall 0%nat) as [g Hg]; [simpl; lia|]. rewrite Nat.add_0_r in Hg.
  simpl. rewrite (resize_counters_resized _ _ _ _ _ _ Hg Hnew Htp). cbn [obind].
  rewrite (IH (S k)); [done|].
  intros i Hi. replace (S k + i)%nat with (k + S i)%nat by lia. apply Hall. simpl. lia.
Qed.

Lemma resized_not_NULL (current_size new_size : Z) (p : jlong_ptr) :
  resized current_size new_size p <> NULL.
Proof. done. Qed.

Lemma doit_pool_failed heap (k : nat) (new_size : Z) (st : CounterState) :
  heap k = None -> doit heap k new_size st = Ok (st, true).
Proof.
  intros Hk. unfold doit. by rewrite (resize_counters_array_NULL _ _ _ _ _ Hk).
Qed.

Lemma doit_thread_failed heap (k j : nat) (new_size : Z) (st : CounterState) :
  registry_wf st -> 0 <= new_size ->
  (j < length (threads st))%nat ->
  (forall i, (i <= j)%nat -> is_Some (heap (k + i)%nat)) ->
  heap (k + S j)%nat = None ->
  doit heap k new_size st
  = Ok (MkCounterState (JVMCICounterSize st)
          (resized (JVMCICounterSize st) new_size (_jvmci_old_thread_counters st))
          (map (resized_thread (JVMCICounterSize st) new_size) (take j (threads st))
             ++ drop j (threads st)),
        true).
Proof.
  intros (Hsize & Hpool & Hthreads) Hnew Hj Hbefore Hfail. unfold doit.
  destruct (Hbefore 0%nat) as [g Hg]; [lia|]. rewrite Nat.add_0_r in Hg.
  rewrite (resize_counters_array_resized _ _ _ _ _ _ Hg Hnew Hpool). cbn [obind resized].
  rewrite (resize_threads_failed heap _ _ _ Hnew Hthreads (S k) j Hj).
  - done.
  - intros i Hi. replace (S k + i)%nat with (k + S i)%nat by lia. apply Hbefore. lia.
  - by replace (S k + j)%nat with (k + S j)%nat by lia.
Qed.

Lemma doit_resized heap (k : nat) (new_size : Z) (st : CounterState) :
  registry_wf st -> 0 <= new_size ->
  (forall i, (i <= length (threads st))%nat -> is_Some (heap (k + i)%nat)) ->
  doit heap k new_size st
  = Ok (MkCounterState new_size
          (resized (JVMCICounterSize st) new_size (_jvmci_old_thread_counters st))
          (map (resized_thread (JVMCICounterSize st) new_size) (threads st)),
        false).
Proof.
  intros (Hsize & Hpool & Hthreads) Hnew Hall. unfold doit.
  destruct (Hall 0%nat) as [g Hg]; [lia|]. rewrite Nat.add_0_r in Hg.
  rewrite (resize_counters_array_resized _ _ _ _ _ _ Hg Hnew Hpool). cbn [obind resized].
  rewrite (resize_threads_resized heap _ _ _ Hnew Hthreads (S k)); [done|].
  intros i Hi. replace (S k + i)%nat with (k + S i)%nat by lia. apply Hall. lia.
Qed.

(** C6. A resize whose allocation succeeds keeps the values below
    [min(current_size, new_size)], fills the indices from [current_size] up
    to [new_size] with zero and leaves exactly [new_size] cells, so it
    truncates when it shrinks; with no previous array (NULL) the result has
    [new_size] cells, all zero. This holds whatever the fresh block held. *)
Theorem resize_counters_array_preserves_and_zero_fills
    (heap : nat -> option (nat -> jlong)) (k : nat) (garbage : nat -> jlong)
    (current_size new_size : Z) :
  heap k = Some garbage -> 0 <= current_size -> 0 <= new_size ->
  (forall old : list jlong,
     Z.of_nat (length old) = current_size ->
     exists new : list jlong,
       resize_counters_array heap k (Block old) current_size new_size = Ok (Block new) /\
       Z.of_nat (length new) = new_size /\
       (forall i : nat, Z.of_nat i < Z.min current_size new_size -> new !! i = old !! i) /\
       (forall i : nat, current_size <= Z.of_nat i < new_size -> new !! i = Some 0)) /\
  resize_counters_array heap k NULL current_size new_size
  = Ok (Block (replicate (Z.to_nat new_size) 0)).
Proof.
  intros Hk Hcur Hnew. split.
  - intros old Hold.
    assert (Hp : counters_of_size current_size (Block old)) by done.
    exists (cells_of (resized current_size new_size (Block old))). repeat split.
    + by rewrite (resize_counters_array_resized _ _ _ _ _ _ Hk Hnew Hp).
    + apply (resized_counters_of_size current_size new_size (Block old) Hnew Hp).
    + intros i Hi. by apply (resized_lookup_low current_size new_size (Block old)).
    + intros i Hi. by apply (resized_lookup_high current_size new_size (Block old)).
  - unfold resize_counters_array.
    rewrite (NEW_C_HEAP_ARRAY_RETURN_NULL_Some _ _ _ _ Hk Hnew).
    rewrite memset_zero_Block by (rewrite ?length_map, ?length_seq; lia).
    simpl. rewrite drop_ge by (rewrite length_map, length_seq; lia).
    by rewrite app_nil_r.
Qed.

Lemma resized_keeps_cells (current_size new_size : Z) (p : jlong_ptr) :
  counters_of_size current_size p -> current_size <= new_size ->
  keeps_cells current_size p (resized current_size new_size p).
Proof.
  intros Hp Hle. unfold keeps_cells, resized. cbn [cells_of].
  pose proof (cells_of_length _ _ Hp) as Hlen.
  rewrite (take_ge (cells_of p) (Z.to_nat new_size)) by lia.
  rewrite take_app_le by lia. done.
Qed.

Lemma resized_threads_keep_cells (current_size new_size : Z) (tps : list JavaThread) :
  current_size <= new_size ->
  Forall (fun tp => counters_of_size current_size (_jvmci_counters tp)) tps ->
  forall j : nat,
    Forall2 (fun tp tp' =>
               java_thread tp' = java_thread tp /\
               is_Compiler_thread tp' = is_Compiler_thread tp /\
               keeps_cells current_size (_jvmci_counters tp) (_jvmci_counters tp'))
      tps (map (resized_thread current_size new_size) (take j tps) ++ drop j tps).
Proof.
  intros Hle Hwf. induction Hwf as [|tp rest Htp _ IH]; intros j.
  - rewrite take_nil, drop_nil. constructor.
  - destruct j as [|j]; simpl.
    + constructor; [done|]. specialize (IH 0%nat). by rewrite take_0, drop_0 in IH.
    + constructor; [|apply IH].
      split; [done|]. split; [done|]. by apply resized_keeps_cells.
Qed.

(** C1, as the code has it. The operation reports failure exactly when an
    allocation fails, and then leaves [JVMCICounterSize] as it was. When the
    allocation for the pool fails nothing has changed. When the allocation
    for the [j]-th thread fails, that thread and those after it are
    untouched; there is no rollback, so when the operation was enlarging the
    blocks, the pool and the threads before the [j]-th keep the resized
    blocks they were given, which hold every old value at its old index.
    When no allocation fails, the pool and every thread end with the resized
    block and the counter count is the new size. *)
Theorem resize_all_jvmci_counters_outcomes
    (heap : nat -> option (nat -> jlong)) (k : nat) (new_size : Z) (st : CounterState) :
  registry_wf st -> 0 <= new_size ->
  (heap k = None -> resize_all_jvmci_counters heap k new_size st = Ok (st, false)) /\
  (forall j : nat,
     (j < length (threads st))%nat ->
     (forall i, (i <= j)%nat -> is_Some (heap (k + i)%nat)) ->
     heap (k + S j)%nat = None ->
     exists st',
       resize_all_jvmci_counters heap k new_size st = Ok (st', false) /\
       JVMCICounterSize st' = JVMCICounterSize st /\
       drop j (threads st') = drop j (threads st) /\
       (JVMCICounterSize st <= new_size ->
          _jvmci_old_thread_counters st'
          = resized (JVMCICounterSize st) new_size (_jvmci_old_thread_counters st) /\
          take j (threads st')
          = map (resized_thread (JVMCICounterSize st) new_size) (take j (threads st)) /\
          keeps_counters st st')) /\
  ((forall i, (i <= length (threads st))%nat -> is_Some (heap (k + i)%nat)) ->
     resize_all_jvmci_counters heap k new_size st
     = Ok (MkCounterState new_size
             (resized (JVMCICounterSize st) new_size (_jvmci_old_thread_counters st))
             (map (resized_thread (JVMCICounterSize st) new_size) (threads st)),
           true) /\
     registry_wf
       (MkCounterState new_size
          (resized (JVMCICounterSize st) new_size (_jvmci_old_thread_counters st))
          (map (resized_thread (JVMCICounterSize st) new_size) (threads st)))).
Proof.
  intros Hwf Hnew. unfold resize_all_jvmci_counters. split; [|split].
  - intros Hk. by rewrite (doit_pool_failed _ _ _ _ Hk).
  - intros j Hj Hbefore Hfail.
    rewrite (doit_thread_failed _ _ _ _ _ Hwf Hnew Hj Hbefore Hfail). cbn [obind].
    eexists. split; [reflexivity|]. cbn [JVMCICounterSize threads _jvmci_old_thread_counters].
    assert (Hlen : length (map (resized_thread (JVMCICounterSize st) new_size)
                            (take j (threads st))) = j)
      by (rewrite length_map, length_take; lia).
    split; [done|]. split; [by rewrite drop_app_length' by done|].
    intros Hle. split; [done|]. split; [by rewrite take_app_length' by done|].
    destruct Hwf as (_ & Hpool & Hthreads). split; simpl.
    + by apply resized_keeps_cells.
    + by apply resized_threads_keep_cells.
  - intros Hall. rewrite (doit_resized _ _ _ _ Hwf Hnew Hall). split; [done|].
    destruct Hwf as (_ & Hpool & Hthreads). split; [done|]. split; simpl.
    + by apply resized_counters_of_size.
    + apply Forall_map. eapply Forall_impl; [exact Hthreads|].
      intros tp Htp. by apply resized_counters_of_size.
Qed.

(** ** Collecting *)

Lemma wrap_jlong_is_jlong (z : Z) : is_jlong (wrap_jlong z).
Proof.
  unfold is_jlong, wrap_jlong.
  pose proof (Z.mod_pos_bound (z + 2 ^ 63) (2 ^ 64)). lia.
Qed.

Lemma wrap_jlong_id (z : Z) : is_jlong z -> wrap_jlong z = z.
Proof.
  unfold is_jlong, wrap_jlong. intros Hz.
  rewrite Z.mod_small by lia. lia.
Qed.

Lemma wrap_jlong_add_l (a b : Z) : wrap_jlong (wrap_jlong a + b) = wrap_jlong (a + b).
Proof.
  unfold wrap_jlong. f_equal.
  replace ((a + 2 ^ 63) mod 2 ^ 64 - 2 ^ 63 + b + 2 ^ 63)
    with ((a + 2 ^ 63) mod 2 ^ 64 + b) by lia.
  rewrite Zplus_mod_idemp_l. f_equal. lia.
Qed.

Lemma copy_counters_sized (n : Z) (p : jlong_ptr) (dst : list jlong) :
  counters_of_size n p -> (Z.to_nat n <= length dst)%nat ->
  copy_counters n p (Block dst) = Ok (Block (cells_of p ++ drop (Z.to_nat n) dst)).
Proof.
  intros Hp Hdst. destruct p as [|src|]; simpl in Hp; [|  |done].
  - subst n. done.
  - rewrite copy_counters_Block by lia. simpl. by rewrite take_ge by lia.
Qed.

(** The add loop: the first [n] cells get the source's added, the others
    are left as they were. *)
Lemma add_counters_Block (n : Z) (src dst : list jlong) :
  (Z.to_nat n <= length src)%nat -> (Z.to_nat n <= length dst)%nat ->
  add_counters n (Block src) (Block dst)
  = Ok (Block (zip_with jlong_add (take (Z.to_nat n) dst) (take (Z.to_nat n) src)
                 ++ drop (Z.to_nat n) dst)).
Proof.
  intros Hsrc Hdst. unfold add_counters.
  destruct (for_upto_invariant
              (fun j a => a = Block (zip_with jlong_add (take j dst) (take j src) ++ drop j dst))
              (fun i a => do x <- load a i; do v <- load (Block src) i; store a i (jlong_add x v))
              n (Block dst)) as (s' & Hrun & ->).
  - by rewrite !take_0, drop_0.
  - intros j t Hj ->.
    destruct (lookup_lt_is_Some_2 src j) as [v Hv]; [lia|].
    destruct (lookup_lt_is_Some_2 dst j) as [x Hx]; [lia|].
    assert (Hzip : length (zip_with jlong_add (take j dst) (take j src)) = j)
      by (rewrite length_zip_with, !length_take; lia).
    exists (Block (zip_with jlong_add (take (S j) dst) (take (S j) src) ++ drop (S j) dst)).
    split; [|done].
    rewrite (load_Block _ j x).
    + cbn [obind]. rewrite (load_Block _ _ _ Hv). cbn [obind].
      rewrite store_Block by (rewrite length_app, Hzip, length_drop; lia).
      f_equal. f_equal.
      rewrite insert_app_r_alt by lia.
      rewrite Hzip, Nat.sub_diag, (drop_S _ _ _ Hx). simpl.
      rewrite (take_S_r _ _ _ Hv), (take_S_r _ _ _ Hx).
      rewrite zip_with_app by (rewrite !length_take; lia).
      by rewrite <- app_assoc.
    + rewrite lookup_app_r by lia.
      by rewrite Hzip, Nat.sub_diag, lookup_drop, Nat.add_0_r.
  - done.
Qed.

Lemma add_counters_sized (n : Z) (p : jlong_ptr) (dst : list jlong) :
  counters_of_size n p -> (Z.to_nat n <= length dst)%nat ->
  exists out : list jlong,
    add_counters n p (Block dst) = Ok (Block out) /\
    length out = length dst /\
    (forall i : nat, (i < Z.to_nat n)%nat ->
       out !! i = Some (jlong_add (default 0 (dst !! i)) (counter_at p i))) /\
    (forall i : nat, (Z.to_nat n <= i)%nat -> out !! i = dst !! i).
Proof.
  intros Hp Hdst. destruct p as [|src|]; simpl in Hp; [|  |done].
  - subst n. exists dst. split; [done|]. split; [done|].
    split; [|done]. intros i Hi. simpl in Hi. lia.
  - exists (zip_with jlong_add (take (Z.to_nat n) dst) (take (Z.to_nat n) src)
              ++ drop (Z.to_nat n) dst).
    assert (Hzip : length (zip_with jlong_add (take (Z.to_nat n) dst) (take (Z.to_nat n) src))
                   = Z.to_nat n)
      by (rewrite length_zip_with, !length_take; lia).
    split; [by apply add_counters_Block; lia|]. repeat split.
    + rewrite length_app, Hzip, length_drop. lia.
    + intros i Hi.
      destruct (lookup_lt_is_Some_2 src i) as [v Hv]; [lia|].
      destruct (lookup_lt_is_Some_2 dst i) as [x Hx]; [lia|].
      rewrite lookup_app_l by lia.
      unfold counter_at. simpl. rewrite Hv, Hx. simpl.
      apply lookup_zip_with_Some. exists x, v.
      by rewrite !lookup_take_lt by lia.
    + intros i Hi. rewrite lookup_app_r by lia.
      rewrite Hzip, lookup_drop. f_equal. lia.
Qed.

Lemma live_total_Permutation (excl : bool) (tps tps' : list JavaThread) (i : nat) :
  tps ≡ₚ tps' -> live_total excl tps i = live_total excl tps' i.
Proof.
  induction 1 as [|tp l l' _ IH|tp1 tp2 l|l1 l2 l3 _ IH1 _ IH2]; simpl; lia.
Qed.

(** The loop over the threads, started on [acc]. *)
Lemma collect_threads (excl : bool) (n : Z) (tps : list JavaThread) :
  Forall (fun tp => counters_of_size n (_jvmci_counters tp)) tps ->
  forall acc : list jlong,
    (Z.to_nat n <= length acc)%nat ->
    (forall (i : nat) x, (i < Z.to_nat n)%nat -> acc !! i = Some x -> is_jlong x) ->
    exists out : list jlong,
      for_each tps
        (fun tp a => if jvmci_counters_include excl tp
                     then add_counters n (_jvmci_counters tp) a else Ok a)
        (Block acc) = Ok (Block out) /\
      length out = length acc /\
      (forall i : nat, (i < Z.to_nat n)%nat ->
         out !! i = Some (wrap_jlong (default 0 (acc !! i) + live_total excl tps i))) /\
      (forall i : nat, (Z.to_nat n <= i)%nat -> out !! i = acc !! i).
Proof.
  induction 1 as [|tp rest Htp _ IH]; intros acc Hlen Hrange.
  - exists acc. split; [done|]. split; [done|]. split; [|done].
    intros i Hi. destruct (lookup_lt_is_Some_2 acc i) as [x Hx]; [lia|].
    rewrite Hx. simpl. rewrite Z.add_0_r, wrap_jlong_id; [done|]. by eapply Hrange.
  - simpl. destruct (jvmci_counters_include excl tp) eqn:Hinc.
    + destruct (add_counters_sized n _ acc Htp Hlen) as (out1 & Hrun1 & Hlen1 & Hlow1 & Hhigh1).
      rewrite Hrun1. cbn [obind].
      destruct (IH out1) as (out & Hrun & Hlen' & Hlow & Hhigh).
      * lia.
      * intros i x Hi Hx. rewrite (Hlow1 i Hi) in Hx. injection Hx as <-.
        apply wrap_jlong_is_jlong.
      * exists out. split; [done|]. split; [lia|]. split.
        -- intros i Hi. rewrite (Hlow i Hi), (Hlow1 i Hi). simpl. f_equal.
           unfold jlong_add. rewrite wrap_jlong_add_l. f_equal. lia.
        -- intros i Hi. by rewrite (Hhigh i Hi), (Hhigh1 i Hi).
    + cbn [obind]. destruct (IH acc Hlen Hrange) as (out & Hrun & Hlen' & Hlow & Hhigh).
      exists out. split; [done|]. split; [done|]. split; [|done].
      intros i Hi. rewrite (Hlow i Hi). f_equal.
Qed.

(** What one call of [collect_counters] with the right length leaves in the
    array. *)
Lemma collect_counters_cells (ASSERT excl : bool) (out0 : list jlong) (st : CounterState) :
  registry_wf st ->
  Forall is_jlong (cells_of (_jvmci_old_thread_counters st)) ->
  JVMCICounterSize st <= Z.of_nat (length out0) ->
  exists out : list jlong,
    collect_counters ASSERT excl (Block out0) (JVMCICounterSize st) st = Ok (Block out) /\
    length out = length out0 /\
    (forall i : nat, Z.of_nat i < JVMCICounterSize st ->
       out !! i = Some (wrap_jlong (counter_at (_jvmci_old_thread_counters st) i
                                    + live_total excl (threads st) i))) /\
    (forall i : nat, JVMCICounterSize st <= Z.of_nat i -> out !! i = out0 !! i).
Proof.
  intros (Hsize & Hpool & Hthreads) Hrange Hout0. unfold collect_counters.
  rewrite Z.eqb_refl.
  replace (assert ASSERT true "wrong value") with (Ok tt : outcome unit)
    by (by destruct ASSERT).
  cbn [obind].
  pose proof (cells_of_length _ _ Hpool) as Hcells.
  rewrite (copy_counters_sized _ _ out0 Hpool) by lia. cbn [obind].
  destruct (collect_threads excl _ _ Hthreads
              (cells_of (_jvmci_old_thread_counters st)
                 ++ drop (Z.to_nat (JVMCICounterSize st)) out0))
    as (out & Hrun & Hlen & Hlow & Hhigh).
  - rewrite length_app. lia.
  - intros i x Hi Hx. rewrite lookup_app_l in Hx by lia.
    eapply Forall_lookup_1; [exact Hrange | exact Hx].
  - exists out. split; [done|]. split; [|split].
    + rewrite Hlen, length_app, length_drop. lia.
    + intros i Hi. rewrite Hlow by lia. unfold counter_at.
      by rewrite lookup_app_l by lia.
    + intros i Hi. rewrite Hhigh by lia.
      rewrite lookup_app_r by lia. rewrite lookup_drop. f_equal. lia.
Qed.

(** C7. With the right length and blocks of the configured size, [collect]
    leaves at every index below the length the pool's value plus the sum of
    that counter over the live threads admitted by the exclusion policy, in
    64-bit arithmetic (and the plain sum when that is a [jlong]); cells beyond
    the length are not written; and visiting the threads in any other order
    leaves the same array. *)
Theorem collect_counters_totals (ASSERT excl : bool) (out0 : list jlong) (length : Z)
    (st : CounterState) :
  registry_wf st ->
  Forall is_jlong (cells_of (_jvmci_old_thread_counters st)) ->
  length = JVMCICounterSize st ->
  length <= Z.of_nat (List.length out0) ->
  exists out : list jlong,
    collect_counters ASSERT excl (Block out0) length st = Ok (Block out) /\
    (forall i : nat, Z.of_nat i < length ->
       let total := counter_at (_jvmci_old_thread_counters st) i
                    + live_total excl (threads st) i in
       out !! i = Some (wrap_jlong total) /\ (is_jlong total -> out !! i = Some total)) /\
    (forall i : nat, length <= Z.of_nat i -> out !! i = out0 !! i) /\
    (forall tps' : list JavaThread,
       tps' ≡ₚ threads st ->
       collect_counters ASSERT excl (Block out0) length
         (MkCounterState (JVMCICounterSize st) (_jvmci_old_thread_counters st) tps')
       = Ok (Block out)).
Proof.
  intros Hwf Hrange -> Hout0.
  destruct (collect_counters_cells ASSERT excl out0 st Hwf Hrange Hout0)
    as (out & Hrun & Hlen & Hlow & Hhigh).
  exists out. split; [done|]. split; [|split; [done|]].
  - intros i Hi total. split; [by apply Hlow|].
    intros Htotal. rewrite (Hlow i Hi). f_equal. by apply wrap_jlong_id.
  - intros tps' Hperm.
    destruct Hwf as (Hsize & Hpool & Hthreads).
    destruct (collect_counters_cells ASSERT excl out0
                (MkCounterState (JVMCICounterSize st) (_jvmci_old_thread_counters st) tps'))
      as (out' & Hrun' & Hlen' & Hlow' & Hhigh'); simpl.
    + split; [done|]. split; [done|]. simpl. by rewrite Hperm.
    + done.
    + done.
    + simpl in *. rewrite Hrun'. f_equal. f_equal.
      apply list_eq. intros i.
      destruct (Z.lt_ge_cases (Z.of_nat i) (JVMCICounterSize st)) as [Hi|Hi].
      * rewrite (Hlow' i Hi), (Hlow i Hi).
        by rewrite (live_total_Permutation excl _ _ i Hperm).
      * by rewrite (Hhigh' i Hi), (Hhigh i Hi).
Qed.

(** ** Retiring a thread *)

Lemma free_counters_thread_sized (thread : JavaThread) (st : CounterState) :
  0 < JVMCICounterSize st ->
  counters_of_size (JVMCICounterSize st) (_jvmci_counters thread) ->
  free_counters_thread thread st = Ok (set_jvmci_counters Freed thread).
Proof.
  intros Hpos Hthread. unfold free_counters_thread.
  destruct (Z.ltb_spec 0 (JVMCICounterSize st)); [|lia].
  destruct (_jvmci_counters thread); simpl in *; [lia | done | done].
Qed.

Lemma accumulate_counters_included (excl : bool) (thread : JavaThread) (st : CounterState) :
  registry_wf st ->
  counters_of_size (JVMCICounterSize st) (_jvmci_counters thread) ->
  0 < JVMCICounterSize st ->
  jvmci_counters_include excl thread = true ->
  exists pool' : list jlong,
    accumulate_counters excl thread st
    = Ok (MkCounterState (JVMCICounterSize st) (Block pool') (threads st)) /\
    Z.of_nat (length pool') = JVMCICounterSize st /\
    forall i : nat, Z.of_nat i < JVMCICounterSize st ->
      pool' !! i = Some (jlong_add (counter_at (_jvmci_old_thread_counters st) i)
                           (counter_at (_jvmci_counters thread) i)).
Proof.
  intros (Hsize & Hpool & _) Hthread Hpos Hinc. unfold accumulate_counters.
  destruct (Z.ltb_spec 0 (JVMCICounterSize st)); [|lia]. rewrite Hinc.
  destruct (_jvmci_old_thread_counters st) as [|pool|] eqn:Hp; simpl in Hpool; [lia| |done].
  destruct (add_counters_sized _ _ pool Hthread) as (out & Hrun & Hlen & Hlow & _); [lia|].
  exists out. rewrite Hrun. split; [done|]. split; [lia|].
  intros i Hi. by rewrite Hlow by lia.
Qed.

(** C2, as the code has it. The values of a terminating thread are folded
    elementwise into the pool by [accumulate_counters] only when the
    exclusion policy admits the thread; [free_counters(thread)] releases the
    block and never touches the pool. So the exit of an admitted thread
    folds and then releases, the exit of an excluded compiler thread
    releases without folding, and with a counter count of zero
    [accumulate_counters], [free_counters(thread)] and [free_counters()] do
    nothing. *)
Theorem thread_exit_counters_folds_admitted (excl : bool) (thread : JavaThread)
    (st : CounterState) :
  registry_wf st ->
  counters_of_size (JVMCICounterSize st) (_jvmci_counters thread) ->
  (0 < JVMCICounterSize st -> jvmci_counters_include excl thread = true ->
     exists pool' : list jlong,
       thread_exit_counters excl thread st
       = Ok (MkCounterState (JVMCICounterSize st) (Block pool') (threads st),
             set_jvmci_counters Freed thread) /\
       Z.of_nat (length pool') = JVMCICounterSize st /\
       forall i : nat, Z.of_nat i < JVMCICounterSize st ->
         pool' !! i = Some (jlong_add (counter_at (_jvmci_old_thread_counters st) i)
                              (counter_at (_jvmci_counters thread) i))) /\
  (0 < JVMCICounterSize st -> jvmci_counters_include excl thread = false ->
     thread_exit_counters excl thread st = Ok (st, set_jvmci_counters Freed thread)) /\
  (JVMCICounterSize st = 0 ->
     accumulate_counters excl thread st = Ok st /\
     free_counters_thread thread st = Ok thread /\
     free_counters st = Ok st).
Proof.
  intros Hwf Hthread. split; [|split].
  - intros Hpos Hinc.
    destruct (accumulate_counters_included excl thread st Hwf Hthread Hpos Hinc)
      as (pool' & Hacc & Hlen & Hcells).
    exists pool'. split; [|done].
    unfold thread_exit_counters. rewrite Hacc. cbn [obind].
    by rewrite free_counters_thread_sized.
  - intros Hpos Hinc. unfold thread_exit_counters, accumulate_counters.
    destruct (Z.ltb_spec 0 (JVMCICounterSize st)); [|lia]. rewrite Hinc. cbn [obind].
    by rewrite free_counters_thread_sized.
  - intros Hzero.
    unfold accumulate_counters, free_counters_thread, free_counters.
    rewrite Hzero. done.
Qed.

(** ** The length check of [collect_counters] *)

(** C3, as the code has it. In a build that compiles its assertions, every
    call of [collect_counters] with a length other than [JVMCICounterSize]
    terminates the process, before any cell is read or written. In a build
    that does not, the length is not checked: the call does what a call with
    that length does when the length is the configured count. *)
Theorem collect_counters_wrong_length_by_build (excl : bool) (array : jlong_ptr) (length : Z)
    (st : CounterState) :
  length <> JVMCICounterSize st ->
  collect_counters true excl array length st = Fatal (Diag "wrong value" []) /\
  collect_counters false excl array length st
  = collect_counters true excl array length
      (MkCounterState length (_jvmci_old_thread_counters st) (threads st)).
Proof.
  intros Hne. unfold collect_counters. split.
  - destruct (Z.eqb_spec length (JVMCICounterSize st)); [done|]. done.
  - simpl. by rewrite Z.eqb_refl.
Qed.

(** ** Shared library loader *)

Section LibraryProperties.
Variable ASSERT : bool.
Variable LogEvents : bool.
Variable JVMCIEventLogLevel : Z.
Variable JVMCITraceLevel : Z.
Variable JVMCILibPath : option string.
Variable JVMCI_SHARED_LIBRARY_NAME : string.
Variable get_dll_dir : string.
Variable dll_locate_lib : string -> string -> option string.
Variable dll_load : string -> Z * string.
Variable strdup : string -> option string.

Local Abbreviation locate :=
  (locate_shared_library JVMCILibPath JVMCI_SHARED_LIBRARY_NAME get_dll_dir dll_locate_lib).
Local Abbreviation load_library :=
  (load_shared_library LogEvents JVMCIEventLogLevel JVMCITraceLevel JVMCILibPath
     JVMCI_SHARED_LIBRARY_NAME get_dll_dir dll_locate_lib dll_load strdup).
Local Abbreviation get :=
  (get_shared_library ASSERT LogEvents JVMCIEventLogLevel JVMCITraceLevel JVMCILibPath
     JVMCI_SHARED_LIBRARY_NAME get_dll_dir dll_locate_lib dll_load strdup).
Local Abbreviation calls :=
  (get_shared_library_calls ASSERT LogEvents JVMCIEventLogLevel JVMCITraceLevel
     JVMCILibPath JVMCI_SHARED_LIBRARY_NAME get_dll_dir dll_locate_lib dll_load strdup).

Lemma get_shared_library_fast_path (load owns_lock : bool) (current : option Thread)
    (st : LibraryState) :
  _shared_library_handle st <> 0 \/ load = false ->
  get load owns_lock current st
  = (st, Ok (_shared_library_handle st, _shared_library_path st)).
Proof.
  intros Hfast. unfold get_shared_library, get_shared_library_from.
  destruct (Z.eqb_spec (_shared_library_handle st) 0), load; simpl; try done.
  by destruct Hfast.
Qed.

(** The read of line 77: a handle installed since line 70 is found, and
    nothing is loaded. *)
Lemma load_shared_library_installed (current : option Thread) (st : LibraryState) :
  _shared_library_handle st <> 0 ->
  load_library current st = (st, Ok (_shared_library_handle st, _shared_library_path st)).
Proof.
  intros Hset. unfold load_shared_library.
  by destruct (Z.eqb_spec (_shared_library_handle st) 0).
Qed.

(** Whatever a call under the lock does to the state. *)
Lemma load_shared_library_cases (current : option Thread) (st : LibraryState) :
  _shared_library_handle st = 0 ->
  let '(st', r) := load_library current st in
  (st' = st /\ exists d, locate = inl d /\ r = Fatal d) \/
  (exists path handle ebuf,
      locate = inr path /\ dll_load path = (handle, ebuf) /\
      dll_load_calls st' = dll_load_calls st ++ [path] /\
      ((handle = 0 /\
        _shared_library_handle st' = 0 /\
        _shared_library_path st' = _shared_library_path st /\
        r = Fatal (Diag "Unable to load JVMCI shared library from %s: %s" [path; ebuf])) \/
       (handle <> 0 /\
        _shared_library_handle st' = handle /\
        _shared_library_path st' = strdup path /\
        (r = Ok (handle, strdup path) \/ (exists d, r = Fatal d) \/ r = Undefined)))).
Proof.
  intros Hnull. unfold load_shared_library. rewrite Hnull. simpl.
  destruct locate as [d|path] eqn:Hlocate.
  - left. eauto.
  - destruct (dll_load path) as [handle ebuf] eqn:Hload.
    destruct (Z.eqb_spec handle 0) as [->|Hhandle].
    + right. exists path, 0, ebuf. simpl.
      split; [done|]. split; [done|]. split; [done|]. left. done.
    + destruct (JVMCI_event_1 _ _ _ _ _ _) as [lg|d|] eqn:Hevent;
        right; exists path, handle, ebuf; simpl; (split; [done|]); (split; [done|]);
        (split; [done|]); right; repeat split; eauto.
Qed.

Lemma get_shared_library_at_most_one_load (load owns_lock : bool)
    (current : option Thread) (st : LibraryState) :
  library_inv st ->
  let '(st', r) := get load owns_lock current st in
  (length (dll_load_calls st') <= 1)%nat /\
  (forall v, r = Ok v -> library_inv st').
Proof.
  intros [Hnull Hset].
  destruct (Z.eq_dec (_shared_library_handle st) 0) as [H0|Hn0].
  - destruct (Hnull H0) as [Hpath Hcalls].
    destruct load.
    + unfold get_shared_library, get_shared_library_from. rewrite H0. simpl.
      destruct (assert ASSERT owns_lock "must be") as [[]|d|] eqn:Hassert.
      * pose proof (load_shared_library_cases current st H0) as Hcases.
        destruct (load_library current st) as [st' r].
        destruct Hcases as [[-> _]|(path & handle & ebuf & _ & _ & Hcalls' & Hrest)].
        -- rewrite Hcalls. split; [simpl; lia|]. intros _ _. done.
        -- rewrite Hcalls', Hcalls. split; [simpl; lia|].
           intros v ->.
           destruct Hrest as [(_ & _ & _ & ?)|(Hh & Hh' & _)]; [done|].
           split; [rewrite Hh'; done|]. intros _. by rewrite Hcalls', Hcalls.
      * rewrite Hcalls. split; [simpl; lia|]. done.
      * rewrite Hcalls. split; [simpl; lia|]. done.
    + rewrite get_shared_library_fast_path by auto.
      rewrite Hcalls. split; [simpl; lia|]. done.
  - rewrite get_shared_library_fast_path by auto.
    rewrite (Hset Hn0). split; [lia|]. done.
Qed.

Lemma get_shared_library_calls_cached (cs : list library_call) (st : LibraryState) :
  _shared_library_handle st <> 0 ->
  calls cs st
  = (st, map (fun _ => Ok (_shared_library_handle st, _shared_library_path st)) cs).
Proof.
  intros Hset. induction cs as [|c cs IH]; [done|].
  simpl. rewrite get_shared_library_fast_path by auto.
  by rewrite IH.
Qed.

Lemma get_shared_library_calls_at_most_one_load (cs : list library_call)
    (st : LibraryState) :
  library_inv st -> (length (dll_load_calls (fst (calls cs st))) <= 1)%nat.
Proof.
  revert st. induction cs as [|c cs IH]; intros st Hinv.
  - simpl. destruct Hinv as [Hnull Hset].
    destruct (Z.eq_dec (_shared_library_handle st) 0) as [H0|Hn0].
    + destruct (Hnull H0) as [_ ->]. simpl. lia.
    + rewrite (Hset Hn0). lia.
  - simpl.
    pose proof (get_shared_library_at_most_one_load (call_load c) (call_owns_lock c)
                  (call_thread c) st Hinv) as Hstep.
    destruct (get _ _ _ st) as [st1 [v|d|]]; destruct Hstep as [Hlen Hinv1]; try done.
    specialize (IH st1 (Hinv1 v eq_refl)).
    by destruct (calls cs st1).
Qed.

(** C4. A call that finds a handle cached, or is told not to load, returns
    the cached handle and path and changes nothing, so it attempts no load;
    under the lock a handle installed in the meantime is found by the
    second read and returned without a load. The handle changes only from
    NULL, to the handle of a successful [os::dll_load], together with the
    path. From then on every call of any sequence returns that handle and
    path and leaves the state as it is, and over any sequence of calls
    [os::dll_load] runs at most once. *)
Theorem get_shared_library_caches_handle :
  (forall (load owns_lock : bool) (current : option Thread) (st : LibraryState),
     _shared_library_handle st <> 0 \/ load = false ->
     get load owns_lock current st
     = (st, Ok (_shared_library_handle st, _shared_library_path st))) /\
  (forall (owns_lock : bool) (current : option Thread) (st : LibraryState),
     _shared_library_handle st <> 0 -> (ASSERT = true -> owns_lock = true) ->
     get_shared_library_from ASSERT LogEvents JVMCIEventLogLevel JVMCITraceLevel
       JVMCILibPath JVMCI_SHARED_LIBRARY_NAME get_dll_dir dll_locate_lib dll_load strdup
       0 true owns_lock current st
     = (st, Ok (_shared_library_handle st, _shared_library_path st))) /\
  (forall (load owns_lock : bool) (current : option Thread) (st : LibraryState),
     library_inv st ->
     let st' := fst (get load owns_lock current st) in
     _shared_library_handle st' <> _shared_library_handle st ->
     _shared_library_handle st = 0 /\
     exists path ebuf,
       locate = inr path /\ dll_load path = (_shared_library_handle st', ebuf) /\
       _shared_library_path st' = strdup path /\ dll_load_calls st' = [path]) /\
  (forall (cs : list library_call) (st : LibraryState),
     _shared_library_handle st <> 0 ->
     calls cs st
     = (st, map (fun _ => Ok (_shared_library_handle st, _shared_library_path st)) cs)) /\
  (forall (cs : list library_call) (st : LibraryState),
     library_inv st -> (length (dll_load_calls (fst (calls cs st))) <= 1)%nat).
Proof.
  split; [exact get_shared_library_fast_path|].
  split; [|split; [|split;
    [exact get_shared_library_calls_cached
    |exact get_shared_library_calls_at_most_one_load]]].
  - intros owns_lock current st Hset Hlock.
    unfold get_shared_library_from. simpl.
    replace (assert ASSERT owns_lock "must be") with (Ok tt : outcome unit).
    + by apply load_shared_library_installed.
    + unfold assert. destruct ASSERT; [|done]. by rewrite Hlock.
  - intros load owns_lock current st [Hnull _] st' Hchanged.
    destruct (Z.eq_dec (_shared_library_handle st) 0) as [H0|Hn0].
    + split; [done|]. destruct (Hnull H0) as [_ Hcalls].
      destruct load.
      * subst st'. revert Hchanged.
        unfold get_shared_library, get_shared_library_from. rewrite H0. simpl.
        destruct (assert ASSERT owns_lock "must be") as [[]|d|]; simpl; [|lia|lia].
        pose proof (load_shared_library_cases current st H0) as Hcases.
        destruct (load_library current st) as [st' r]. simpl.
        destruct Hcases as [[-> _]|(path & handle & ebuf & Hloc & Hload & Hcalls' & Hrest)];
          [lia|].
        intros Hchanged. exists path, ebuf.
        destruct Hrest as [(_ & Hh & _)|(_ & Hh & Hpath & _)]; [lia|].
        rewrite Hh, Hcalls', Hcalls. done.
      * subst st'. rewrite get_shared_library_fast_path in Hchanged by auto. done.
    + subst st'. rewrite get_shared_library_fast_path in Hchanged by auto. done.
Qed.

(** C5, as the code has it. On the slow path both failures terminate the
    process and leave no handle behind. The directory searched is
    [JVMCILibPath] when it is set and the runtime's library directory
    otherwise. When the path cannot be built the diagnostic names
    [JVMCILibPath] if that is set and names nothing otherwise, and carries
    no error text; when the load fails the diagnostic names the path and
    the text [os::dll_load] left in its error buffer. *)
Theorem get_shared_library_failure_is_fatal (current : option Thread) (st : LibraryState) :
  _shared_library_handle st = 0 ->
  (forall path,
     locate = inr path <->
     dll_locate_lib (default get_dll_dir JVMCILibPath) JVMCI_SHARED_LIBRARY_NAME
     = Some path) /\
  (forall lib_path,
     JVMCILibPath = Some lib_path ->
     dll_locate_lib lib_path JVMCI_SHARED_LIBRARY_NAME = None ->
     get true true current st
     = (st, Fatal (Diag "Unable to create path to JVMCI shared library based on value of JVMCILibPath (%s)"
                     [lib_path]))) /\
  (JVMCILibPath = None ->
   dll_locate_lib get_dll_dir JVMCI_SHARED_LIBRARY_NAME = None ->
   get true true current st
   = (st, Fatal (Diag "Unable to create path to JVMCI shared library" []))) /\
  (forall path ebuf,
     locate = inr path -> dll_load path = (0, ebuf) ->
     exists st',
       get true true current st
       = (st', Fatal (Diag "Unable to load JVMCI shared library from %s: %s" [path; ebuf])) /\
       _shared_library_handle st' = 0 /\
       _shared_library_path st' = _shared_library_path st).
Proof.
  intros H0.
  assert (Hslow : get true true current st = load_library current st).
  { unfold get_shared_library, get_shared_library_from. rewrite H0. simpl.
    by destruct ASSERT. }
  rewrite Hslow. unfold load_shared_library, locate_shared_library. rewrite H0. simpl.
  split; [|split; [|split]].
  - intros path. destruct JVMCILibPath as [lib_path|]; simpl;
      destruct (dll_locate_lib _ _); split; congruence.
  - intros lib_path -> ->. done.
  - intros -> ->. done.
  - intros path ebuf Hlocate Hload. rewrite Hlocate, Hload. simpl. eauto.
Qed.

End LibraryProperties.

(** ** Event and trace log *)

(** C8, as the code has it. A call that passes the level check of the
    console trace prints a line tagged with the name of the calling thread,
    or with [?] when the thread cannot be resolved. A call that passes the
    level check of the structured log, the log being set up, records an
    entry tagged with the calling thread when it can be resolved, and
    records nothing when it cannot. *)
Theorem vlog_vtrace_thread_identity (LogEvents : bool)
    (JVMCIEventLogLevel JVMCITraceLevel level : Z) (msg : string)
    (current : option Thread) (st : LogState) :
  (LogEvents = true -> level <= JVMCIEventLogLevel ->
   forall log, event_log level st = Some log ->
     vlog LogEvents JVMCIEventLogLevel level msg current st
     = Ok (match current with
           | Some thread => set_event_log level (logv thread msg log) st
           | None => st
           end)) /\
  (level <= JVMCITraceLevel ->
   vtrace JVMCITraceLevel level msg current st
   = MkLogState (_events st) (_verbose_events st)
       (tty st ++ [trace_tag level (match current with
                                    | Some thread => name thread
                                    | None => "?"
                                    end);
                   msg])).
Proof.
  split.
  - intros -> Hlevel log Hlog. unfold vlog.
    destruct (Z.leb_spec level JVMCIEventLogLevel); [|lia]. simpl.
    rewrite Hlog. simpl. by destruct current.
  - intros Hlevel. unfold vtrace.
    by destruct (Z.leb_spec level JVMCITraceLevel); [|lia].
Qed.

(** ** Crash logger *)

(** C9. The thread that finds [_fatal_log_init_thread] unset claims it and
    publishes the descriptor it resolves: 1 when [ErrorFileToStdout] is set;
    else 2 when [ErrorFileToStderr] is set; else the descriptor of the file
    that [VMError::prepare_log_file] makes from [JVMCINativeLibraryErrorFile]
    and the default name, whose name is then recorded; and when that fails
    the descriptor is 1 and the reason is printed once on the console. The
    call returns, having written its buffer to the published descriptor. *)
Theorem fatal_log_resolves_target (ErrorFileToStdout ErrorFileToStderr : bool)
    (JVMCINativeLibraryErrorFile : option string) (LIBJVMCI_ERR_FILE : string)
    (prepare_log_file : option string -> string -> bool -> Z * string)
    (errno : Z) (strerror : Z -> string)
    (current_thread_id : Z) (buf : string) (st : FatalLogState) :
  _fatal_log_init_thread st = -1 ->
  exists st',
    fatal_log ErrorFileToStdout ErrorFileToStderr JVMCINativeLibraryErrorFile
      LIBJVMCI_ERR_FILE prepare_log_file errno strerror current_thread_id buf st = Some st' /\
    _fatal_log_init_thread st' = current_thread_id /\
    written st' = written st ++ [(_fatal_log_fd st', buf)] /\
    (ErrorFileToStdout = true ->
       _fatal_log_fd st' = 1 /\ console st' = console st /\
       _fatal_log_filename st' = _fatal_log_filename st) /\
    (ErrorFileToStdout = false -> ErrorFileToStderr = true ->
       _fatal_log_fd st' = 2 /\ console st' = console st /\
       _fatal_log_filename st' = _fatal_log_filename st) /\
    (ErrorFileToStdout = false -> ErrorFileToStderr = false ->
     forall log_fd name_buffer,
       prepare_log_file JVMCINativeLibraryErrorFile LIBJVMCI_ERR_FILE true
       = (log_fd, name_buffer) ->
       (log_fd <> -1 ->
          _fatal_log_fd st' = log_fd /\ console st' = console st /\
          _fatal_log_filename st' = Some name_buffer) /\
       (log_fd = -1 ->
          _fatal_log_fd st' = 1 /\
          console st'
          = console st ++
              ["Can't open JVMCI shared library error report file. Error: ";
               strerror errno;
               "JVMCI shared library error report will be written to console."] /\
          _fatal_log_filename st' = _fatal_log_filename st)).
Proof.
  intros Hunset. unfold fatal_log, cmpxchg. rewrite Hunset. simpl.
  eexists. split; [reflexivity|]. unfold open_fatal_log.
  destruct (prepare_log_file JVMCINativeLibraryErrorFile LIBJVMCI_ERR_FILE true)
    as [fd name] eqn:Hprepare.
  destruct ErrorFileToStdout, ErrorFileToStderr, (Z.eqb_spec fd (-1)); simpl;
    (split; [done|]); (split; [done|]);
    (split; [done|]); (split; [done|]); intros Hout Herr; try done.
  all: intros log_fd name_buffer [= <- <-]; split; intros ?; done.
Qed.

(** ** Box caches *)

Section BoxCacheProperties.
Variable VM : Type.
Variable Klass : Type.
Variable oop : Type.
Variable resolve_or_fail : Symbol -> bool -> VM -> VM * (Klass + oop).
Variable is_not_initialized : Klass -> VM -> bool.
Variable initialize : Klass -> VM -> VM * option oop.

Local Abbreviation round := (initialize_box_class VM Klass oop resolve_or_fail
                               is_not_initialized initialize).
Local Abbreviation rounds := (initialize_box_classes VM Klass oop resolve_or_fail
                                is_not_initialized initialize).
Local Abbreviation ensure := (ensure_box_caches_initialized VM Klass oop resolve_or_fail
                                is_not_initialized initialize).
Local Abbreviation done_one := (box_class_done VM Klass oop resolve_or_fail
                                  is_not_initialized initialize).
Local Abbreviation done_all := (box_classes_done VM Klass oop resolve_or_fail
                                  is_not_initialized initialize).

(** A round starts by resolving its class. *)
Lemma initialize_box_class_calls (sym : Symbol) (vm0 : VM) (calls : list box_call) :
  exists new, snd (fst (round sym (vm0, calls))) = calls ++ Resolve sym :: new.
Proof.
  unfold initialize_box_class.
  destruct (resolve_or_fail sym true vm0) as [vm1 [k|e]]; simpl; [|by eexists].
  destruct (is_not_initialized k vm1); [|by eexists].
  destruct (initialize k vm1) as [vm2 pending]. simpl. by eexists.
Qed.

(** A round leaves no exception exactly when the class got through. *)
Lemma initialize_box_class_done (sym : Symbol) (vm0 vm' : VM) (calls : list box_call) :
  (exists calls', round sym (vm0, calls) = (vm', calls', None)) <-> done_one sym vm0 vm'.
Proof.
  unfold initialize_box_class, box_class_done. split.
  - intros [calls' Hround].
    destruct (resolve_or_fail sym true vm0) as [vm1 [k|e]]; [|done].
    exists k, vm1. split; [done|].
    destruct (is_not_initialized k vm1).
    + right. split; [done|].
      destruct (initialize k vm1) as [vm2 pending]. by injection Hround as -> _ ->.
    + left. by injection Hround as ->.
  - intros (k & vm1 & -> & [[-> ->]|[-> ->]]); by eexists.
Qed.

Lemma initialize_box_classes_done (syms : list Symbol) (vm0 vm' : VM)
    (calls : list box_call) :
  (exists calls', rounds syms (vm0, calls) = (vm', calls', None)) <-> done_all syms vm0 vm'.
Proof.
  revert vm0 calls. induction syms as [|sym rest IH]; intros vm0 calls;
    cbn [initialize_box_classes box_classes_done].
  - split; [by intros [calls' [= -> _]] | intros ->; by eexists].
  - split.
    + intros [calls' Hrun].
      destruct (round sym (vm0, calls)) as [[vm1 calls1] [e|]] eqn:Hround; [done|].
      exists vm1. split.
      * apply (initialize_box_class_done sym vm0 vm1 calls). by eexists.
      * apply (IH vm1 calls1). by eexists.
    + intros (vm1 & Hone & Hrest).
      apply (initialize_box_class_done sym vm0 vm1 calls) in Hone as [calls1 ->].
      by apply (IH vm1 calls1).
Qed.

(** The calls of a run: they extend the trace, start with the first class
    and, when no exception is left, include the resolution of every class. *)
Lemma initialize_box_classes_calls (syms : list Symbol) (vm0 : VM) (calls : list box_call) :
  exists new,
    snd (fst (rounds syms (vm0, calls))) = calls ++ new /\
    (forall sym rest, syms = sym :: rest -> exists new', new = Resolve sym :: new') /\
    (snd (rounds syms (vm0, calls)) = None -> forall sym, sym ∈ syms -> Resolve sym ∈ new).
Proof.
  revert vm0 calls. induction syms as [|sym rest IH]; intros vm0 calls;
    cbn [initialize_box_classes].
  - exists []. simpl. rewrite app_nil_r. split; [done|]. split; [done|].
    intros _ sym Hsym. by apply elem_of_nil in Hsym.
  - destruct (initialize_box_class_calls sym vm0 calls) as [new1 Hnew1].
    destruct (round sym (vm0, calls)) as [[vm1 calls1] [e|]] eqn:Hround;
      simpl in Hnew1; subst calls1.
    + exists (Resolve sym :: new1). simpl. split; [done|]. split; [|done].
      intros ? ? [= <- <-]. by eexists.
    + destruct (IH vm1 (calls ++ Resolve sym :: new1)) as (new & Hcalls & _ & Hall).
      exists (Resolve sym :: new1 ++ new). split; [|split].
      * rewrite Hcalls, <- app_assoc. done.
      * intros ? ? [= <- <-]. by eexists.
      * intros Hnone s Hs. apply elem_of_cons in Hs as [->|Hs].
        -- apply elem_of_cons. by left.
        -- apply elem_of_cons. right. apply elem_of_app. right. by apply Hall.
Qed.

(** C10. With the flag set the call does nothing. With the flag clear it
    starts the list from its first class, [java_lang_Boolean], whatever
    happened in an earlier call; it sets the flag exactly when it leaves no
    exception pending, which is exactly when every one of the six classes
    was resolved and, where it reported itself not initialised,
    initialised without an exception; and when a class throws, the
    exception is pending at the return and the flag is still clear, so the
    next call runs the list again. *)
Theorem ensure_box_caches_initialized_sets_flag_last (st : BoxState VM) :
  let st' := fst (ensure st) in
  let pending := snd (ensure st) in
  length box_classes = 6%nat /\
  (_box_caches_initialized VM st = true -> st' = st /\ pending = None) /\
  (_box_caches_initialized VM st = false ->
     (_box_caches_initialized VM st' = true <-> pending = None) /\
     (pending = None <-> done_all box_classes (vm VM st) (vm VM st')) /\
     exists new,
       box_calls VM st' = box_calls VM st ++ Resolve java_lang_Boolean :: new /\
       (pending = None ->
        forall sym, sym ∈ box_classes -> Resolve sym ∈ Resolve java_lang_Boolean :: new)).
Proof.
  split; [done|]. unfold ensure_box_caches_initialized. split.
  - intros ->. done.
  - intros ->.
    destruct (initialize_box_classes_calls box_classes (vm VM st) (box_calls VM st))
      as (new & Hcalls & Hfirst & Hall).
    destruct (Hfirst java_lang_Boolean _ eq_refl) as [new' ->].
    pose proof (initialize_box_classes_done box_classes (vm VM st)) as Hdone.
    destruct (rounds box_classes (vm VM st, box_calls VM st))
      as [[vm1 calls1] [e|]] eqn:Hrun; cbn [fst snd] in *.
    + split; [by split|]. split.
      * split; [done|]. intros Hall_done.
        apply (Hdone vm1 (box_calls VM st)) in Hall_done as [calls' Hrun'].
        rewrite Hrun in Hrun'. done.
      * exists new'. split; [done|]. done.
    + split; [by split|]. split.
      * split; [|done]. intros _. apply (Hdone vm1 (box_calls VM st)). by eexists.
      * exists new'. split; [done|]. intros _. by apply Hall.
Qed.

End BoxCacheProperties.

(** * Examples *)

(** ** Counter registry *)

Lemma registry_one_thread_wf : registry_wf registry_one_thread.
Proof. split; [done|]. split; [done|]. by repeat constructor. Defined.

Lemma registry_three_threads_wf : registry_wf registry_three_threads.
Proof. split; [done|]. split; [done|]. by repeat constructor. Defined.

(** The scenario of the specification: [resizeAll(8)] at size 4 with one
    live thread holding 1, 2, 3, 4. *)
Lemma resize_all_jvmci_counters_outcomes_witness :
  resize_all_jvmci_counters heap_plenty 0 8 registry_one_thread
  = Ok (MkCounterState 8 (Block [7; 7; 7; 7; 0; 0; 0; 0])
          [MkJavaThread main_thread false (Block [1; 2; 3; 4; 0; 0; 0; 0])],
        true).
Proof.
  destruct (resize_all_jvmci_counters_outcomes heap_plenty 0 8 registry_one_thread
              registry_one_thread_wf ltac:(done)) as (_ & _ & Hall).
  destruct Hall as [Hrun _]; [intros i _; by eexists|].
  exact Hrun.
Defined.

(** The allocation for the thread fails after the pool has been resized:
    the operation reports failure, and the pool has eight cells where it had
    four. *)
Lemma resize_all_or_nothing_counterexample :
  registry_wf registry_one_thread /\
  heap_one_block 1%nat = None /\
  resize_all_jvmci_counters heap_one_block 0 8 registry_one_thread
  = Ok (MkCounterState 4 (Block [7; 7; 7; 7; 0; 0; 0; 0])
          [MkJavaThread main_thread false (Block [1; 2; 3; 4])],
        false) /\
  ~ resize_all_or_nothing.
Proof.
  split; [exact registry_one_thread_wf|]. split; [done|]. split; [done|].
  intros Hclaim.
  destruct (Hclaim heap_one_block 0%nat 8 registry_one_thread registry_one_thread_wf
              ltac:(done)) as [Hfail _].
  specialize (Hfail (ex_intro _ 1%nat (conj (le_n 1) eq_refl))).
  vm_compute in Hfail. discriminate Hfail.
Qed.

Lemma resize_counters_array_preserves_and_zero_fills_witness :
  exists new : list jlong,
    resize_counters_array heap_plenty 0 (Block [1; 2; 3; 4]) 4 8 = Ok (Block new) /\
    Z.of_nat (length new) = 8 /\
    new !! 3%nat = Some 4 /\ new !! 4%nat = Some 0 /\
    resize_counters_array heap_plenty 0 NULL 0 3 = Ok (Block [0; 0; 0]).
Proof.
  destruct (resize_counters_array_preserves_and_zero_fills heap_plenty 0 (fun _ => 41) 4 8
              eq_refl ltac:(done) ltac:(done)) as [Hold _].
  destruct (Hold [1; 2; 3; 4] eq_refl) as (new & Hrun & Hlen & Hlow & Hhigh).
  exists new. split; [exact Hrun|]. split; [exact Hlen|].
  split; [exact (Hlow 3%nat eq_refl)|]. split; [by apply (Hhigh 4%nat)|].
  exact (proj2 (resize_counters_array_preserves_and_zero_fills heap_plenty 0 (fun _ => 41) 0 3
                  eq_refl ltac:(done) ltac:(done))).
Defined.

(** The scenario of the specification: four counters, three threads that
    each incremented index 0 twice. *)
Lemma collect_counters_totals_witness :
  exists out : list jlong,
    collect_counters true false (Block [9; 9; 9; 9]) 4 registry_three_threads
    = Ok (Block out) /\
    out !! 0%nat = Some 6 /\ out !! 1%nat = Some 0.
Proof.
  destruct (collect_counters_totals true false [9; 9; 9; 9] 4 registry_three_threads
              registry_three_threads_wf ltac:(by repeat constructor) eq_refl ltac:(done))
    as (out & Hrun & Hcells & _).
  exists out. split; [exact Hrun|]. split.
  - by apply (proj2 (Hcells 0%nat eq_refl)).
  - by apply (proj2 (Hcells 1%nat eq_refl)).
Defined.

Lemma thread_exit_counters_folds_admitted_witness :
  (exists pool' : list jlong,
     thread_exit_counters true exiting_java_thread registry_one_thread
     = Ok (MkCounterState 4 (Block pool') (threads registry_one_thread),
           set_jvmci_counters Freed exiting_java_thread) /\
     pool' !! 0%nat = Some 12) /\
  thread_exit_counters true exiting_compiler_thread registry_one_thread
  = Ok (registry_one_thread, set_jvmci_counters Freed exiting_compiler_thread).
Proof.
  split.
  - destruct (thread_exit_counters_folds_admitted true exiting_java_thread
                registry_one_thread registry_one_thread_wf eq_refl) as (Hfold & _).
    destruct (Hfold eq_refl eq_refl) as (pool' & Hrun & _ & Hcells).
    exists pool'. split; [exact Hrun|]. exact (Hcells 0%nat eq_refl).
  - destruct (thread_exit_counters_folds_admitted true exiting_compiler_thread
                registry_one_thread registry_one_thread_wf eq_refl) as (_ & Hskip & _).
    exact (Hskip eq_refl eq_refl).
Defined.

(** A compiler thread exits while compiler threads are excluded: its block
    is released and the 5 it had counted is in the pool nowhere. *)
Lemma thread_exit_always_folds_counterexample :
  thread_exit_counters true exiting_compiler_thread registry_one_thread
  = Ok (registry_one_thread, set_jvmci_counters Freed exiting_compiler_thread) /\
  free_counters_thread exiting_compiler_thread registry_one_thread
  = Ok (set_jvmci_counters Freed exiting_compiler_thread) /\
  ~ thread_exit_always_folds.
Proof.
  split; [done|]. split; [done|]. intros Hclaim.
  destruct (Hclaim true exiting_compiler_thread registry_one_thread
              registry_one_thread_wf eq_refl) as [Hfold _].
  destruct (Hfold eq_refl) as (st' & Hrun & Hcells).
  injection Hrun as <-. specialize (Hcells 0%nat eq_refl).
  vm_compute in Hcells. discriminate Hcells.
Qed.

Lemma collect_counters_wrong_length_by_build_witness :
  collect_counters true false (Block [0; 0]) 2 registry_one_thread
  = Fatal (Diag "wrong value" []) /\
  collect_counters false false (Block [0; 0]) 2 registry_one_thread
  = collect_counters true false (Block [0; 0]) 2
      (MkCounterState 2 (Block [7; 7; 7; 7]) (threads registry_one_thread)).
Proof.
  apply (collect_counters_wrong_length_by_build false (Block [0; 0]) 2 registry_one_thread).
  discriminate.
Defined.

(** A product build, four counters configured and a call with length 2: the
    call returns with the first two totals. *)
Lemma collect_wrong_length_always_fatal_counterexample :
  2 <> JVMCICounterSize registry_one_thread /\
  collect_counters false false (Block [0; 0]) 2 registry_one_thread = Ok (Block [8; 9]) /\
  ~ collect_wrong_length_always_fatal.
Proof.
  split; [done|]. split; [done|]. intros Hclaim.
  destruct (Hclaim false false (Block [0; 0]) 2 registry_one_thread ltac:(done)) as [d Hd].
  vm_compute in Hd. discriminate Hd.
Qed.

(** ** Shared library loader *)

Lemma library_unloaded_inv : library_inv library_unloaded.
Proof. split; [done|]. intros H. by destruct H. Defined.

(** Three calls on a fresh loader: one load, and the same handle and path
    each time. *)
Lemma get_shared_library_caches_handle_witness :
  (length (dll_load_calls
             (fst (get_shared_library_calls true false 0 0 None "jvmcicompiler" "/jdk/lib"
                     locate_in_dir dll_load_succeeds Some
                     [MkLibraryCall true true None; MkLibraryCall true true None;
                      MkLibraryCall false false None]
                     library_unloaded))) <= 1)%nat /\
  get_shared_library_calls true false 0 0 None "jvmcicompiler" "/jdk/lib"
    locate_in_dir dll_load_succeeds Some
    [MkLibraryCall true true None; MkLibraryCall false false (Some main_thread)]
    (MkLibraryState 4096 (Some "/jdk/lib/jvmcicompiler") ["/jdk/lib/jvmcicompiler"]
       (MkLogState None None []))
  = (MkLibraryState 4096 (Some "/jdk/lib/jvmcicompiler") ["/jdk/lib/jvmcicompiler"]
       (MkLogState None None []),
     [Ok (4096, Some "/jdk/lib/jvmcicompiler"); Ok (4096, Some "/jdk/lib/jvmcicompiler")]).
Proof.
  destruct (get_shared_library_caches_handle true false 0 0 None "jvmcicompiler" "/jdk/lib"
              locate_in_dir dll_load_succeeds Some) as (_ & _ & _ & Hcached & Honce).
  split.
  - exact (Honce _ library_unloaded library_unloaded_inv).
  - apply (Hcached [MkLibraryCall true true None; MkLibraryCall false false (Some main_thread)]).
    discriminate.
Defined.

Lemma get_shared_library_failure_is_fatal_witness :
  get_shared_library true false 0 0 (Some "/opt/graal") "jvmcicompiler" "/jdk/lib"
    locate_nowhere dll_load_fails Some true true None library_unloaded
  = (library_unloaded,
     Fatal (Diag "Unable to create path to JVMCI shared library based on value of JVMCILibPath (%s)"
              ["/opt/graal"])) /\
  exists st',
    get_shared_library true false 0 0 None "jvmcicompiler" "/jdk/lib"
      locate_in_dir dll_load_fails Some true true None library_unloaded
    = (st', Fatal (Diag "Unable to load JVMCI shared library from %s: %s"
                     ["/jdk/lib/jvmcicompiler";
                      "cannot open shared object file: No such file or directory"])) /\
    _shared_library_handle st' = 0.
Proof.
  split.
  - destruct (get_shared_library_failure_is_fatal true false 0 0 (Some "/opt/graal")
                "jvmcicompiler" "/jdk/lib" locate_nowhere dll_load_fails Some None
                library_unloaded eq_refl) as (_ & Hoverride & _).
    exact (Hoverride "/opt/graal" eq_refl eq_refl).
  - destruct (get_shared_library_failure_is_fatal true false 0 0 None
                "jvmcicompiler" "/jdk/lib" locate_in_dir dll_load_fails Some None
                library_unloaded eq_refl) as (_ & _ & _ & Hload).
    destruct (Hload "/jdk/lib/jvmcicompiler"
                "cannot open shared object file: No such file or directory"
                eq_refl eq_refl) as (st' & Hrun & Hhandle & _).
    exists st'. split; [exact Hrun | exact Hhandle].
Defined.

(** No override is configured and the path cannot be built: the diagnostic
    has no argument, so it names neither a path nor an error text. *)
Lemma library_failure_names_path_and_error_counterexample :
  get_shared_library true false 0 0 None "jvmcicompiler" "/jdk/lib"
    locate_nowhere dll_load_fails Some true true None library_unloaded
  = (library_unloaded, Fatal (Diag "Unable to create path to JVMCI shared library" [])) /\
  ~ library_failure_names_path_and_error.
Proof.
  split; [done|]. intros Hclaim.
  destruct (Hclaim true false 0 0 None "jvmcicompiler" "/jdk/lib"
              locate_nowhere dll_load_fails Some None library_unloaded eq_refl I)
    as (d & path_text & error_text & Hrun & Hpath & _).
  vm_compute in Hrun. injection Hrun as <-.
  by apply elem_of_nil in Hpath.
Qed.

(** ** Event and trace log *)

Lemma vlog_vtrace_thread_identity_witness :
  vlog true 1 1 "hello" (Some main_thread) log_ready
  = Ok (MkLogState
          (Some (MkStringEventLog "JVMCI Events" "jvmci" 20
                   [MkEventRecord main_thread "hello"]))
          None []) /\
  vlog true 1 1 "hello" None log_ready = Ok log_ready /\
  vtrace 1 1 "hello" (Some main_thread) log_ready
  = MkLogState (_events log_ready) None ["JVMCITrace-1[main]: "; "hello"] /\
  vtrace 1 1 "hello" None log_ready
  = MkLogState (_events log_ready) None ["JVMCITrace-1[?]: "; "hello"].
Proof.
  split; [|split; [|split]].
  - exact (proj1 (vlog_vtrace_thread_identity true 1 1 1 "hello" (Some main_thread) log_ready)
             eq_refl ltac:(done) _ eq_refl).
  - exact (proj1 (vlog_vtrace_thread_identity true 1 1 1 "hello" None log_ready)
             eq_refl ltac:(done) _ eq_refl).
  - exact (proj2 (vlog_vtrace_thread_identity true 1 1 1 "hello" (Some main_thread) log_ready)
             ltac:(done)).
  - exact (proj2 (vlog_vtrace_thread_identity true 1 1 1 "hello" None log_ready)
             ltac:(done)).
Defined.

(** A level-1 event from a thread that cannot be resolved, with the log set
    up and the level enabled: the structured log stays empty. *)
Lemma vlog_always_records_counterexample :
  vlog true 1 1 "hello" None log_ready = Ok log_ready /\
  event_log 1 log_ready = Some (MkStringEventLog "JVMCI Events" "jvmci" 20 []) /\
  ~ vlog_always_records.
Proof.
  split; [done|]. split; [done|]. intros Hclaim.
  destruct (Hclaim 1 1 "hello" None log_ready _ ltac:(done) eq_refl) as (who & Hrun & _).
  vm_compute in Hrun. discriminate Hrun.
Qed.

(** ** Crash logger *)

(** Neither flag is set and the file cannot be created. *)
Lemma fatal_log_resolves_target_witness :
  exists st',
    fatal_log false false None "hs_err_pid%p_libjvmci.log" prepare_log_file_fails 13
      (fun _ => "Permission denied") 77 "boom" fatal_log_unused = Some st' /\
    _fatal_log_fd st' = 1 /\
    console st'
    = ["Can't open JVMCI shared library error report file. Error: ";
       "Permission denied";
       "JVMCI shared library error report will be written to console."] /\
    written st' = [(1, "boom")].
Proof.
  destruct (fatal_log_resolves_target false false None "hs_err_pid%p_libjvmci.log"
              prepare_log_file_fails 13 (fun _ => "Permission denied") 77 "boom"
              fatal_log_unused eq_refl)
    as (st' & Hrun & _ & Hwritten & _ & _ & Hfile).
  destruct (Hfile eq_refl eq_refl (-1) "" eq_refl) as [_ Hfallback].
  destruct (Hfallback eq_refl) as (Hfd & Hconsole & _).
  exists st'. split; [exact Hrun|]. split; [exact Hfd|]. split; [exact Hconsole|].
  rewrite Hwritten, Hfd. reflexivity.
Defined.

(** ** Box caches *)

(** The initialiser of the fifth class throws: the flag stays clear, and the
    next call starts again with the first class. *)
Lemma ensure_box_caches_initialized_sets_flag_last_witness :
  let first := ensure_box_caches_initialized (list Symbol) Symbol string resolve_always
                 never_initialized initialize_but_Integer box_state_fresh in
  let second := ensure_box_caches_initialized (list Symbol) Symbol string resolve_always
                  never_initialized initialize_but_Integer (fst first) in
  snd first = Some "java.lang.ExceptionInInitializerError" /\
  _box_caches_initialized _ (fst first) = false /\
  exists new,
    box_calls _ (fst second) = box_calls _ (fst first) ++ Resolve java_lang_Boolean :: new.
Proof.
  intros first second.
  destruct (ensure_box_caches_initialized_sets_flag_last (list Symbol) Symbol string
              resolve_always never_initialized initialize_but_Integer box_state_fresh)
    as (_ & _ & Hfirst).
  destruct (Hfirst eq_refl) as (Hflag & _ & _).
  destruct (ensure_box_caches_initialized_sets_flag_last (list Symbol) Symbol string
              resolve_always never_initialized initialize_but_Integer (fst first))
    as (_ & _ & Hsecond).
  destruct (Hsecond eq_refl) as (_ & _ & new & Hcalls & _).
  split; [reflexivity|]. split.
  - destruct (_box_caches_initialized _ (fst first)) eqn:Hset; [|reflexivity].
    apply Hflag in Hset. discriminate Hset.
  - exists new. exact Hcalls.
Defined.

(** * Further properties *)

(** ** Crash logger: every caller after the first *)

Section FatalLogCallsProperties.
Variable ErrorFileToStdout : bool.
Variable ErrorFileToStderr : bool.
Variable JVMCINativeLibraryErrorFile : option string.
Variable LIBJVMCI_ERR_FILE : string.
Variable prepare_log_file : option string -> string -> bool -> Z * string.
Variable errno : Z.
Variable strerror : Z -> string.

Local Abbreviation log_once :=
  (fatal_log ErrorFileToStdout ErrorFileToStderr JVMCINativeLibraryErrorFile
     LIBJVMCI_ERR_FILE prepare_log_file errno strerror).
Local Abbreviation log_all :=
  (fatal_log_calls ErrorFileToStdout ErrorFileToStderr JVMCINativeLibraryErrorFile
     LIBJVMCI_ERR_FILE prepare_log_file errno strerror).
Local Abbreviation open_log :=
  (open_fatal_log ErrorFileToStdout ErrorFileToStderr JVMCINativeLibraryErrorFile
     LIBJVMCI_ERR_FILE prepare_log_file errno strerror).

(** The descriptor the winner resolves is never the "unset" value. *)
Lemma open_fatal_log_fd (st : FatalLogState) :
  _fatal_log_fd (open_log st) <> -1 /\
  _fatal_log_init_thread (open_log st) = _fatal_log_init_thread st /\
  written (open_log st) = written st.
Proof.
  unfold open_fatal_log.
  destruct ErrorFileToStdout; [done|]. destruct ErrorFileToStderr; [done|].
  destruct (prepare_log_file _ _ _) as [fd name_buffer].
  by destruct (Z.eqb_spec fd (-1)).
Qed.

(** With the descriptor published a call only writes. *)
Lemma fatal_log_follower (current_thread_id : Z) (buf : string) (st : FatalLogState) :
  fatal_log_published st ->
  log_once current_thread_id buf st = Some (write_fatal_log buf st).
Proof.
  intros [Hclaimed Hfd]. unfold fatal_log.
  destruct (Z.eqb_spec (_fatal_log_init_thread st) (-1)); [done|].
  by destruct (Z.eqb_spec (_fatal_log_fd st) (-1)).
Qed.

Lemma fatal_log_calls_published (cs : list (Z * string)) (st : FatalLogState) :
  fatal_log_published st ->
  log_all cs st
  = Some (MkFatalLogState (_fatal_log_init_thread st) (_fatal_log_fd st)
            (_fatal_log_filename st) (console st)
            (written st ++ map (fun c => (_fatal_log_fd st, snd c)) cs)).
Proof.
  revert st. induction cs as [|[tid buf] cs IH]; intros st Hpub.
  - simpl. rewrite app_nil_r. by destruct st.
  - cbn [fatal_log_calls]. rewrite (fatal_log_follower tid buf st Hpub).
    rewrite IH by done. simpl. by rewrite <- app_assoc.
Qed.

(** X1. Once a thread whose id is not -1 has found the crash logger unused,
    its call returns with a descriptor published that is not -1, and every
    later call of any thread returns too: it writes its buffer to that same
    descriptor and changes nothing else, so the target is resolved once, the
    console message is not repeated and no caller is left waiting. *)
Theorem fatal_log_calls_share_descriptor (current_thread_id : Z) (buf : string)
    (cs : list (Z * string)) (st : FatalLogState) :
  _fatal_log_init_thread st = -1 -> current_thread_id <> -1 ->
  exists st1 st',
    log_once current_thread_id buf st = Some st1 /\
    fatal_log_published st1 /\
    log_all ((current_thread_id, buf) :: cs) st = Some st' /\
    _fatal_log_init_thread st' = current_thread_id /\
    _fatal_log_fd st' = _fatal_log_fd st1 /\
    _fatal_log_filename st' = _fatal_log_filename st1 /\
    console st' = console st1 /\
    written st'
    = written st ++ map (fun c => (_fatal_log_fd st1, snd c)) ((current_thread_id, buf) :: cs).
Proof.
  intros Hunset Htid.
  assert (Hfirst : exists st1,
             log_once current_thread_id buf st = Some st1 /\
             _fatal_log_init_thread st1 = current_thread_id /\
             _fatal_log_fd st1 <> -1 /\
             written st1 = written st ++ [(_fatal_log_fd st1, buf)]).
  { unfold fatal_log, cmpxchg. rewrite Hunset. simpl.
    eexists. split; [reflexivity|].
    match goal with |- context [open_fatal_log ?a ?b ?c ?d ?e ?f ?g ?s] =>
      pose proof (open_fatal_log_fd s) as (Hfd & Hinit & Hwritten)
    end.
    simpl in *. rewrite Hinit, Hwritten. done. }
  destruct Hfirst as (st1 & Hrun & Hinit & Hfd & Hwritten).
  assert (Hpub : fatal_log_published st1) by (split; congruence).
  exists st1. eexists. split; [exact Hrun|]. split; [exact Hpub|].
  cbn [fatal_log_calls]. rewrite Hrun, (fatal_log_calls_published cs st1 Hpub).
  split; [reflexivity|]. simpl.
  rewrite Hwritten, <- app_assoc. done.
Qed.

End FatalLogCallsProperties.

(** ** Event and trace log: what a call can and cannot touch *)

(** X2. An event that returns only appends to the console, leaves the
    verbose log alone when its level is 1 and the level-1 log alone
    otherwise, records nothing when logging is off or its level is above
    [JVMCIEventLogLevel], and prints nothing when its level is above
    [JVMCITraceLevel]. *)
Theorem event_touches_only_its_sinks (LogEvents : bool)
    (JVMCIEventLogLevel JVMCITraceLevel level : Z) (msg : string)
    (current : option Thread) (st st' : LogState) :
  event LogEvents JVMCIEventLogLevel JVMCITraceLevel level msg current st = Ok st' ->
  tty st `prefix_of` tty st' /\
  (level = 1 -> _verbose_events st' = _verbose_events st) /\
  (level <> 1 -> _events st' = _events st) /\
  (LogEvents = false \/ JVMCIEventLogLevel < level ->
     _events st' = _events st /\ _verbose_events st' = _verbose_events st) /\
  (JVMCITraceLevel < level -> tty st' = tty st).
Proof.
  unfold event. intros Hrun.
  destruct (vlog LogEvents JVMCIEventLogLevel level msg current st) as [st1| |] eqn:Hlog;
    [|done|done].
  injection Hrun as <-.
  assert (Hlogged : tty st1 = tty st /\
            (level = 1 -> _verbose_events st1 = _verbose_events st) /\
            (level <> 1 -> _events st1 = _events st) /\
            (LogEvents = false \/ JVMCIEventLogLevel < level -> st1 = st)).
  { revert Hlog. unfold vlog.
    destruct LogEvents, (Z.leb_spec level JVMCIEventLogLevel); simpl;
      try (intros [= <-]; repeat split; done).
    - destruct (event_log level st) as [log|]; simpl; [|done].
      destruct current as [thread|]; intros [= <-].
      + unfold set_event_log. destruct (Z.eqb_spec level 1); simpl.
        * repeat split; try done. intros [?|?]; [done|lia].
        * repeat split; try done. intros [?|?]; [done|lia].
      + repeat split; done. }
  destruct Hlogged as (Htty & Hverbose & Hevents & Hoff).
  unfold vtrace. destruct (Z.leb_spec level JVMCITraceLevel); simpl.
  - rewrite Htty. split; [by eexists|]. split; [done|]. split; [done|].
    split; [|lia]. intros Hcase. by rewrite (Hoff Hcase).
  - rewrite Htty. split; [done|]. split; [done|]. split; [done|].
    split; [|done]. intros Hcase. by rewrite (Hoff Hcase).
Qed.

(** X3. When logging is on and the level is within [JVMCIEventLogLevel] but
    the log for that level has not been created, the event terminates the
    process, whether or not the calling thread can be resolved, and no trace
    line is printed for it. *)
Theorem event_without_log_is_fatal (JVMCIEventLogLevel JVMCITraceLevel level : Z)
    (msg : string) (current : option Thread) (st : LogState) :
  level <= JVMCIEventLogLevel -> event_log level st = None ->
  event true JVMCIEventLogLevel JVMCITraceLevel level msg current st
  = Fatal (Diag "JVMCI event log not yet initialized" []).
Proof.
  intros Hlevel Hlog. unfold event, vlog.
  destruct (Z.leb_spec level JVMCIEventLogLevel); [|lia]. simpl.
  by rewrite Hlog.
Qed.

(** ** Setting up the logs *)

Lemma to_int_id (z : Z) : - 2 ^ 31 <= z < 2 ^ 31 -> to_int z = z.
Proof. intros Hz. unfold to_int. rewrite Z.mod_small by lia. lia. Qed.

(** The loop multiplies by ten once for every [i] below both bounds. *)
Lemma expand_event_buffer_power (JVMCIEventLogLevel max_EventLog_level : Z) (fuel : nat) :
  forall i count : Z,
    let rounds := Z.max 0 (Z.min JVMCIEventLogLevel max_EventLog_level - i) in
    (Z.to_nat rounds <= fuel)%nat ->
    0 <= count -> count * 10 ^ rounds < 2 ^ 31 ->
    expand_event_buffer JVMCIEventLogLevel max_EventLog_level fuel i count
    = Ok (count * 10 ^ rounds).
Proof.
  induction fuel as [|fuel IH]; intros i count rounds Hfuel Hcount Hfits.
  - assert (Hrounds : rounds = 0) by lia.
    rewrite Hrounds, Z.mul_1_r. simpl.
    destruct (Z.ltb_spec i JVMCIEventLogLevel), (Z.ltb_spec i max_EventLog_level);
      simpl; try done; lia.
  - cbn [expand_event_buffer].
    destruct (Z.ltb_spec i JVMCIEventLogLevel), (Z.ltb_spec i max_EventLog_level); simpl.
    2-4: replace rounds with 0 by lia; by rewrite Z.mul_1_r.
    assert (Hrounds : rounds = Z.succ (Z.max 0 (Z.min JVMCIEventLogLevel max_EventLog_level
                                                  - (i + 1)))) by lia.
    set (rest := Z.max 0 (Z.min JVMCIEventLogLevel max_EventLog_level - (i + 1))) in *.
    assert (Hrest : 0 <= rest) by lia.
    rewrite Hrounds, Z.pow_succ_r in Hfits by done.
    assert (Hpow : 1 <= 10 ^ rest) by (apply Z.lt_pred_le; by apply Z.pow_pos_nonneg).
    unfold int_mul.
    destruct (Z.leb_spec (- 2 ^ 31) (count * 10)); [|lia].
    destruct (Z.ltb_spec (count * 10) (2 ^ 31)); [|nia]. cbn [andb obind].
    rewrite (IH (i + 1) (count * 10)); fold rest; [| lia | lia | lia].
    rewrite Hrounds, Z.pow_succ_r by done. f_equal. lia.
Qed.

(** X4. With logging on and a level above 1, [initialize_globals] gives the
    level-1 log [LogEventsBufferEntries] entries and the verbose log ten
    times as many for each level above 1, up to [max_EventLog_level], as
    long as that number fits an [int]; the enclosing loop always ends. *)
Theorem initialize_event_logs_capacities
    (JVMCIEventLogLevel LogEventsBufferEntries max_EventLog_level : Z) (lg : LogState) :
  1 < JVMCIEventLogLevel -> 0 <= max_EventLog_level ->
  0 <= LogEventsBufferEntries ->
  let levels := Z.max 0 (Z.min JVMCIEventLogLevel max_EventLog_level - 1) in
  LogEventsBufferEntries * 10 ^ levels < 2 ^ 31 ->
  initialize_event_logs true JVMCIEventLogLevel LogEventsBufferEntries max_EventLog_level lg
  = Ok (MkLogState
          (Some (MkStringEventLog "JVMCI Events" "jvmci"
                   (Z.to_nat LogEventsBufferEntries) []))
          (Some (MkStringEventLog "Verbose JVMCI Events" "verbose-jvmci"
                   (Z.to_nat (LogEventsBufferEntries * 10 ^ levels)) []))
          (tty lg)).
Proof.
  intros Hlevel Hmax Hentries levels Hfits. unfold initialize_event_logs.
  destruct (Z.ltb_spec 0 JVMCIEventLogLevel); [|lia].
  destruct (Z.ltb_spec 1 JVMCIEventLogLevel); [|lia].
  assert (Hpow : 1 <= 10 ^ levels) by (apply Z.lt_pred_le; apply Z.pow_pos_nonneg; lia).
  rewrite to_int_id by nia.
  rewrite expand_event_buffer_power; fold levels; [done | lia | done | done].
Qed.

Lemma initialize_event_logs_ready (LogEvents : bool)
    (JVMCIEventLogLevel LogEventsBufferEntries max_EventLog_level : Z) (lg lg' : LogState) :
  initialize_event_logs LogEvents JVMCIEventLogLevel LogEventsBufferEntries
    max_EventLog_level lg = Ok lg' ->
  event_log_ready LogEvents JVMCIEventLogLevel lg' /\ tty lg' = tty lg.
Proof.
  unfold initialize_event_logs, event_log_ready.
  destruct LogEvents; [|by intros [= <-]].
  destruct (Z.ltb_spec 0 JVMCIEventLogLevel); [|intros [= <-]; split; [intros _; lia|done]].
  destruct (Z.ltb_spec 1 JVMCIEventLogLevel).
  - destruct (expand_event_buffer _ _ _ _ _) as [count| |]; simpl; [|done|done].
    intros [= <-]. done.
  - intros [= <-]. simpl. split; [|done]. intros _. split; [done|lia].
Qed.

Lemma event_ready (LogEvents : bool) (JVMCIEventLogLevel JVMCITraceLevel level : Z)
    (msg : string) (current : option Thread) (lg : LogState) :
  event_log_ready LogEvents JVMCIEventLogLevel lg -> 1 <= level ->
  exists lg',
    event LogEvents JVMCIEventLogLevel JVMCITraceLevel level msg current lg = Ok lg' /\
    event_log_ready LogEvents JVMCIEventLogLevel lg'.
Proof.
  intros Hready Hlevel.
  assert (Hlog : exists lg1,
             vlog LogEvents JVMCIEventLogLevel level msg current lg = Ok lg1 /\
             event_log_ready LogEvents JVMCIEventLogLevel lg1).
  { unfold vlog. destruct LogEvents; [|by exists lg].
    destruct (Z.leb_spec level JVMCIEventLogLevel); simpl; [|by exists lg].
    destruct (Hready eq_refl) as [Hevents Hverbose].
    unfold event_log, set_event_log. destruct (Z.eqb_spec level 1) as [->|Hne].
    - destruct (_events lg) as [log|] eqn:Hlog; [|by destruct Hevents].
      simpl. destruct current; eexists; (split; [reflexivity|]); [|done].
      intros _. simpl. split; [done|exact Hverbose].
    - destruct (_verbose_events lg) as [log|] eqn:Hlog; [|destruct Hverbose; [lia|done]].
      simpl. destruct current; eexists; (split; [reflexivity|]); [|done].
      intros _. simpl. split; [exact Hevents|done]. }
  destruct Hlog as (lg1 & Hrun & Hready1).
  exists (vtrace JVMCITraceLevel level msg current lg1).
  unfold event. rewrite Hrun. split; [done|].
  unfold vtrace. by destruct (level <=? JVMCITraceLevel).
Qed.

(** X5. [initialize_globals] creates every log that events of level 1 and
    above are recorded in under the configured flags; from then on no such
    event fails the check that its log exists, whichever thread logs it,
    and the logs stay in place. *)
Theorem initialize_globals_readies_event_logs (LogEvents : bool)
    (JVMCIEventLogLevel JVMCITraceLevel LogEventsBufferEntries max_EventLog_level : Z)
    (UseJVMCINativeLibrary : bool) (st st1 : LifecycleState) :
  initialize_globals LogEvents JVMCIEventLogLevel LogEventsBufferEntries max_EventLog_level
    UseJVMCINativeLibrary st = Ok st1 ->
  event_log_ready LogEvents JVMCIEventLogLevel (lifecycle_log st1) /\
  forall lg : LogState,
    event_log_ready LogEvents JVMCIEventLogLevel lg ->
    forall (level : Z) (msg : string) (current : option Thread),
      1 <= level ->
      exists lg',
        event LogEvents JVMCIEventLogLevel JVMCITraceLevel level msg current lg = Ok lg' /\
        event_log_ready LogEvents JVMCIEventLogLevel lg'.
Proof.
  intros Hinit. split.
  - revert Hinit. unfold initialize_globals.
    destruct (initialize_event_logs _ _ _ _ _) as [lg| |] eqn:Hlogs; [|done|done].
    apply initialize_event_logs_ready in Hlogs as [Hready _].
    cbn [obind]. destruct UseJVMCINativeLibrary; intros [= <-]; exact Hready.
  - intros lg Hready level msg current Hlevel. by apply event_ready.
Qed.

(** ** Runtimes *)

(** X6. After [initialize_globals], [shutdown] returns with the shutdown
    flag set and has forwarded exactly one [shutdown()] to each runtime that
    [initialize_globals] constructed: to the Java runtime and then to the
    compiler runtime in native-library mode, and once to the single shared
    runtime otherwise. *)
Theorem shutdown_after_initialize_globals (LogEvents : bool)
    (JVMCIEventLogLevel JVMCITraceLevel LogEventsBufferEntries max_EventLog_level : Z)
    (UseJVMCINativeLibrary : bool) (current : option Thread) (st st1 : LifecycleState) :
  initialize_globals LogEvents JVMCIEventLogLevel LogEventsBufferEntries max_EventLog_level
    UseJVMCINativeLibrary st = Ok st1 ->
  let n := length (runtime_objects st) in
  exists st2,
    shutdown LogEvents JVMCIEventLogLevel JVMCITraceLevel current st1 = Ok st2 /\
    in_shutdown st2 = true /\
    _compiler_runtime st2 = Some n /\
    _java_runtime st2 = Some (if UseJVMCINativeLibrary then S n else n) /\
    runtime_objects st2
    = runtime_objects st ++ (if UseJVMCINativeLibrary then [0; -1] else [0]) /\
    runtime_calls st2
    = runtime_calls st ++
        (if UseJVMCINativeLibrary
         then [RuntimeShutdown (S n); RuntimeShutdown n]
         else [RuntimeShutdown n]).
Proof.
  intros Hinit n.
  assert (Hst1 : event_log_ready LogEvents JVMCIEventLogLevel (lifecycle_log st1) /\
            _compiler_runtime st1 = Some n /\
            _java_runtime st1 = Some (if UseJVMCINativeLibrary then S n else n) /\
            runtime_objects st1
            = runtime_objects st ++ (if UseJVMCINativeLibrary then [0; -1] else [0]) /\
            runtime_calls st1 = runtime_calls st).
  { revert Hinit. unfold initialize_globals.
    destruct (initialize_event_logs _ _ _ _ _) as [lg| |] eqn:Hlogs; [|done|done].
    apply initialize_event_logs_ready in Hlogs as [Hready _].
    cbn [obind]. destruct UseJVMCINativeLibrary; intros [= <-]; simpl.
    - rewrite length_app, <- app_assoc. simpl.
      replace (length (runtime_objects st) + 1)%nat with (S n) by (unfold n; lia). done.
    - done. }
  destruct Hst1 as (Hready & Hcompiler & Hjava & Hobjects & Hcalls).
  unfold shutdown. cbn [lifecycle_log].
  destruct (event_ready LogEvents JVMCIEventLogLevel JVMCITraceLevel 1
              "shutting down JVMCI" current (lifecycle_log st1) Hready)
    as (lg & Hevent & _); [done|].
  unfold JVMCI_event_1, event1. rewrite Hevent.
  cbn [obind _java_runtime _compiler_runtime]. rewrite Hjava, Hcompiler.
  destruct UseJVMCINativeLibrary.
  - rewrite bool_decide_eq_true_2 by (intros [= ?]; lia).
    simpl. eexists. split; [reflexivity|]. simpl.
    rewrite Hcalls, Hobjects, <- app_assoc. done.
  - rewrite bool_decide_eq_false_2 by (intros Hne; by apply Hne).
    simpl. eexists. split; [reflexivity|]. simpl. rewrite Hcalls, Hobjects. done.
Qed.

(** X7. [metadata_do] and [do_unloading(true)] forward their call once to
    every runtime that [_java_runtime] or [_compiler_runtime] points to, to
    a runtime both point to once only, and to nothing else; they do nothing
    when both pointers are NULL, and [do_unloading(false)] never does
    anything. The pointers and the shutdown flag are not touched. *)
Theorem metadata_calls_each_runtime_once (st : LifecycleState) :
  (exists new,
     metadata_do st
     = MkLifecycleState (_compiler_runtime st) (_java_runtime st) (_in_shutdown st)
         (runtime_objects st) (runtime_calls st ++ new) (lifecycle_log st) /\
     NoDup new /\
     forall c, c ∈ new <->
       exists r, c = MetadataDo r /\
                 (_java_runtime st = Some r \/ _compiler_runtime st = Some r)) /\
  (exists new,
     do_unloading true st
     = MkLifecycleState (_compiler_runtime st) (_java_runtime st) (_in_shutdown st)
         (runtime_objects st) (runtime_calls st ++ new) (lifecycle_log st) /\
     NoDup new /\
     forall c, c ∈ new <->
       exists r, c = DoUnloading r /\
                 (_java_runtime st = Some r \/ _compiler_runtime st = Some r)) /\
  do_unloading false st = st.
Proof.
  destruct st as [compiler java flag objects calls lg].
  unfold metadata_do, do_unloading, forward_runtime_call. simpl.
  split; [|split; [|done]].
  all: destruct java as [j|], compiler as [c|]; simpl.
  all: try case_bool_decide as Hne.
  all: try (exfalso; by apply Hne).
  all: try (injection Hne as ->).
  all: rewrite <- ?app_assoc; eexists; (split; [first [reflexivity | by rewrite app_nil_r]|]).
  all: simpl; split.
  all: try (intros x; rewrite ?elem_of_cons, ?elem_of_nil; split;
            [intros Hx; repeat destruct Hx as [->|Hx]; try done; eauto
            |intros (r & -> & [Hr|Hr]); try done; injection Hr as ->; auto]).
  all: repeat (apply NoDup_cons; split); try apply NoDup_nil_2.
  all: rewrite ?elem_of_cons, ?elem_of_nil; intros Hin.
  all: repeat destruct Hin as [Hin|Hin]; try done.
  all: injection Hin as ->; by apply Hne.
Qed.

(** ** Counter registry: threads that exit *)

Lemma live_total_app (excl : bool) (tps1 tps2 : list JavaThread) (i : nat) :
  live_total excl (tps1 ++ tps2) i = live_total excl tps1 i + live_total excl tps2 i.
Proof. induction tps1 as [|tp tps1 IH]; simpl; lia. Qed.

(** What [accumulate_counters] does to a registry that satisfies the
    invariant, for a thread admitted or not. *)
Lemma accumulate_counters_wf (excl : bool) (thread : JavaThread) (st : CounterState) :
  registry_wf st ->
  counters_of_size (JVMCICounterSize st) (_jvmci_counters thread) ->
  exists st',
    accumulate_counters excl thread st = Ok st' /\
    JVMCICounterSize st' = JVMCICounterSize st /\
    threads st' = threads st /\
    registry_wf st' /\
    (Forall is_jlong (cells_of (_jvmci_old_thread_counters st)) ->
     Forall is_jlong (cells_of (_jvmci_old_thread_counters st'))) /\
    forall i : nat, Z.of_nat i < JVMCICounterSize st ->
      counter_at (_jvmci_old_thread_counters st') i
      = if jvmci_counters_include excl thread
        then jlong_add (counter_at (_jvmci_old_thread_counters st) i)
               (counter_at (_jvmci_counters thread) i)
        else counter_at (_jvmci_old_thread_counters st) i.
Proof.
  intros Hwf Hthread.
  destruct (Z.ltb_spec 0 (JVMCICounterSize st)) as [Hpos|Hzero];
    [destruct (jvmci_counters_include excl thread) eqn:Hinc|].
  - destruct (accumulate_counters_included excl thread st Hwf Hthread Hpos Hinc)
      as (pool' & Hrun & Hlen & Hcells).
    eexists. split; [exact Hrun|]. simpl. split; [done|]. split; [done|].
    destruct Hwf as (Hsize & _ & Hthreads). split; [done|]. split.
    + intros _. apply Forall_lookup_2. intros i x Hx.
      rewrite Hcells in Hx by (apply lookup_lt_Some in Hx; lia).
      injection Hx as <-. apply wrap_jlong_is_jlong.
    + intros i Hi. unfold counter_at at 1. simpl. by rewrite Hcells.
  - exists st. unfold accumulate_counters.
    destruct (Z.ltb_spec 0 (JVMCICounterSize st)); [|lia]. by rewrite Hinc.
  - exists st. unfold accumulate_counters.
    destruct (Z.ltb_spec 0 (JVMCICounterSize st)); [lia|].
    split; [done|]. split; [done|]. split; [done|]. split; [done|]. split; [done|].
    intros i Hi. lia.
Qed.

(** X8. Any number of threads with blocks of the configured size can exit
    one after another: every [accumulate_counters] returns, the registry
    keeps its invariant and its live threads, the pool's values stay
    [jlong]s, and in the end the pool holds at each index what it held plus
    the sum of that counter over the admitted threads among them, in 64-bit
    arithmetic. *)
Theorem accumulate_counters_of_exiting_threads (excl : bool) (exiting : list JavaThread)
    (st : CounterState) :
  registry_wf st ->
  Forall is_jlong (cells_of (_jvmci_old_thread_counters st)) ->
  Forall (fun tp => counters_of_size (JVMCICounterSize st) (_jvmci_counters tp)) exiting ->
  exists st',
    for_each exiting (accumulate_counters excl) st = Ok st' /\
    registry_wf st' /\
    JVMCICounterSize st' = JVMCICounterSize st /\
    threads st' = threads st /\
    Forall is_jlong (cells_of (_jvmci_old_thread_counters st')) /\
    forall i : nat, Z.of_nat i < JVMCICounterSize st ->
      counter_at (_jvmci_old_thread_counters st') i
      = wrap_jlong (counter_at (_jvmci_old_thread_counters st) i + live_total excl exiting i).
Proof.
  intros Hwf Hrange Hexiting. revert st Hwf Hrange Hexiting.
  induction exiting as [|tp rest IH]; intros st Hwf Hrange Hexiting.
  - exists st. repeat split; try done; try apply Hwf.
    intros i Hi. simpl. rewrite Z.add_0_r, wrap_jlong_id; [done|].
    destruct Hwf as (_ & Hpool & _). apply cells_of_length in Hpool.
    destruct (lookup_lt_is_Some_2 (cells_of (_jvmci_old_thread_counters st)) i) as [x Hx];
      [lia|].
    unfold counter_at. rewrite Hx. simpl. eapply Forall_lookup_1; [exact Hrange|exact Hx].
  - apply Forall_cons in Hexiting as [Htp Hrest].
    destruct (accumulate_counters_wf excl tp st Hwf Htp)
      as (st1 & Hrun1 & Hsize1 & Hthreads1 & Hwf1 & Hrange1 & Hcells1).
    destruct (IH st1 Hwf1 (Hrange1 Hrange)) as (st' & Hrun & Hwf' & Hsize & Hthreads & Hrange' & Hcells).
    { by rewrite Hsize1. }
    exists st'. cbn [for_each]. rewrite Hrun1. cbn [obind].
    split; [exact Hrun|]. split; [done|]. split; [congruence|]. split; [congruence|].
    split; [done|]. intros i Hi.
    rewrite Hcells by lia. rewrite Hcells1 by done. simpl.
    destruct (jvmci_counters_include excl tp).
    + unfold jlong_add. rewrite wrap_jlong_add_l. f_equal. lia.
    + f_equal.
Qed.

(** X9. Retiring a thread does not change what [collect] reports: the array
    collected with the thread still live equals the array collected after
    [accumulate_counters] folded it into the pool and it left the list of
    live threads. Nothing is lost and nothing is counted twice, whether or
    not the exclusion policy admits the thread. *)
Theorem collect_counters_unchanged_by_thread_exit (ASSERT excl : bool)
    (out0 : list jlong) (before after : list JavaThread) (thread : JavaThread)
    (st : CounterState) :
  registry_wf st ->
  Forall is_jlong (cells_of (_jvmci_old_thread_counters st)) ->
  threads st = before ++ thread :: after ->
  JVMCICounterSize st <= Z.of_nat (length out0) ->
  exists st1,
    accumulate_counters excl thread st = Ok st1 /\
    collect_counters ASSERT excl (Block out0) (JVMCICounterSize st)
      (MkCounterState (JVMCICounterSize st1) (_jvmci_old_thread_counters st1)
         (before ++ after))
    = collect_counters ASSERT excl (Block out0) (JVMCICounterSize st) st.
Proof.
  intros Hwf Hrange Hthreads Hout0.
  assert (Hthread : counters_of_size (JVMCICounterSize st) (_jvmci_counters thread)).
  { destruct Hwf as (_ & _ & Hall). rewrite Hthreads in Hall.
    apply Forall_app in Hall as [_ Hall]. by apply Forall_cons in Hall as [? _]. }
  destruct (accumulate_counters_wf excl thread st Hwf Hthread)
    as (st1 & Hrun & Hsize1 & _ & Hwf1 & Hrange1 & Hcells1).
  exists st1. split; [exact Hrun|].
  set (st2 := MkCounterState (JVMCICounterSize st1) (_jvmci_old_thread_counters st1)
                (before ++ after)).
  assert (Hwf2 : registry_wf st2).
  { destruct Hwf1 as (H0 & Hpool1 & _). split; [done|]. split; [done|]. simpl.
    destruct Hwf as (_ & _ & Hall). rewrite Hthreads in Hall. rewrite Hsize1.
    apply Forall_app in Hall as [Hb Ha]. apply Forall_cons in Ha as [_ Ha].
    by apply Forall_app. }
  destruct (collect_counters_cells ASSERT excl out0 st Hwf Hrange Hout0)
    as (out & Hcollect & Hlen & Hlow & Hhigh).
  destruct (collect_counters_cells ASSERT excl out0 st2 Hwf2 (Hrange1 Hrange))
    as (out2 & Hcollect2 & Hlen2 & Hlow2 & Hhigh2); [simpl; lia|].
  simpl in Hcollect2, Hlow2, Hhigh2. rewrite Hsize1 in Hcollect2, Hlow2, Hhigh2.
  fold st2 in Hcollect2. rewrite Hcollect, Hcollect2. f_equal. f_equal.
  apply list_eq. intros i.
  destruct (Z.lt_ge_cases (Z.of_nat i) (JVMCICounterSize st)) as [Hi|Hi].
  - rewrite (Hlow i Hi), (Hlow2 i Hi). f_equal.
    rewrite Hthreads, !live_total_app, (Hcells1 i Hi). simpl.
    destruct (jvmci_counters_include excl thread).
    + unfold jlong_add. rewrite wrap_jlong_add_l. f_equal; lia.
    + f_equal; lia.
  - by rewrite (Hhigh i Hi), (Hhigh2 i Hi).
Qed.

(** ** Counter registry: collecting around a resize *)

Lemma counter_at_resized_low (current_size new_size : Z) (p : jlong_ptr) (i : nat) :
  counters_of_size current_size p -> Z.of_nat i < Z.min current_size new_size ->
  counter_at (resized current_size new_size p) i = counter_at p i.
Proof. intros Hp Hi. unfold counter_at. by rewrite resized_lookup_low. Qed.

Lemma counter_at_resized_high (current_size new_size : Z) (p : jlong_ptr) (i : nat) :
  counters_of_size current_size p -> 0 <= current_size ->
  current_size <= Z.of_nat i < new_size ->
  counter_at (resized current_size new_size p) i = 0.
Proof. intros Hp Hcur Hi. unfold counter_at. by rewrite resized_lookup_high. Qed.

Lemma live_total_resized (excl : bool) (current_size new_size : Z) (tps : list JavaThread)
    (i : nat) :
  0 <= current_size ->
  Forall (fun tp => counters_of_size current_size (_jvmci_counters tp)) tps ->
  (Z.of_nat i < Z.min current_size new_size ->
   live_total excl (map (resized_thread current_size new_size) tps) i
   = live_total excl tps i) /\
  (current_size <= Z.of_nat i < new_size ->
   live_total excl (map (resized_thread current_size new_size) tps) i = 0).
Proof.
  intros Hcur. induction 1 as [|tp rest Htp _ [IHlow IHhigh]]; [done|].
  simpl. unfold jvmci_counters_include at 1 3. simpl.
  fold (jvmci_counters_include excl tp). split; intros Hi.
  - rewrite (IHlow Hi), (counter_at_resized_low _ _ _ _ Htp Hi). done.
  - rewrite (IHhigh Hi), (counter_at_resized_high _ _ _ _ Htp Hcur Hi).
    by destruct (jvmci_counters_include excl tp).
Qed.

Lemma resized_is_jlong (current_size new_size : Z) (p : jlong_ptr) :
  Forall is_jlong (cells_of p) ->
  Forall is_jlong (cells_of (resized current_size new_size p)).
Proof.
  intros Hp. unfold resized. cbn [cells_of]. apply Forall_app. split.
  - by apply Forall_take.
  - apply Forall_replicate. unfold is_jlong. lia.
Qed.

(** X10. A resize that succeeds keeps the totals: [collect] at the new size
    then reports, at every index below both sizes, the total it reported
    before the resize, and 0 at every index the resize added. *)
Theorem collect_counters_after_resize (ASSERT excl : bool)
    (heap : nat -> option (nat -> jlong)) (k : nat) (new_size : Z)
    (out0 : list jlong) (st : CounterState) :
  registry_wf st ->
  Forall is_jlong (cells_of (_jvmci_old_thread_counters st)) ->
  0 <= new_size ->
  (forall i, (i <= length (threads st))%nat -> is_Some (heap (k + i)%nat)) ->
  new_size <= Z.of_nat (length out0) ->
  exists st' out,
    resize_all_jvmci_counters heap k new_size st = Ok (st', true) /\
    collect_counters ASSERT excl (Block out0) new_size st' = Ok (Block out) /\
    (forall i : nat, Z.of_nat i < Z.min (JVMCICounterSize st) new_size ->
       out !! i = Some (wrap_jlong (counter_at (_jvmci_old_thread_counters st) i
                                    + live_total excl (threads st) i))) /\
    (forall i : nat, JVMCICounterSize st <= Z.of_nat i < new_size -> out !! i = Some 0).
Proof.
  intros Hwf Hrange Hnew Hheap Hout0.
  set (st' := MkCounterState new_size
                (resized (JVMCICounterSize st) new_size (_jvmci_old_thread_counters st))
                (map (resized_thread (JVMCICounterSize st) new_size) (threads st))).
  assert (Hwf' : registry_wf st').
  { destruct Hwf as (_ & Hpool & Hthreads). split; [done|]. split; simpl.
    - by apply resized_counters_of_size.
    - apply Forall_map. eapply Forall_impl; [exact Hthreads|].
      intros tp Htp. by apply resized_counters_of_size. }
  destruct (collect_counters_cells ASSERT excl out0 st' Hwf')
    as (out & Hcollect & _ & Hlow & _);
    [by apply resized_is_jlong | done |].
  exists st', out. split.
  { unfold resize_all_jvmci_counters. by rewrite (doit_resized _ _ _ _ Hwf Hnew Hheap). }
  split; [exact Hcollect|].
  destruct Hwf as (Hsize & Hpool & Hthreads). simpl in Hlow. split.
  - intros i Hi. rewrite Hlow by lia.
    rewrite (counter_at_resized_low _ _ _ _ Hpool Hi).
    by rewrite (proj1 (live_total_resized excl _ new_size _ i Hsize Hthreads) Hi).
  - intros i Hi. rewrite Hlow by lia.
    rewrite (counter_at_resized_high _ _ _ _ Hpool Hsize Hi).
    by rewrite (proj2 (live_total_resized excl _ new_size _ i Hsize Hthreads) Hi).
Qed.

Lemma resized_back (current_size new_size : Z) (cells : list jlong) :
  Z.of_nat (length cells) = current_size -> current_size <= new_size ->
  resized new_size current_size (resized current_size new_size (Block cells)) = Block cells.
Proof.
  intros Hlen Hle. unfold resized. cbn [cells_of]. f_equal.
  rewrite (take_ge cells (Z.to_nat new_size)) by lia.
  rewrite take_app_length' by lia.
  replace (Z.to_nat (current_size - new_size)) with 0%nat by lia.
  by rewrite app_nil_r.
Qed.

(** X11. A registry with a positive counter count that is enlarged and then
    shrunk back to its old size, both resizes succeeding, is exactly the
    registry it was: every block has its old cells and nothing else
    changed. *)
Theorem resize_all_jvmci_counters_round_trip
    (heap : nat -> option (nat -> jlong)) (k k' : nat) (new_size : Z) (st : CounterState) :
  registry_wf st -> 0 < JVMCICounterSize st <= new_size ->
  (forall i, (i <= length (threads st))%nat -> is_Some (heap (k + i)%nat)) ->
  (forall i, (i <= length (threads st))%nat -> is_Some (heap (k' + i)%nat)) ->
  exists st1,
    resize_all_jvmci_counters heap k new_size st = Ok (st1, true) /\
    JVMCICounterSize st1 = new_size /\
    resize_all_jvmci_counters heap k' (JVMCICounterSize st) st1 = Ok (st, true).
Proof.
  intros Hwf [Hpos Hle] Hheap Hheap'.
  set (st1 := MkCounterState new_size
                (resized (JVMCICounterSize st) new_size (_jvmci_old_thread_counters st))
                (map (resized_thread (JVMCICounterSize st) new_size) (threads st))).
  assert (Hwf1 : registry_wf st1).
  { destruct Hwf as (_ & Hpool & Hthreads). split; [simpl; lia|]. split; simpl.
    - apply resized_counters_of_size; [lia|done].
    - apply Forall_map. eapply Forall_impl; [exact Hthreads|].
      intros tp Htp. apply resized_counters_of_size; [lia|done]. }
  exists st1. unfold resize_all_jvmci_counters.
  assert (Hnew : 0 <= new_size) by lia.
  assert (Hold : 0 <= JVMCICounterSize st) by lia.
  rewrite (doit_resized heap k new_size st Hwf Hnew Hheap). fold st1.
  split; [done|]. split; [done|].
  rewrite (doit_resized heap k' (JVMCICounterSize st) st1 Hwf1 Hold)
    by (simpl; by rewrite length_map).
  cbn [obind negb]. f_equal. f_equal.
  destruct st as [size pool tps]. destruct Hwf as (_ & Hpool & Hthreads). simpl in *.
  f_equal.
  - destruct pool as [|cells|]; simpl in Hpool; [lia| |done]. by apply resized_back.
  - clear Hheap Hheap' Hwf1 st1. induction Hthreads as [|tp rest Htp _ IH]; [done|].
    simpl. f_equal; [|exact IH].
    destruct tp as [t c p]. unfold resized_thread, set_jvmci_counters. simpl in *. f_equal.
    destruct p as [|cells|]; simpl in Htp; [lia| |done]. by apply resized_back.
Qed.

(** X12. [init_counters] leaves no stale data: with a positive counter count
    and a heap that satisfies the request, the pool gets exactly that many
    cells, all zero, whatever the fresh block held; with a count that is not
    positive the pool is NULL and the heap is not asked. Either way the pool
    then satisfies the registry's invariant, and a [collect] over no live
    thread reports zero everywhere. *)
Theorem init_counters_zero_fills (ASSERT excl : bool) (heap : nat -> option (nat -> jlong))
    (k : nat) (out0 : list jlong) (st : CounterState) :
  0 <= JVMCICounterSize st ->
  (0 < JVMCICounterSize st -> is_Some (heap k)) ->
  JVMCICounterSize st <= Z.of_nat (length out0) ->
  exists pool,
    init_counters heap k st = Ok (MkCounterState (JVMCICounterSize st) pool (threads st)) /\
    counters_of_size (JVMCICounterSize st) pool /\
    (0 < JVMCICounterSize st -> pool = Block (replicate (Z.to_nat (JVMCICounterSize st)) 0)) /\
    (JVMCICounterSize st = 0 -> pool = NULL) /\
    collect_counters ASSERT excl (Block out0) (JVMCICounterSize st)
      (MkCounterState (JVMCICounterSize st) pool [])
    = Ok (Block (replicate (Z.to_nat (JVMCICounterSize st)) 0
                   ++ drop (Z.to_nat (JVMCICounterSize st)) out0)).
Proof.
  intros Hsize Hheap Hout0. unfold init_counters.
  assert (Hassert : assert ASSERT true "wrong value" = (Ok tt : outcome unit))
    by (by destruct ASSERT).
  destruct (Z.ltb_spec 0 (JVMCICounterSize st)) as [Hpos|Hzero].
  - destruct (Hheap Hpos) as [garbage Hk].
    rewrite (NEW_C_HEAP_ARRAY_RETURN_NULL_Some _ _ _ _ Hk Hsize).
    rewrite memset_zero_Block by (rewrite ?length_map, ?length_seq; lia).
    cbn [obind]. simpl (Z.to_nat 0). rewrite take_0, Z.add_0_l.
    rewrite drop_ge by (rewrite length_map, length_seq; lia).
    rewrite app_nil_r.
    exists (Block (replicate (Z.to_nat (JVMCICounterSize st)) 0)).
    split; [done|]. split; [simpl; rewrite length_replicate; lia|].
    split; [done|]. split; [lia|].
    unfold collect_counters. simpl. rewrite Z.eqb_refl, Hassert. cbn [obind].
    rewrite copy_counters_Block by (rewrite ?length_replicate; lia). cbn [obind].
    by rewrite take_replicate, Nat.min_id.
  - assert (Hz : JVMCICounterSize st = 0) by lia.
    exists NULL. split; [done|]. split; [done|]. split; [lia|]. split; [done|].
    unfold collect_counters. simpl. rewrite Z.eqb_refl, Hassert, Hz. done.
Qed.

(** ** Counter registry: a resize that fails *)

Lemma counters_of_size_readable (n : Z) (p : jlong_ptr) :
  counters_of_size n p -> readable n p.
Proof. destruct p; simpl; lia. Qed.

Lemma copy_counters_readable (n : Z) (p : jlong_ptr) (dst : list jlong) :
  readable n p -> (Z.to_nat n <= length dst)%nat ->
  copy_counters n p (Block dst)
  = Ok (Block (take (Z.to_nat n) (cells_of p) ++ drop (Z.to_nat n) dst)).
Proof.
  intros Hp Hdst. destruct p as [|src|]; simpl in Hp.
  - unfold copy_counters, for_upto. by replace (Z.to_nat n) with 0%nat by lia.
  - cbn [cells_of]. apply copy_counters_Block; [lia|done].
  - unfold copy_counters, for_upto. by replace (Z.to_nat n) with 0%nat by lia.
Qed.

Lemma add_counters_readable (n : Z) (p : jlong_ptr) (dst : list jlong) :
  readable n p -> (Z.to_nat n <= length dst)%nat ->
  add_counters n p (Block dst)
  = Ok (Block (zip_with jlong_add (take (Z.to_nat n) dst) (take (Z.to_nat n) (cells_of p))
                 ++ drop (Z.to_nat n) dst)).
Proof.
  intros Hp Hdst. destruct p as [|src|]; simpl in Hp.
  - unfold add_counters, for_upto. by replace (Z.to_nat n) with 0%nat by lia.
  - cbn [cells_of]. apply add_counters_Block; [lia|done].
  - unfold add_counters, for_upto. by replace (Z.to_nat n) with 0%nat by lia.
Qed.

(** [collect_counters] reads only the first [JVMCICounterSize] cells of
    each block. *)
Lemma collect_counters_keeps (ASSERT excl : bool) (out0 : list jlong) (st st' : CounterState) :
  JVMCICounterSize st' = JVMCICounterSize st ->
  keeps_counters st st' ->
  readable (JVMCICounterSize st) (_jvmci_old_thread_counters st) ->
  readable (JVMCICounterSize st) (_jvmci_old_thread_counters st') ->
  Forall (fun tp => readable (JVMCICounterSize st) (_jvmci_counters tp)) (threads st) ->
  Forall (fun tp => readable (JVMCICounterSize st) (_jvmci_counters tp)) (threads st') ->
  JVMCICounterSize st <= Z.of_nat (length out0) ->
  collect_counters ASSERT excl (Block out0) (JVMCICounterSize st) st'
  = collect_counters ASSERT excl (Block out0) (JVMCICounterSize st) st.
Proof.
  intros Hsize [Hpool Hthreads] Hr Hr' Hrs Hrs' Hout0. unfold collect_counters.
  rewrite Hsize. destruct (assert _ _ _); [|done|done]. cbn [obind].
  rewrite !copy_counters_readable by (done || lia). cbn [obind]. rewrite Hpool.
  set (n := JVMCICounterSize st) in *.
  assert (Hacc : (Z.to_nat n <= length (take (Z.to_nat n) (cells_of (_jvmci_old_thread_counters st))
                                          ++ drop (Z.to_nat n) out0))%nat).
  { rewrite length_app, length_take, length_drop.
    destruct (_jvmci_old_thread_counters st); simpl in *; lia. }
  revert Hacc. generalize (take (Z.to_nat n) (cells_of (_jvmci_old_thread_counters st))
                             ++ drop (Z.to_nat n) out0).
  clear Hpool Hr Hr' Hout0 Hsize.
  induction Hthreads as [|tp tp' rest rest' (_ & Hcompiler & Hcells) _ IH]; intros acc Hacc;
    [done|].
  apply Forall_cons in Hrs as [Htp Hrest]. apply Forall_cons in Hrs' as [Htp' Hrest'].
  cbn [for_each]. unfold jvmci_counters_include at 1 3. rewrite Hcompiler.
  fold (jvmci_counters_include excl tp).
  destruct (jvmci_counters_include excl tp); [|by apply IH].
  rewrite !add_counters_readable by done. cbn [obind]. rewrite Hcells.
  apply IH; [done|done|].
  rewrite length_app, length_zip_with, !length_take, length_drop.
  destruct (_jvmci_counters tp); simpl in *; lia.
Qed.

(** Whatever the heap answers, the loop of an enlarging resize returns and
    leaves threads whose blocks hold the old values at the old indices. *)
Lemma resize_threads_keeps heap (tps : list JavaThread) (current_size new_size : Z) :
  0 <= current_size <= new_size ->
  Forall (fun tp => counters_of_size current_size (_jvmci_counters tp)) tps ->
  forall k : nat,
    exists tps' failed,
      resize_threads heap k tps current_size new_size = Ok (tps', failed) /\
      Forall2 (fun tp tp' =>
                 java_thread tp' = java_thread tp /\
                 is_Compiler_thread tp' = is_Compiler_thread tp /\
                 keeps_cells current_size (_jvmci_counters tp) (_jvmci_counters tp'))
        tps tps' /\
      Forall (fun tp => readable current_size (_jvmci_counters tp)) tps'.
Proof.
  intros Hsizes. assert (Hnew : 0 <= new_size) by lia.
  induction 1 as [|tp rest Htp Hrest IH]; intros k.
  - exists [], false. by repeat constructor.
  - cbn [resize_threads]. destruct (heap k) as [garbage|] eqn:Hk.
    + rewrite (resize_counters_resized _ _ _ _ _ _ Hk Hnew Htp). cbn [obind].
      destruct (IH (S k)) as (rest' & failed & Hrun & Hkeeps & Hreadable).
      rewrite Hrun. cbn [obind]. eexists _, failed. split; [reflexivity|]. split.
      * constructor; [|done]. split; [done|]. split; [done|].
        apply resized_keeps_cells; [done|lia].
      * constructor; [|done]. simpl. rewrite length_app, length_take, length_replicate.
        apply cells_of_length in Htp. lia.
    + rewrite (resize_counters_failed _ _ _ _ _ Hk). cbn [obind].
      eexists _, true. split; [reflexivity|]. split.
      * constructor; [done|]. apply Forall_Forall2_diag.
        by apply Forall_true.
      * constructor; [by apply counters_of_size_readable|].
        eapply Forall_impl; [exact Hrest|]. intros ?. apply counters_of_size_readable.
Qed.

(** X13. An enlarging resize always returns, whichever allocations fail.
    When it reports failure the counter count is what it was and [collect]
    reports exactly what it reported before the resize: the blocks that were
    already replaced are read only up to the old size, where they hold the
    old values. *)
Theorem collect_counters_after_failed_resize (ASSERT excl : bool)
    (heap : nat -> option (nat -> jlong)) (k : nat) (new_size : Z)
    (out0 : list jlong) (st : CounterState) :
  registry_wf st -> JVMCICounterSize st <= new_size ->
  JVMCICounterSize st <= Z.of_nat (length out0) ->
  exists st' resized_all,
    resize_all_jvmci_counters heap k new_size st = Ok (st', resized_all) /\
    (resized_all = false ->
     JVMCICounterSize st' = JVMCICounterSize st /\
     collect_counters ASSERT excl (Block out0) (JVMCICounterSize st) st'
     = collect_counters ASSERT excl (Block out0) (JVMCICounterSize st) st).
Proof.
  intros Hwf Hle Hout0. pose proof Hwf as (Hsize & Hpool & Hthreads).
  assert (Hnew : 0 <= new_size) by lia.
  assert (Hsizes : 0 <= JVMCICounterSize st <= new_size) by lia.
  unfold resize_all_jvmci_counters, doit.
  destruct (heap k) as [garbage|] eqn:Hk.
  - rewrite (resize_counters_array_resized _ _ _ _ _ _ Hk Hnew Hpool).
    cbn [obind resized].
    destruct (resize_threads_keeps heap (threads st) (JVMCICounterSize st) new_size
                Hsizes Hthreads (S k)) as (tps' & failed & Hrun & Hkeeps & Hreadable).
    rewrite Hrun. cbn [obind]. eexists _, (negb failed). split; [reflexivity|].
    destruct failed; [intros _|done]. split; [done|].
    apply collect_counters_keeps; simpl; try done.
    + split; [|done]. simpl. apply resized_keeps_cells; [done|lia].
    + by apply counters_of_size_readable.
    + rewrite length_app, length_take, length_replicate.
      apply cells_of_length in Hpool. lia.
    + eapply Forall_impl; [exact Hthreads|]. intros ?. apply counters_of_size_readable.
  - rewrite (resize_counters_array_NULL _ _ _ _ _ Hk). cbn [obind].
    exists st, false. done.
Qed.

(** ** Box caches: the order of the calls *)

Lemma resolved_classes_app (calls1 calls2 : list box_call) :
  resolved_classes (calls1 ++ calls2) = resolved_classes calls1 ++ resolved_classes calls2.
Proof. induction calls1 as [|[s|s] calls1 IH]; simpl; by rewrite ?IH. Qed.

Lemma initialized_classes_app (calls1 calls2 : list box_call) :
  initialized_classes (calls1 ++ calls2)
  = initialized_classes calls1 ++ initialized_classes calls2.
Proof. induction calls1 as [|[s|s] calls1 IH]; simpl; by rewrite ?IH. Qed.

Lemma box_classes_NoDup : NoDup box_classes.
Proof.
  unfold box_classes. repeat (apply NoDup_cons; split); try apply NoDup_nil_2.
  all: rewrite ?elem_of_cons, ?elem_of_nil; intros Hin.
  all: repeat destruct Hin as [Hin|Hin]; done.
Qed.

Section BoxCallsProperties.
Variable VM : Type.
Variable Klass : Type.
Variable oop : Type.
Variable resolve_or_fail : Symbol -> bool -> VM -> VM * (Klass + oop).
Variable is_not_initialized : Klass -> VM -> bool.
Variable initialize : Klass -> VM -> VM * option oop.

Local Abbreviation round := (initialize_box_class VM Klass oop resolve_or_fail
                               is_not_initialized initialize).
Local Abbreviation rounds := (initialize_box_classes VM Klass oop resolve_or_fail
                                is_not_initialized initialize).
Local Abbreviation ensure := (ensure_box_caches_initialized VM Klass oop resolve_or_fail
                                is_not_initialized initialize).

Lemma initialize_box_class_trace (sym : Symbol) (vm0 : VM) (calls : list box_call) :
  exists new,
    snd (fst (round sym (vm0, calls))) = calls ++ new /\
    resolved_classes new = [sym] /\
    initialized_classes new `sublist_of` [sym].
Proof.
  unfold initialize_box_class.
  destruct (resolve_or_fail sym true vm0) as [vm1 [k|e]]; simpl.
  - destruct (is_not_initialized k vm1).
    + destruct (initialize k vm1) as [vm2 pending]. simpl.
      exists [Resolve sym; Initialize sym]. done.
    + exists [Resolve sym]. split; [done|]. split; [done|]. simpl. apply sublist_nil_l.
  - exists [Resolve sym]. split; [done|]. split; [done|]. simpl. apply sublist_nil_l.
Qed.

Lemma initialize_box_classes_trace (syms : list Symbol) (vm0 : VM) (calls : list box_call) :
  exists new,
    snd (fst (rounds syms (vm0, calls))) = calls ++ new /\
    resolved_classes new `prefix_of` syms /\
    initialized_classes new `sublist_of` resolved_classes new /\
    (snd (rounds syms (vm0, calls)) = None -> resolved_classes new = syms).
Proof.
  revert vm0 calls. induction syms as [|sym rest IH]; intros vm0 calls;
    cbn [initialize_box_classes].
  - exists []. simpl. rewrite app_nil_r. done.
  - destruct (initialize_box_class_trace sym vm0 calls) as (new1 & Hcalls1 & Hres1 & Hinit1).
    destruct (round sym (vm0, calls)) as [[vm1 calls1] [e|]] eqn:Hround;
      simpl in Hcalls1; subst calls1.
    + exists new1. simpl. split; [done|]. rewrite Hres1. split; [by exists rest|].
      split; [done|]. done.
    + destruct (IH vm1 (calls ++ new1)) as (new & Hcalls & Hprefix & Hsub & Hall).
      exists (new1 ++ new). rewrite Hcalls, <- app_assoc.
      rewrite resolved_classes_app, initialized_classes_app, Hres1.
      split; [done|]. split; [by apply prefix_cons|].
      split; [by apply sublist_app|].
      intros Hnone. simpl. f_equal. by apply Hall.
Qed.

(** X14. A call of [ensure_box_caches_initialized] that finds the flag clear
    resolves classes of the list in the order of the list, each at most
    once, and stops at the first exception: the classes it resolves are a
    prefix of the six, all six when no exception is pending at the return.
    It initialises only classes it has resolved, in the same order. *)
Theorem ensure_box_caches_initialized_call_order (st : BoxState VM) :
  _box_caches_initialized VM st = false ->
  exists new,
    box_calls VM (fst (ensure st)) = box_calls VM st ++ new /\
    resolved_classes new `prefix_of` box_classes /\
    NoDup (resolved_classes new) /\
    initialized_classes new `sublist_of` resolved_classes new /\
    (snd (ensure st) = None -> resolved_classes new = box_classes).
Proof.
  intros Hflag. unfold ensure_box_caches_initialized. rewrite Hflag.
  destruct (initialize_box_classes_trace box_classes (vm VM st) (box_calls VM st))
    as (new & Hcalls & Hprefix & Hsub & Hall).
  exists new.
  assert (Hnodup : NoDup (resolved_classes new)).
  { destruct Hprefix as [rest Hrest]. pose proof box_classes_NoDup as Hnd.
    rewrite Hrest in Hnd. by apply NoDup_app in Hnd as [? _]. }
  destruct (rounds box_classes (vm VM st, box_calls VM st)) as [[vm1 calls1] [e|]];
    simpl in *; done.
Qed.

End BoxCallsProperties.

(** ** Shared library loader: a load that succeeds *)

(** X15. When the path is found, [os::dll_load] returns a handle and the
    event can be logged, the call caches the handle together with [strdup]'s
    copy of the path and returns both, and so does every later call. The
    copy is not checked: when [strdup] fails, this caller and all later ones
    get the handle with a NULL path. *)
Theorem get_shared_library_successful_load (ASSERT LogEvents : bool)
    (JVMCIEventLogLevel JVMCITraceLevel : Z) (JVMCILibPath : option string)
    (JVMCI_SHARED_LIBRARY_NAME get_dll_dir : string)
    (dll_locate_lib : string -> string -> option string)
    (dll_load : string -> Z * string) (strdup : string -> option string)
    (current : option Thread) (st : LibraryState)
    (path ebuf : string) (handle : Z) (lg : LogState) :
  _shared_library_handle st = 0 ->
  locate_shared_library JVMCILibPath JVMCI_SHARED_LIBRARY_NAME get_dll_dir dll_locate_lib
  = inr path ->
  dll_load path = (handle, ebuf) -> handle <> 0 ->
  JVMCI_event_1 LogEvents JVMCIEventLogLevel JVMCITraceLevel
    ("loaded JVMCI shared library from " +:+ path) current (library_log st) = Ok lg ->
  let st' := MkLibraryState handle (strdup path) (dll_load_calls st ++ [path]) lg in
  get_shared_library ASSERT LogEvents JVMCIEventLogLevel JVMCITraceLevel JVMCILibPath
    JVMCI_SHARED_LIBRARY_NAME get_dll_dir dll_locate_lib dll_load strdup
    true true current st
  = (st', Ok (handle, strdup path)) /\
  forall cs : list library_call,
    get_shared_library_calls ASSERT LogEvents JVMCIEventLogLevel JVMCITraceLevel
      JVMCILibPath JVMCI_SHARED_LIBRARY_NAME get_dll_dir dll_locate_lib dll_load strdup
      cs st'
    = (st', map (fun _ => Ok (handle, strdup path)) cs).
Proof.
  intros H0 Hlocate Hload Hhandle Hevent st'. split.
  - unfold get_shared_library, get_shared_library_from. rewrite H0. simpl.
    replace (assert ASSERT true "must be") with (Ok tt : outcome unit) by (by destruct ASSERT).
    unfold load_shared_library. rewrite H0, Hlocate, Hload. simpl.
    destruct (Z.eqb_spec handle 0); [done|]. simpl. by rewrite Hevent.
  - intros cs.
    apply (get_shared_library_calls_cached ASSERT LogEvents JVMCIEventLogLevel
             JVMCITraceLevel JVMCILibPath JVMCI_SHARED_LIBRARY_NAME get_dll_dir
             dll_locate_lib dll_load strdup cs st').
    done.
Qed.

(** ** Counter registry: excluded threads *)

(** X16. With compiler threads excluded, [collect] never reads the block of
    a compiler thread: whatever those threads' pointers are, live blocks of
    any size, NULL or already freed, the call has the same outcome. *)
Theorem collect_counters_skips_excluded_threads (ASSERT : bool) (array : jlong_ptr)
    (length : Z) (st : CounterState) (tps' : list JavaThread) :
  Forall2 (fun tp tp' =>
             tp' = tp \/ (is_Compiler_thread tp = true /\ is_Compiler_thread tp' = true))
    (threads st) tps' ->
  collect_counters ASSERT true array length
    (MkCounterState (JVMCICounterSize st) (_jvmci_old_thread_counters st) tps')
  = collect_counters ASSERT true array length st.
Proof.
  intros Hthreads. unfold collect_counters. simpl.
  destruct (assert _ _ _); [|done|done]. cbn [obind].
  destruct (copy_counters _ _ _) as [array1| |]; [|done|done]. cbn [obind].
  revert array1. induction Hthreads as [|tp tp' rest rest' Htp _ IH]; intros array1; [done|].
  cbn [for_each].
  assert (Hbody : (if jvmci_counters_include true tp'
                   then add_counters length (_jvmci_counters tp') array1 else Ok array1)
                  = (if jvmci_counters_include true tp
                     then add_counters length (_jvmci_counters tp) array1 else Ok array1)).
  { destruct Htp as [->|[Hc Hc']]; [done|].
    unfold jvmci_counters_include. by rewrite Hc, Hc'. }
  rewrite Hbody. destruct (if jvmci_counters_include true tp then _ else _); [|done|done].
  cbn [obind]. apply IH.
Qed.

(** * Further examples *)

Lemma registry_two_threads_wf : registry_wf registry_two_threads.
Proof. split; [done|]. split; [done|]. by repeat constructor. Defined.

Lemma pool_of_sevens_is_jlong : Forall is_jlong [7; 7; 7; 7].
Proof. by repeat constructor. Defined.

(** Three fatal errors, the first by thread 7, with [ErrorFileToStderr]. *)
Lemma fatal_log_calls_share_descriptor_witness :
  exists st',
    fatal_log_calls false true None "hs_err_pid%p_libjvmci.log" prepare_log_file_fails 13
      (fun _ => "Permission denied") [(7, "a"); (8, "b"); (7, "c")] fatal_log_unused
    = Some st' /\
    _fatal_log_init_thread st' = 7 /\
    written st' = [(2, "a"); (2, "b"); (2, "c")].
Proof.
  destruct (fatal_log_calls_share_descriptor false true None "hs_err_pid%p_libjvmci.log"
              prepare_log_file_fails 13 (fun _ => "Permission denied") 7 "a"
              [(8, "b"); (7, "c")] fatal_log_unused eq_refl ltac:(done))
    as (st1 & st' & Hfirst & _ & Hall & Hinit & _ & _ & _ & Hwritten).
  exists st'. split; [exact Hall|]. split; [exact Hinit|].
  injection Hfirst as <-. exact Hwritten.
Defined.

Lemma event_touches_only_its_sinks_witness :
  exists st',
    event true 1 1 1 "hello" (Some main_thread) log_ready = Ok st' /\
    tty log_ready `prefix_of` tty st' /\ _verbose_events st' = None.
Proof.
  eexists. split; [reflexivity|].
  destruct (event_touches_only_its_sinks true 1 1 1 "hello" (Some main_thread) log_ready _
              eq_refl) as (Hprefix & Hverbose & _).
  split; [exact Hprefix | exact (Hverbose eq_refl)].
Defined.

(** Level 1 is configured, so there is no verbose log; an event of level 0
    is within the configured level and goes to the verbose log. *)
Lemma event_without_log_is_fatal_witness :
  event true 1 1 0 "hello" (Some main_thread) log_ready
  = Fatal (Diag "JVMCI event log not yet initialized" []).
Proof.
  apply (event_without_log_is_fatal 1 1 0 "hello" (Some main_thread) log_ready);
    [done | reflexivity].
Defined.

(** Twenty entries, level 3 of at most 4: two thousand verbose entries. *)
Lemma initialize_event_logs_capacities_witness :
  initialize_event_logs true 3 20 4 (MkLogState None None [])
  = Ok (MkLogState
          (Some (MkStringEventLog "JVMCI Events" "jvmci" (Z.to_nat 20) []))
          (Some (MkStringEventLog "Verbose JVMCI Events" "verbose-jvmci"
                   (Z.to_nat (20 * 10 ^ 2)) []))
          []).
Proof.
  apply (initialize_event_logs_capacities 3 20 4 (MkLogState None None []));
    [done | done | done | reflexivity].
Defined.

Lemma initialize_globals_readies_event_logs_witness :
  exists st1 lg',
    initialize_globals true 2 2 4 true lifecycle_fresh = Ok st1 /\
    event true 2 1 2 "compiling" None (lifecycle_log st1) = Ok lg'.
Proof.
  eexists. 
  destruct (initialize_globals_readies_event_logs true 2 1 2 4 true lifecycle_fresh _
              eq_refl) as [Hready Hevents].
  destruct (Hevents _ Hready 2 "compiling" None ltac:(done)) as (lg' & Hrun & _).
  exists lg'. split; [reflexivity | exact Hrun].
Defined.

Lemma shutdown_after_initialize_globals_witness :
  exists st1 st2,
    initialize_globals true 1 2 4 true lifecycle_fresh = Ok st1 /\
    shutdown true 1 1 (Some main_thread) st1 = Ok st2 /\
    in_shutdown st2 = true /\
    runtime_calls st2 = [RuntimeShutdown 1; RuntimeShutdown 0].
Proof.
  eexists.
  destruct (shutdown_after_initialize_globals true 1 1 2 4 true (Some main_thread)
              lifecycle_fresh _ eq_refl) as (st2 & Hrun & Hflag & _ & _ & _ & Hcalls).
  exists st2. split; [reflexivity|]. split; [exact Hrun|]. split; [exact Hflag|exact Hcalls].
Defined.

(** A Java thread and a compiler thread exit, compiler threads excluded. *)
Lemma accumulate_counters_of_exiting_threads_witness :
  exists st',
    for_each [exiting_java_thread; exiting_compiler_thread] (accumulate_counters true)
      registry_one_thread = Ok st' /\
    registry_wf st' /\
    counter_at (_jvmci_old_thread_counters st') 0 = 12.
Proof.
  destruct (accumulate_counters_of_exiting_threads true
              [exiting_java_thread; exiting_compiler_thread] registry_one_thread
              registry_one_thread_wf pool_of_sevens_is_jlong ltac:(by repeat constructor))
    as (st' & Hrun & Hwf & _ & _ & _ & Hcells).
  exists st'. split; [exact Hrun|]. split; [exact Hwf|]. exact (Hcells 0%nat eq_refl).
Defined.

Lemma collect_counters_unchanged_by_thread_exit_witness :
  exists st1,
    accumulate_counters false exiting_compiler_thread registry_two_threads = Ok st1 /\
    collect_counters true false (Block [0; 0; 0; 0]) 4
      (MkCounterState (JVMCICounterSize st1) (_jvmci_old_thread_counters st1)
         [MkJavaThread main_thread false (Block [1; 2; 3; 4])])
    = collect_counters true false (Block [0; 0; 0; 0]) 4 registry_two_threads.
Proof.
  exact (collect_counters_unchanged_by_thread_exit true false [0; 0; 0; 0]
           [MkJavaThread main_thread false (Block [1; 2; 3; 4])] []
           exiting_compiler_thread registry_two_threads
           registry_two_threads_wf pool_of_sevens_is_jlong eq_refl ltac:(done)).
Defined.

Lemma collect_counters_after_resize_witness :
  exists st' out,
    resize_all_jvmci_counters heap_plenty 0 8 registry_two_threads = Ok (st', true) /\
    collect_counters true false (Block [9; 9; 9; 9; 9; 9; 9; 9]) 8 st' = Ok (Block out) /\
    out !! 0%nat = Some 13 /\ out !! 7%nat = Some 0.
Proof.
  destruct (collect_counters_after_resize true false heap_plenty 0 8
              [9; 9; 9; 9; 9; 9; 9; 9] registry_two_threads
              registry_two_threads_wf pool_of_sevens_is_jlong ltac:(done)
              ltac:(intros i _; by eexists) ltac:(done))
    as (st' & out & Hresize & Hcollect & Hlow & Hhigh).
  exists st', out. split; [exact Hresize|]. split; [exact Hcollect|].
  split; [exact (Hlow 0%nat eq_refl) | by apply (Hhigh 7%nat)].
Defined.

Lemma resize_all_jvmci_counters_round_trip_witness :
  exists st1,
    resize_all_jvmci_counters heap_plenty 0 8 registry_two_threads = Ok (st1, true) /\
    JVMCICounterSize st1 = 8 /\
    resize_all_jvmci_counters heap_plenty 3 4 st1 = Ok (registry_two_threads, true).
Proof.
  exact (resize_all_jvmci_counters_round_trip heap_plenty 0 3 8 registry_two_threads
           registry_two_threads_wf ltac:(done)
           ltac:(intros i _; by eexists) ltac:(intros i _; by eexists)).
Defined.

Lemma init_counters_zero_fills_witness :
  init_counters heap_plenty 0 (MkCounterState 3 NULL [])
  = Ok (MkCounterState 3 (Block [0; 0; 0]) []) /\
  init_counters heap_one_block 5 (MkCounterState 0 Freed []) = Ok (MkCounterState 0 NULL []).
Proof.
  split.
  - destruct (init_counters_zero_fills true false heap_plenty 0 [0; 0; 0]
                (MkCounterState 3 NULL []) ltac:(done) ltac:(intros _; by eexists)
                ltac:(done)) as (pool & Hrun & _ & Hpos & _).
    rewrite Hrun, (Hpos eq_refl). reflexivity.
  - destruct (init_counters_zero_fills true false heap_one_block 5 []
                (MkCounterState 0 Freed []) ltac:(done) ltac:(done) ltac:(done))
      as (pool & Hrun & _ & _ & Hzero & _).
    rewrite Hrun, (Hzero eq_refl). reflexivity.
Defined.

(** The pool is resized, the allocation for the first thread fails. *)
Lemma collect_counters_after_failed_resize_witness :
  exists st',
    resize_all_jvmci_counters heap_one_block 0 8 registry_two_threads = Ok (st', false) /\
    length (cells_of (_jvmci_old_thread_counters st')) = 8%nat /\
    collect_counters true false (Block [0; 0; 0; 0]) 4 st'
    = collect_counters true false (Block [0; 0; 0; 0]) 4 registry_two_threads.
Proof.
  destruct (collect_counters_after_failed_resize true false heap_one_block 0 8 [0; 0; 0; 0]
              registry_two_threads registry_two_threads_wf ltac:(done) ltac:(done))
    as (st' & ok & Hrun & Hfailed).
  assert (Hok : ok = false) by (vm_compute in Hrun; congruence).
  subst ok. exists st'. split; [exact Hrun|]. split.
  - vm_compute in Hrun. injection Hrun as <-. reflexivity.
  - exact (proj2 (Hfailed eq_refl)).
Defined.

Lemma ensure_box_caches_initialized_call_order_witness :
  exists new,
    box_calls _ (fst (ensure_box_caches_initialized (list Symbol) Symbol string
                        resolve_always never_initialized initialize_but_Integer
                        box_state_fresh))
    = [] ++ new /\
    resolved_classes new `prefix_of` box_classes /\
    initialized_classes new `sublist_of` resolved_classes new.
Proof.
  destruct (ensure_box_caches_initialized_call_order (list Symbol) Symbol string
              resolve_always never_initialized initialize_but_Integer box_state_fresh
              eq_refl) as (new & Hcalls & Hprefix & _ & Hsub & _).
  exists new. split; [exact Hcalls|]. split; [exact Hprefix | exact Hsub].
Defined.

(** The library loads and [strdup] fails. *)
Lemma get_shared_library_successful_load_witness :
  get_shared_library true false 0 0 None "jvmcicompiler" "/jdk/lib"
    locate_in_dir dll_load_succeeds strdup_fails true true None library_unloaded
  = (MkLibraryState 4096 None ["/jdk/lib/jvmcicompiler"] (MkLogState None None []),
     Ok (4096, None)) /\
  get_shared_library_calls true false 0 0 None "jvmcicompiler" "/jdk/lib"
    locate_in_dir dll_load_succeeds strdup_fails
    [MkLibraryCall true true None; MkLibraryCall false false None]
    (MkLibraryState 4096 None ["/jdk/lib/jvmcicompiler"] (MkLogState None None []))
  = (MkLibraryState 4096 None ["/jdk/lib/jvmcicompiler"] (MkLogState None None []),
     [Ok (4096, None); Ok (4096, None)]).
Proof.
  destruct (get_shared_library_successful_load true false 0 0 None "jvmcicompiler"
              "/jdk/lib" locate_in_dir dll_load_succeeds strdup_fails None library_unloaded
              "/jdk/lib/jvmcicompiler" "" 4096 (MkLogState None None [])
              eq_refl eq_refl eq_refl ltac:(done) eq_refl) as [Hload Hlater].
  split; [exact Hload|].
  exact (Hlater [MkLibraryCall true true None; MkLibraryCall false false None]).
Defined.

(** The compiler thread's block has been freed; compiler threads are
    excluded. *)
Lemma collect_counters_skips_excluded_threads_witness :
  collect_counters true true (Block [0; 0; 0; 0]) 4
    (MkCounterState 4 (Block [7; 7; 7; 7])
       [MkJavaThread main_thread false (Block [1; 2; 3; 4]);
        MkJavaThread compiler_thread true Freed])
  = collect_counters true true (Block [0; 0; 0; 0]) 4 registry_two_threads.
Proof.
  apply (collect_counters_skips_excluded_threads true (Block [0; 0; 0; 0]) 4
           registry_two_threads).
  constructor; [by left|]. constructor; [by right|]. constructor.
Defined.
